(** * PyImageOrganizer: a shallow embedding of [py_image_organizer/image_organizer.py]

    The class [ImageOrganizer] sorts the files of a directory into
    [<root>/{images,videos,unknown}/<year>/<month>/<timestamp><ext>].
    This development embeds the class method by method:

    - Python values the methods compute with (strings, [None], integers,
      exceptions) are modelled in [Module Py];
    - [pathlib] paths are lists of components ([Module PathLib]);
    - the file system is a finite map from paths to nodes ([Module FS]);
    - the libraries the class calls (MediaInfo, PIL, mimetypes, the clock) are
      a record of oracles, [Env];
    - the methods run in a state-and-exception monad over the file system,
      standard output, the records handed to the callback, and the object's
      own fields.

    Strings are the UTF-8 bytes of Python's [str].  On ASCII text
    [str.lower] is computed; on any other text it is what the oracle
    [unicode_lower] of [Env] answers.  [int] and the [\d] of [re] read
    the digits and the white space of ASCII only.  Paths follow the POSIX
    flavour of [pathlib].  The file system has no permissions and no
    limits on lengths or space, and it does not interpret the entry [..]:
    the properties that name a directory made from a timestamp exclude
    that entry. *)

From Stdlib Require Import ZArith Ascii String List Lia DecimalString.
From Stdlib Require OrderedTypeEx.
From Stdlib Require DecimalPos.
From stdpp Require Import base option gmap strings list sorting.

Open Scope string_scope.

(* ===================================================================== *)
(** * Python values and built-ins *)
(* ===================================================================== *)

Module Py.

(** Exception classes that the code raises, catches, or receives from a
    library.  Only subclasses of [Exception] are modelled. *)
Inductive exn_class :=
| IndexError | KeyError | ValueError | TypeError
| OSError | FileExistsError | FileNotFoundError | IsADirectoryError
| NotADirectoryError | SameFileError | SpecialFileError | ShutilError
| UnidentifiedImageError
| OtherException.

Record exn := Exn { exn_cls : exn_class; exn_msg : string }.

(** [isinstance(e, OSError)]: the OS errors, shutil's errors and PIL's
    [UnidentifiedImageError] all derive from [OSError]. *)
Definition is_OSError (c : exn_class) : bool :=
  match c with
  | OSError | FileExistsError | FileNotFoundError | IsADirectoryError
  | NotADirectoryError | SameFileError | SpecialFileError | ShutilError
  | UnidentifiedImageError => true
  | _ => false
  end.

(** The outcome of running a piece of Python: a value or a raised
    exception. *)
Inductive result (A : Type) :=
| Ok (a : A)
| Raise (e : exn).
Arguments Ok {A} a.
Arguments Raise {A} e.

Definition raise_cls {A} (c : exn_class) (msg : string) : result A :=
  Raise (Exn c msg).

(** ** Characters *)

Definition is_digit (c : ascii) : bool :=
  let n := nat_of_ascii c in (48 <=? n)%nat && (n <=? 57)%nat.

Definition digit_val (c : ascii) : N := N.of_nat (nat_of_ascii c - 48).

Definition is_upper (c : ascii) : bool :=
  let n := nat_of_ascii c in (65 <=? n)%nat && (n <=? 90)%nat.

(** The white space that [int] skips at both ends of ASCII text: TAB to
    CR, and the space. *)
Definition is_space (c : ascii) : bool :=
  let n := nat_of_ascii c in
  ((9 <=? n)%nat && (n <=? 13)%nat) || (n =? 32)%nat.

Definition lower_char (c : ascii) : ascii :=
  if is_upper c then ascii_of_nat (nat_of_ascii c + 32) else c.

(** ** [str] methods *)

(** Every character of [s] is ASCII. *)
Fixpoint is_ascii (s : string) : bool :=
  match s with
  | EmptyString => true
  | String c r => (nat_of_ascii c <? 128)%nat && is_ascii r
  end.

(** [s.lower()] for ASCII [s]; see [str_lower] for the method on any
    string. *)
Fixpoint lower (s : string) : string :=
  match s with
  | EmptyString => EmptyString
  | String c r => String (lower_char c) (lower r)
  end.

(** [s.split(sep)] for a one-character separator: never the empty list. *)
Fixpoint split (sep : ascii) (s : string) : list string :=
  match s with
  | EmptyString => [EmptyString]
  | String c r =>
      if Ascii.eqb c sep then EmptyString :: split sep r
      else match split sep r with
           | h :: t => String c h :: t
           | [] => [String c EmptyString]
           end
  end.

(** [s.replace(old, new)] for a one-character [old]. *)
Fixpoint replace (old : ascii) (new : string) (s : string) : string :=
  match s with
  | EmptyString => EmptyString
  | String c r =>
      if Ascii.eqb c old then new ++ replace old new r
      else String c (replace old new r)
  end.

(** [sub in s] *)
Fixpoint contains (sub s : string) : bool :=
  String.prefix sub s ||
  match s with
  | EmptyString => false
  | String _ r => contains sub r
  end.

(** [l[i]] for [i >= 0]: [IndexError] out of range. *)
Definition index {A} (l : list A) (i : nat) : result A :=
  match nth_error l i with
  | Some x => Ok x
  | None => raise_cls IndexError "list index out of range"
  end.

(** ** [int(s)] and [str(n)] *)

Fixpoint lstrip (s : string) : string :=
  match s with
  | String c r => if is_space c then lstrip r else s
  | EmptyString => EmptyString
  end.

Fixpoint rstrip (s : string) : string :=
  match s with
  | EmptyString => EmptyString
  | String c r =>
      match rstrip r with
      | EmptyString => if is_space c then EmptyString else String c EmptyString
      | r' => String c r'
      end
  end.

(** Decimal digits, single underscores allowed between two digits. *)
Fixpoint int_digits (s : string) (acc : N) (after_digit : bool) : option N :=
  match s with
  | EmptyString => if after_digit then Some acc else None
  | String c r =>
      if is_digit c then int_digits r (10 * acc + digit_val c)%N true
      else if Ascii.eqb c "_" && after_digit then int_digits r acc false
      else None
  end.

(** [int(s)]: surrounding white space, an optional sign, decimal digits.
    This is [int] on ASCII text; Python also reads the decimal digits and
    the white space of other scripts, where this function raises.  The
    limit of 4300 digits that CPython 3.11 puts on the conversions between
    [int] and [str] (and that [sys.set_int_max_str_digits] lifts) is not
    modelled. *)
Definition int (s : string) : result Z :=
  let body := rstrip (lstrip s) in
  let '(neg, ds) :=
    match body with
    | String "-" r => (true, r)
    | String "+" r => (false, r)
    | _ => (false, body)
    end in
  match int_digits ds 0%N false with
  | Some n => Ok (if neg : bool then (- Z.of_N n)%Z else Z.of_N n)
  | None => raise_cls ValueError ("invalid literal for int() with base 10: " ++ s)
  end.

(** [str(n)] for an integer. *)
Definition str_of_Z (z : Z) : string :=
  NilZero.string_of_int (Z.to_int z).

Definition str_of_nat (n : nat) : string :=
  NilZero.string_of_uint (Nat.to_uint n).

(** Truth value of [None | str]: [None] and [''] are false. *)
Definition truthy (v : option string) : bool :=
  match v with
  | Some s => negb (String.eqb s EmptyString)
  | None => false
  end.

(** ** [re.search(r"\((\d+)\)", s)]

    The leftmost position at which an opening parenthesis is followed by
    one or more digits and a closing parenthesis; the value is group 1.
    The digits are those of ASCII; [\d] also matches the decimal digits of
    other scripts, which this function passes over. *)

(** The longest run of digits at the head of [s], and the rest. *)
Fixpoint span_digits (s : string) : string * string :=
  match s with
  | String c r =>
      if is_digit c then let '(d, rest) := span_digits r in (String c d, rest)
      else (EmptyString, s)
  | EmptyString => (EmptyString, EmptyString)
  end.

(** A match of [(\d+)\)] at the head of [s] (just after the ["("]). *)
Definition match_counter_here (s : string) : option string :=
  match span_digits s with
  | (String c d, String ")" _) => Some (String c d)
  | _ => None
  end.

Fixpoint re_search_counter (s : string) : option string :=
  match s with
  | EmptyString => None
  | String c r =>
      if Ascii.eqb c "(" then
        match match_counter_here r with
        | Some g => Some g
        | None => re_search_counter r
        end
      else re_search_counter r
  end.

(** ** [calendar.month_name] (C / English locale): index 0 is the empty
    string, negative indices count from the end. *)
Definition month_names : list string :=
  [""; "January"; "February"; "March"; "April"; "May"; "June"; "July";
   "August"; "September"; "October"; "November"; "December"].

Definition month_name (i : Z) : result string :=
  if (0 <=? i)%Z then index month_names (Z.to_nat i)
  else if (-13 <=? i)%Z then index month_names (Z.to_nat (13 + i))
  else raise_cls IndexError "list index out of range".

End Py.

(* ===================================================================== *)
(** * [pathlib] (POSIX flavour) *)
(* ===================================================================== *)

Module PathLib.
Import Py.

(** A path is the list of its components below the file-system root.  The
    component [".."] is not interpreted. *)
Abbreviation path := (list string).

(** The components of a path written as a string: empty components and
    ["."] are dropped. *)
Definition parts (s : string) : path :=
  filter (fun c => negb (String.eqb c "") && negb (String.eqb c "."))
         (split "/" s).

(** [p / s]: an absolute [s] replaces [p]. *)
Definition joinpath (p : path) (s : string) : path :=
  if String.prefix "/" s then parts s else p ++ parts s.

(** [p.name] and [p.parent] *)
Definition name (p : path) : string := List.last p "".
Definition parent (p : path) : path := removelast p.

(** [str(p)] *)
Definition str (p : path) : string :=
  match p with
  | [] => "/"
  | _ => String.concat "" (map (fun c => "/" ++ c) p)
  end.

(** [n.rfind(".")] *)
Fixpoint rfind (c : ascii) (n : string) : option nat :=
  match n with
  | EmptyString => None
  | String a r =>
      match rfind c r with
      | Some i => Some (S i)
      | None => if Ascii.eqb a c then Some 0%nat else None
      end
  end.

(** [PurePath(n).suffix] for a final component [n]: from the last dot on,
    unless that dot is the first or the last character. *)
Definition suffix_of (n : string) : string :=
  match rfind "." n with
  | Some i =>
      if (0 <? i)%nat && (i <? String.length n - 1)%nat
      then String.substring i (String.length n - i) n
      else ""
  | None => ""
  end.

Definition suffix (p : path) : string := suffix_of (name p).

(** [str(PurePath(n).with_suffix(""))] for a final component [n]. *)
Definition with_suffix_empty (n : string) : result string :=
  if String.eqb n "" then raise_cls ValueError "PosixPath('.') has an empty name"
  else
    let sfx := suffix_of n in
    Ok (String.substring 0 (String.length n - String.length sfx) n).

(** Paths are ordered as their lists of components, components as
    strings of code units. *)
Fixpoint compare (p q : path) : comparison :=
  match p, q with
  | [], [] => Eq
  | [], _ :: _ => Lt
  | _ :: _, [] => Gt
  | a :: p', b :: q' =>
      match String.compare a b with
      | Eq => compare p' q'
      | c => c
      end
  end.

Definition le (p q : path) : Prop := compare p q <> Gt.

#[global] Instance le_dec : RelDecision le.
Proof. intros p q. unfold le. destruct (compare p q); [left|left|right]; congruence. Defined.

(** [sorted(ps)] and [sorted(ps, reverse=True)] on distinct paths. *)
Definition sorted (ps : list path) : list path := merge_sort le ps.
Definition sorted_reverse (ps : list path) : list path := reverse (sorted ps).

(** [d] followed by [rest] is [k]. *)
Fixpoint strip_prefix (d k : path) : option path :=
  match d, k with
  | [], _ => Some k
  | a :: d', b :: k' => if String.eqb a b then strip_prefix d' k' else None
  | _ :: _, [] => None
  end.

End PathLib.

(* ===================================================================== *)
(** * The file system *)
(* ===================================================================== *)

Module FS.
Import Py PathLib.

(** A local broken-down time, whole seconds. *)
Record datetime := DateTime {
  dt_year : nat; dt_month : nat; dt_day : nat;
  dt_hour : nat; dt_minute : nat; dt_second : nat }.

(** A regular file with its bytes, a directory, or a named pipe (an entry
    that exists and is neither file nor directory).  Symbolic links,
    sockets and devices are not modelled; the modification time of a
    directory is not refreshed when an entry is added to it. *)
Inductive node_kind :=
| KFile (content : string)
| KDir
| KOther.

Record node := Node { kind : node_kind; st_mtime : datetime }.

Abbreviation fs := (gmap path node).

Definition exists_ (d : fs) (p : path) : bool :=
  match d !! p with Some _ => true | None => false end.

Definition is_file (d : fs) (p : path) : bool :=
  match d !! p with Some (Node (KFile _) _) => true | _ => false end.

(** The root [[]] is a directory. *)
Definition is_dir (d : fs) (p : path) : bool :=
  match p with
  | [] => true
  | _ => match d !! p with Some (Node KDir _) => true | _ => false end
  end.

(** The glob pattern ["*.*"] on a name: it contains a dot. *)
Definition star_dot_star (n : string) : bool := contains "." n.

Definition paths (d : fs) : list path := (map_to_list d).*1.

(** [Path(dir).glob("*.*")]: the entries of [dir] whose name matches, in
    no particular order; nothing when [dir] is not a directory. *)
Definition glob (d : fs) (dir : path) : list path :=
  filter (fun k => match strip_prefix dir k with
                   | Some [n] => is_dir d dir && star_dot_star n
                   | _ => false
                   end = true) (paths d).

(** Every directory from [dir] down to the parent of [dir ++ rest] is a
    directory ([rest] is not empty). *)
Fixpoint walk (d : fs) (dir : path) (rest : path) : bool :=
  match rest with
  | [] => false
  | [_] => is_dir d dir
  | n :: rest' => is_dir d dir && walk d (dir ++ [n]) rest'
  end.

(** [Path(dir).rglob("*.*")]: the matching entries of [dir] and of every
    directory below it. *)
Definition rglob (d : fs) (dir : path) : list path :=
  filter (fun k => match strip_prefix dir k with
                   | Some rest => walk d dir rest && star_dot_star (name k)
                   | None => false
                   end = true) (paths d).

(** ** Operations, as outcomes on the map *)

(** [Path(p).mkdir(exist_ok=True)]: an existing directory is accepted,
    any other existing entry is a [FileExistsError]; the parent has to be a
    directory. *)
Definition mkdir_exist_ok (now : datetime) (d : fs) (p : path) : result fs :=
  if exists_ d p || match p with [] => true | _ => false end then
    if is_dir d p then Ok d
    else raise_cls FileExistsError (str p)
  else if negb (exists_ d (parent p)) && negb (is_dir d (parent p)) then
    raise_cls FileNotFoundError (str p)
  else if negb (is_dir d (parent p)) then
    raise_cls NotADirectoryError (str p)
  else Ok (<[p := Node KDir now]> d).

(** Opening [p] for writing: what stands in the way, if anything.  (A
    named pipe would block the writer; the model reports an [OSError].) *)
Definition open_for_write (d : fs) (p : path) : result unit :=
  match d !! p with
  | Some (Node KDir _) => raise_cls IsADirectoryError (str p)
  | Some (Node KOther _) => raise_cls OSError (str p)
  | Some (Node (KFile _) _) => Ok tt
  | None =>
      if is_dir d (parent p) then Ok tt
      else if exists_ d (parent p) then raise_cls NotADirectoryError (str p)
      else raise_cls FileNotFoundError (str p)
  end.

(** [shutil.copy2(src, dst)]: into [dst] when it is a directory; bytes
    and modification time are copied, an existing file is replaced. *)
Definition copy2 (d : fs) (src dst : path) : result fs :=
  let dst' : path := if is_dir d dst then (dst ++ [name src])%list else dst in
  if bool_decide (src = dst') && exists_ d src then
    raise_cls SameFileError (str src)
  else
    match d !! src, d !! dst' with
    | Some (Node KOther _), _ => raise_cls SpecialFileError (str src)
    | _, Some (Node KOther _) => raise_cls SpecialFileError (str dst')
    | None, _ => raise_cls FileNotFoundError (str src)
    | Some (Node KDir _), _ => raise_cls IsADirectoryError (str src)
    | Some (Node (KFile c) mt), _ =>
        match open_for_write d dst' with
        | Ok _ => Ok (<[dst' := Node (KFile c) mt]> d)
        | Raise e => Raise e
        end
    end.

(** [shutil.move(src, dst)] of a regular file or special entry: a rename
    that replaces an existing file.  Moving a directory (with the entries
    below it) is outside the model. *)
Definition move (d : fs) (src dst : path) : result fs :=
  let into_dir := is_dir d dst in
  let real_dst : path := if into_dir then (dst ++ [name src])%list else dst in
  if into_dir && negb (bool_decide (src = dst)) && exists_ d real_dst then
    raise_cls ShutilError ("Destination path '" ++ str real_dst ++ "' already exists")
  else
    match d !! src with
    | None => raise_cls FileNotFoundError (str src)
    | Some (Node KDir _) => raise_cls OtherException "move of a directory"
    | Some n =>
        if bool_decide (src = real_dst) then Ok d
        else if is_dir d real_dst then raise_cls IsADirectoryError (str real_dst)
        else if is_dir d (parent real_dst) then
          Ok (<[real_dst := n]> (delete src d))
        else if exists_ d (parent real_dst) then
          raise_cls NotADirectoryError (str real_dst)
        else raise_cls FileNotFoundError (str real_dst)
    end.

(** [with open(p, "a") as f: f.write(text)] *)
Definition append_text (now : datetime) (d : fs) (p : path) (text : string)
  : result fs :=
  match open_for_write d p with
  | Raise e => Raise e
  | Ok _ =>
      match d !! p with
      | Some (Node (KFile c) _) => Ok (<[p := Node (KFile (c ++ text)) now]> d)
      | _ => Ok (<[p := Node (KFile text) now]> d)
      end
  end.

(** ** [strftime] *)

Definition pad (width : nat) (n : nat) : string :=
  let s := str_of_nat n in
  String.concat "" (repeat "0" (width - String.length s)) ++ s.

Definition month_abbrs : list string :=
  ["Jan"; "Feb"; "Mar"; "Apr"; "May"; "Jun"; "Jul"; "Aug"; "Sep"; "Oct";
   "Nov"; "Dec"].

(** The shared tail ["-%d-%Y [%H.%M.%S]"]; [%Y] is the year in decimal,
    which the C library does not pad below 1000. *)
Definition strftime_tail (t : datetime) : string :=
  "-" ++ pad 2 (dt_day t) ++ "-" ++ str_of_nat (dt_year t) ++ " ["
  ++ pad 2 (dt_hour t) ++ "." ++ pad 2 (dt_minute t) ++ "."
  ++ pad 2 (dt_second t) ++ "]".

(** [t.strftime("%m-%d-%Y [%H.%M.%S]")] *)
Definition strftime_m (t : datetime) : string :=
  pad 2 (dt_month t) ++ strftime_tail t.

(** [t.strftime("%b-%d-%Y [%H.%M.%S]")] *)
Definition strftime_b (t : datetime) : string :=
  nth (dt_month t - 1) month_abbrs "" ++ strftime_tail t.

End FS.

(* ===================================================================== *)
(** * The libraries behind the class, and the state it runs in *)
(* ===================================================================== *)

Import Py PathLib FS.

(** What the imported libraries answer; the class is verified for every
    such record.
    - [mediainfo_parse file bytes]: [MediaInfo.parse(file, ...)], the
      [track_type] of each track in order, or the exception it raises;
    - [pil_getexif file bytes]: [Image.open(file).getexif()], as the
      function [get_ifd] of the [Exif] object ([str] of every value, in
      the order of [items()]), or the exception raised; [get_ifd] and
      [items()] themselves are taken not to raise;
    - [TAGS]: [PIL.ExifTags.TAGS], in the order of [items()];
    - [guess_type file]: [mimetypes.guess_type(file)];
    - [clock n]: the [n]-th reading of the local time;
    - [unicode_lower s]: [s.lower()] for a string [s] that has a character
      outside ASCII (the case mapping of the Unicode database). *)
Record Env := {
  mediainfo_parse : path -> string -> result (list string);
  pil_getexif : path -> string -> result (option Z -> list (Z * string));
  TAGS : list (Z * string);
  guess_type : path -> option string * option string;
  clock : nat -> datetime;
  unicode_lower : string -> string;
}.

(** The object: the constructor's arguments, the three category
    directories ([None] until [_make_directories] has run) and the run
    counters. *)
Record ImageOrganizer := {
  working_dir : path;
  image_dir_name : string;
  video_dir_name : string;
  unknown_dir_name : string;
  move_file : bool;
  fast_parse : bool;
  image_dir : option path;
  video_dir : option path;
  unknown_dir : option path;
  total_images : nat;
  total_videos : nat;
  total_unknown : nat;
}.

(** Attribute assignment on the object. *)
Definition with_dirs (o : ImageOrganizer) (i v u : option path)
  : ImageOrganizer :=
  {| working_dir := working_dir o; image_dir_name := image_dir_name o;
     video_dir_name := video_dir_name o;
     unknown_dir_name := unknown_dir_name o; move_file := move_file o;
     fast_parse := fast_parse o;
     image_dir := i; video_dir := v; unknown_dir := u;
     total_images := total_images o; total_videos := total_videos o;
     total_unknown := total_unknown o |}.

Definition with_totals (o : ImageOrganizer) (i v u : nat) : ImageOrganizer :=
  {| working_dir := working_dir o; image_dir_name := image_dir_name o;
     video_dir_name := video_dir_name o;
     unknown_dir_name := unknown_dir_name o; move_file := move_file o;
     fast_parse := fast_parse o;
     image_dir := image_dir o; video_dir := video_dir o;
     unknown_dir := unknown_dir o;
     total_images := i; total_videos := v; total_unknown := u |}.

(** The [callback] argument of [parse_dir]: [None] or a function. *)
Inductive callback :=
| CbNone
| CbFunction.

(** The dictionaries handed to the callback.  The ["percent"] entry is
    the quotient [progress / total] before it is formatted. *)
Inductive cb_record :=
| Progress (string_ : string) (percent : nat * nat)
| Totals (total_images_ total_videos_ total_unknown_ : string).

Inductive category := Image | Video | Unknown.

#[global] Instance category_eq_dec : EqDecision category.
Proof. solve_decision. Defined.

(** A log of the method calls [parse_dir] makes, kept beside the state
    to state which calls happened; the code has no such log. *)
Inductive call :=
| Classified (file : path) (media_type : option string)
| GotExif (file : path) (date : option string)
| GotModificationTime (file : path) (date : string)
| Placed (c : category) (file dst : path).

Record world := {
  disk : fs;
  stdout : list string;
  delivered : list cb_record;
  calls : list call;
  ticks : nat;
}.

(** ** The monad: state (object and world) with exceptions; the state
    reached when an exception is raised is kept. *)

Definition state : Type := ImageOrganizer * world.

Definition M (A : Type) : Type := state -> result A * state.

Definition ret {A} (a : A) : M A := fun s => (Ok a, s).

Definition bind {A B} (m : M A) (k : A -> M B) : M B :=
  fun s => match m s with
           | (Ok a, s') => k a s'
           | (Raise e, s') => (Raise e, s')
           end.

Definition raise {A} (c : exn_class) (msg : string) : M A :=
  fun s => (Raise (Exn c msg), s).

Definition lift {A} (r : result A) : M A := fun s => (r, s).

(** [try: m except Exception as e: h e] *)
Definition try_except {A} (m : M A) (h : exn -> M A) : M A :=
  fun s => match m s with
           | (Ok a, s') => (Ok a, s')
           | (Raise e, s') => h e s'
           end.

Declare Scope run_scope.
Delimit Scope run_scope with run.
Bind Scope run_scope with M.
Notation "x <- c1 ;; c2" := (bind c1 (fun x => c2))
  (at level 100, c1 at next level, c2 at level 200, right associativity)
  : run_scope.
Notation "c1 ;; c2" := (bind c1 (fun _ => c2))
  (at level 100, c2 at level 200, right associativity) : run_scope.
Open Scope run_scope.

Definition get_self : M ImageOrganizer := fun s => (Ok (fst s), s).
Definition set_self (f : ImageOrganizer -> ImageOrganizer) : M unit :=
  fun s => (Ok tt, (f (fst s), snd s)).
Definition get_disk : M fs := fun s => (Ok (disk (snd s)), s).
Definition set_world (f : world -> world) : M unit :=
  fun s => (Ok tt, (fst s, f (snd s))).

Definition set_disk (d : fs) : world -> world :=
  fun w => {| disk := d; stdout := stdout w; delivered := delivered w;
              calls := calls w; ticks := ticks w |}.

(** A file-system operation: its outcome, and the new map on success. *)
Definition on_disk (op : fs -> result fs) : M unit :=
  d <- get_disk ;;
  d' <- lift (op d) ;;
  set_world (set_disk d').

(** [print(line)] *)
Definition print (line : string) : M unit :=
  set_world (fun w => {| disk := disk w; stdout := stdout w ++ [line];
                         delivered := delivered w; calls := calls w;
                         ticks := ticks w |}).

(** [callback(r)]: calling [None] is a [TypeError]. *)
Definition call_callback (cb : callback) (r : cb_record) : M unit :=
  match cb with
  | CbNone => raise TypeError "'NoneType' object is not callable"
  | CbFunction =>
      set_world (fun w => {| disk := disk w; stdout := stdout w;
                             delivered := delivered w ++ [r];
                             calls := calls w; ticks := ticks w |})
  end.

Definition note (c : call) : M unit :=
  set_world (fun w => {| disk := disk w; stdout := stdout w;
                         delivered := delivered w; calls := calls w ++ [c];
                         ticks := ticks w |}).

(* ===================================================================== *)
(** * class ImageOrganizer *)
(* ===================================================================== *)

Definition nl : string := String (ascii_of_nat 10) EmptyString.
Definition nul : ascii := ascii_of_nat 0.

(** [repr] of [None | str] and of a pair of them (no quote or escape in
    the strings). *)
Definition repr_opt (o : option string) : string :=
  match o with
  | Some s => "'" ++ s ++ "'"
  | None => "None"
  end.

Definition repr_pair (p : option string * option string) : string :=
  "(" ++ repr_opt (fst p) ++ ", " ++ repr_opt (snd p) ++ ")".

Section Class.
Context (env : Env).

(** [datetime.now()] *)
Definition now : M datetime :=
  fun s => (Ok (clock env (ticks (snd s))),
            (fst s, {| disk := disk (snd s); stdout := stdout (snd s);
                       delivered := delivered (snd s); calls := calls (snd s);
                       ticks := S (ticks (snd s)) |})).

(** The time a new entry is stamped with: the clock, not advanced. *)
Definition stamp : M datetime :=
  fun s => (Ok (clock env (ticks (snd s))), s).

Definition mkdir (p : path) : M unit :=
  t <- stamp ;; on_disk (fun d => mkdir_exist_ok t d p).

(** [self.<category>_dir / s]: a [TypeError] while the directory is
    [None]. *)
Definition dir_of (o : option path) : M path :=
  match o with
  | Some p => ret p
  | None => raise TypeError "unsupported operand type(s) for /: 'NoneType' and 'str'"
  end.

(** ** [_make_directories] and [__init__] *)

Definition _make_directories : M unit :=
  self <- get_self ;;
  let root_directory := working_dir self in
  mkdir root_directory ;;
  mkdir (joinpath root_directory (image_dir_name self)) ;;
  set_self (fun o => with_dirs o
    (Some (joinpath root_directory (image_dir_name self)))
    (video_dir o) (unknown_dir o)) ;;
  mkdir (joinpath root_directory (video_dir_name self)) ;;
  set_self (fun o => with_dirs o (image_dir o)
    (Some (joinpath root_directory (video_dir_name self)))
    (unknown_dir o)) ;;
  mkdir (joinpath root_directory (unknown_dir_name self)) ;;
  set_self (fun o => with_dirs o (image_dir o) (video_dir o)
    (Some (joinpath root_directory (unknown_dir_name self)))).

(** The object as [__init__] has it just before [_make_directories]. *)
Definition fresh (working_directory : path)
    (image_dir_name video_dir_name unknown_dir_name : string)
    (move_file fast_parse : bool) : ImageOrganizer :=
  {| working_dir := working_directory;
     image_dir_name := image_dir_name;
     video_dir_name := video_dir_name;
     unknown_dir_name := unknown_dir_name;
     move_file := move_file;
     fast_parse := fast_parse;
     image_dir := None; video_dir := None; unknown_dir := None;
     total_images := 0; total_videos := 0; total_unknown := 0 |}.

(** [ImageOrganizer(working_directory, ...)] in the world [w]. *)
Definition __init__ (working_directory : path)
    (image_dir_name video_dir_name unknown_dir_name : string)
    (move_file fast_parse : bool) (w : world) : result unit * state :=
  _make_directories
    (fresh working_directory image_dir_name video_dir_name unknown_dir_name
           move_file fast_parse, w).

(** ** [_check_for_dupes] *)

Definition _check_for_dupes (file_dir : path)
    (get_year get_month file_name : string) : M string :=
  d <- get_disk ;;
  let get_last_dupe :=
    fold_left (fun _ x => re_search_counter (str x))
      (sorted_reverse
         (glob d (joinpath (joinpath file_dir get_year) get_month)))
      None in
  dupe <- match get_last_dupe with
          | Some g => n <- lift (int g) ;;
                      ret ("(" ++ str_of_Z (n + 1) ++ ")")
          | None => ret "(1)"
          end ;;
  stem <- lift (with_suffix_empty (name (parts file_name))) ;;
  ret (stem ++ dupe ++ suffix (parts file_name)).

(** ** [_img_sorter], [_video_sorter], [_unknown_sorter]

    The three methods have one body; they differ in the directory
    attribute they read. *)

(** [str(s).lower()]: computed on ASCII text, the oracle's answer
    otherwise. *)
Definition str_lower (s : string) : string :=
  if is_ascii s then lower s else unicode_lower env s.

Definition sorter (c : category) (dir : ImageOrganizer -> option path)
    (file : path) (time : string) : M unit :=
  self <- get_self ;;
  date <- lift (index (split " " time) 0) ;;
  get_year <- lift (index (split "-" date) 2) ;;
  cat_dir <- dir_of (dir self) ;;
  mkdir (joinpath cat_dir get_year) ;;
  date' <- lift (index (split " " time) 0) ;;
  mm <- lift (index (split "-" date') 0) ;;
  month_number <- lift (int mm) ;;
  month <- lift (month_name month_number) ;;
  (* [str(month_name[...]).lower()]: the month names are ASCII *)
  let get_month := lower month in
  mkdir (joinpath (joinpath cat_dir get_year) get_month) ;;
  let file_name := str_lower (time ++ suffix file) in
  let date_dir_file :=
    joinpath (joinpath (joinpath cat_dir get_year) get_month) file_name in
  d <- get_disk ;;
  (if negb (move_file self) then
     if negb (exists_ d date_dir_file) then
       on_disk (fun d => copy2 d file date_dir_file) ;;
       note (Placed c file date_dir_file)
     else
       new_file_name <- _check_for_dupes cat_dir get_year get_month file_name ;;
       on_disk (fun d => copy2 d file
                           (joinpath (parent date_dir_file) new_file_name)) ;;
       note (Placed c file (joinpath (parent date_dir_file) new_file_name))
   else
     if negb (exists_ d date_dir_file) then
       on_disk (fun d => move d file date_dir_file) ;;
       note (Placed c file date_dir_file)
     else
       new_file_name <- _check_for_dupes cat_dir get_year get_month file_name ;;
       on_disk (fun d => move d file
                           (joinpath (parent date_dir_file) new_file_name)) ;;
       note (Placed c file (joinpath (parent date_dir_file) new_file_name))).

Definition _img_sorter := sorter Image image_dir.
Definition _video_sorter := sorter Video video_dir.
Definition _unknown_sorter := sorter Unknown unknown_dir.

(** ** The exception log

    [with open(Path(Path(self.working_dir) / Path(prefix + now + ".txt")), "a") as f:
       f.write(str("\nFilename: " + str(file)) + "\n" + str(e) + "\n\n")] *)
Definition log_exception (prefix : string) (file : path) (e : exn) : M unit :=
  self <- get_self ;;
  t <- now ;;
  let log := joinpath (working_dir self) (prefix ++ strftime_b t ++ ".txt") in
  on_disk (fun d =>
    append_text t d log
      (nl ++ "Filename: " ++ str file ++ nl ++ exn_msg e ++ nl ++ nl)).

(** Reading [file] with a library: the library sees the bytes of a
    regular file, and anything else is a [FileNotFoundError]. *)
Definition read_with {A} (lib : path -> string -> result A) (file : path)
  : M A :=
  d <- get_disk ;;
  match d !! file with
  | Some (Node (KFile bytes) _) => lift (lib file bytes)
  | _ => raise FileNotFoundError (str file)
  end.

(** ** [_check_filetype_media_info] *)
Definition _check_filetype_media_info (file : path) : M (option string) :=
  try_except
    (mi <- read_with (mediainfo_parse env) file ;;
     track <- lift (index mi 1) ;;
     ret (Some track))
    (fun e =>
       match exn_cls e with
       | IndexError => ret None
       | _ => log_exception "exception_log " file e ;; ret None
       end).

(** ** [_get_exif] *)

(** The loop over [TAGS.items()]: the key of the first entry named
    ["ExifOffset"], else the last key, else [None]. *)
Fixpoint find_exif_key (tags : list (Z * string)) (exif_key : option Z)
  : option Z :=
  match tags with
  | [] => exif_key
  | (k, value) :: rest =>
      if String.eqb value "ExifOffset" then Some k
      else find_exif_key rest (Some k)
  end.

(** [TAGS.get(k, k)]: the name of the tag, else the number itself. *)
Definition tag_name (k : Z) : string + Z :=
  match List.find (fun kv => Z.eqb (fst kv) k) (TAGS env) with
  | Some kv => inl (snd kv)
  | None => inr k
  end.

(** The dictionary comprehension: later items replace earlier ones. *)
Definition make_exif_dict (info : list (Z * string)) : gmap (string + Z) string :=
  fold_left (fun m kv => <[tag_name (fst kv) := snd kv]> m) info ∅.

(** The body of the second [try] of [_get_exif]: read the tag, drop NUL
    bytes, and turn ["2013:10:01 09:17:50"] into ["10-01-2013 [09.17.50]"]. *)
Definition date_time_original (exif_dict : gmap (string + Z) string)
  : M (option string) :=
  exif_date_time_original <-
    match exif_dict !! inl "DateTimeOriginal" with
    | Some v => ret (replace nul "" v)
    | None => raise KeyError "'DateTimeOriginal'"
    end ;;
  if String.eqb exif_date_time_original "00-00-0000 [00:00:00]"
  then ret None
  else
    date <- lift (index (split " " exif_date_time_original) 0) ;;
    let date_month := split ":" date in
    time <- lift (index (split " " exif_date_time_original) 1) ;;
    let date_time := replace ":" "." time in
    mm <- lift (index date_month 1) ;;
    dd <- lift (index date_month 2) ;;
    yyyy <- lift (index date_month 0) ;;
    ret (Some (mm ++ "-" ++ dd ++ "-" ++ yyyy ++ " " ++ "["
               ++ date_time ++ "]")).

Definition _get_exif (file : path) : M (option string) :=
  opened <- try_except
    (open_image <- read_with (pil_getexif env) file ;; ret (Some open_image))
    (fun e =>
       if is_OSError (exn_cls e) then ret None
       else log_exception "exception_log" file e ;; ret None) ;;
  match opened with
  | None => ret None
  | Some open_image =>
      let exif_key := find_exif_key (TAGS env) None in
      let info := open_image exif_key in
      let exif_dict := make_exif_dict info in
      if bool_decide (exif_dict <> ∅) then
        try_except (date_time_original exif_dict)
          (fun e =>
             match exn_cls e with
             | KeyError | IndexError => ret None
             | _ => lift (Raise e)
             end)
      else ret None
  end.

(** ** [_get_modification_time]

    [datetime.fromtimestamp] raises for a time outside the years 1 to
    9999 ([ValueError]; [OverflowError] or [OSError] for a time the
    platform cannot break down, which the model does not tell apart). *)
Definition _get_modification_time (file : path) : M string :=
  d <- get_disk ;;
  match d !! file with
  | Some n =>
      let y := Z.of_nat (dt_year (st_mtime n)) in
      if (1 <=? y)%Z && (y <=? 9999)%Z then ret (strftime_m (st_mtime n))
      else raise ValueError ("year " ++ str_of_Z y ++ " is out of range")
  | None => raise FileNotFoundError (str file)
  end.

(** ** [_check_filetype_mime] *)
Definition _check_filetype_mime (file : path) : option string :=
  let parse_mime := guess_type env file in
  if contains "image" (repr_pair parse_mime) then Some "Image"
  else if contains "video" (repr_pair parse_mime) then Some "Video"
  else None.

(** ** [parse_dir] *)

(** [get_progress or callback] as a condition. *)
Definition wants_progress (get_progress : bool) (cb : callback) : bool :=
  get_progress || match cb with CbFunction => true | CbNone => false end.

Definition processing (progress total_dir_files : nat) : string :=
  "Processing file " ++ str_of_nat progress ++ " of "
  ++ str_of_nat total_dir_files.

(** The lines of the loop body that settle [file_creation_date]: the
    Exif date, else the modification time. *)
Definition file_creation_date (searched_file : path) : M string :=
  exif <- _get_exif searched_file ;;
  note (GotExif searched_file exif) ;;
  if negb (truthy exif)
  then mt <- _get_modification_time searched_file ;;
       note (GotModificationTime searched_file mt) ;; ret mt
  else ret (default "" exif).

(** The body of the [for] loop for one [searched_file]. *)
Definition parse_file (get_progress : bool) (cb : callback)
    (total_dir_files : nat) (searched_file : path) (progress : nat) : M unit :=
  d <- get_disk ;;
  if is_file d searched_file then
    if wants_progress get_progress cb then
      match cb with
      | CbNone => print (processing progress total_dir_files)
      | CbFunction =>
          call_callback cb
            (Progress (processing progress total_dir_files)
                      (progress, total_dir_files))
      end ;;
      self <- get_self ;;
      media_type <-
        (if negb (fast_parse self)
         then _check_filetype_media_info searched_file
         else ret (_check_filetype_mime searched_file)) ;;
      note (Classified searched_file media_type) ;;
      file_creation_date <- file_creation_date searched_file ;;
      if truthy media_type then
        if bool_decide (media_type = Some "Image") then
          _img_sorter searched_file file_creation_date ;;
          set_self (fun o => with_totals o (total_images o + 1)
                               (total_videos o) (total_unknown o))
        else if bool_decide (media_type = Some "Video") then
          _video_sorter searched_file file_creation_date ;;
          set_self (fun o => with_totals o (total_images o)
                               (total_videos o + 1) (total_unknown o))
        else ret tt
      else
        _unknown_sorter searched_file file_creation_date ;;
        set_self (fun o => with_totals o (total_images o) (total_videos o)
                             (total_unknown o + 1))
    else ret tt
  else ret tt.

(** The [for] loop, with the [progress] counter. *)
Fixpoint parse_loop (get_progress : bool) (cb : callback)
    (total_dir_files : nat) (glob_dir : list path) (progress : nat) : M unit :=
  match glob_dir with
  | [] => ret tt
  | searched_file :: rest =>
      parse_file get_progress cb total_dir_files searched_file progress ;;
      parse_loop get_progress cb total_dir_files rest (progress + 1)
  end.

(** [glob_dir]: the sorted list the loop runs over. *)
Definition glob_dir (d : fs) (dir_path : path) (recursive_search : bool)
  : list path :=
  if recursive_search then sorted (rglob d dir_path)
  else sorted (glob d dir_path).

Definition parse_dir (dir_path : path) (get_progress recursive_search : bool)
    (cb : callback) : M unit :=
  d <- get_disk ;;
  let glob_dir := glob_dir d dir_path recursive_search in
  let total_dir_files := length glob_dir in
  parse_loop get_progress cb total_dir_files glob_dir 1 ;;
  if wants_progress get_progress cb then
    self <- get_self ;;
    call_callback cb
      (Totals (str_of_nat (total_images self)) (str_of_nat (total_videos self))
              (str_of_nat (total_unknown self)))
  else ret tt.

End Class.

(* ===================================================================== *)
(** * A sample environment and sample trees *)
(* ===================================================================== *)

Module Sample.

Definition t0 : datetime := DateTime 2020 5 17 8 3 9.

(** The sample names are ASCII, so that [unicode_lower] is not consulted.
    Sample files are told apart by their first bytes: ["JPEG <date>"] is
    a picture whose Exif [DateTimeOriginal] is the 19 characters
    [<date>] (more bytes may follow), ["JPEG"] a
    picture without Exif data, ["MP4"] a film with a sound track, ["MP3"]
    a sound file; anything else is no media file. *)
Definition env : Env := {|
  mediainfo_parse := fun _ bytes =>
    if String.prefix "JPEG" bytes then Ok ["General"; "Image"]
    else if String.prefix "MP4" bytes then Ok ["General"; "Video"; "Audio"]
    else if String.prefix "MP3" bytes then Ok ["General"; "Audio"]
    else Ok ["General"];
  pil_getexif := fun _ bytes =>
    if String.prefix "JPEG " bytes then
      Ok (fun key =>
            if bool_decide (key = Some 34665%Z)
            then [(36867%Z, String.substring 5 19 bytes)]
            else [])
    else if String.prefix "JPEG" bytes then Ok (fun _ => [])
    else Raise (Exn UnidentifiedImageError "cannot identify image file");
  TAGS := [(306%Z, "DateTime"); (34665%Z, "ExifOffset");
           (36867%Z, "DateTimeOriginal")];
  guess_type := fun file =>
    let ext := lower (suffix file) in
    if String.eqb ext ".jpg" then (Some "image/jpeg", None)
    else if String.eqb ext ".mp4" then (Some "video/mp4", None)
    else if String.eqb ext ".mp3" then (Some "audio/mpeg", None)
    else (None, None);
  clock := fun _ => t0;
  unicode_lower := lower |}.

Definition file (bytes : string) : node := Node (KFile bytes) t0.
Definition dir : node := Node KDir t0.

Definition world_of (d : fs) : world :=
  {| disk := d; stdout := []; delivered := []; calls := []; ticks := 0 |}.

(** One batch, as in the module's [__main__]: construct the organizer
    on [out] (copy mode, accurate classification), then [parse_dir] on
    [src]. *)
Definition batch (get_progress recursive_search : bool) (cb : callback)
    (d : fs) : result unit * state :=
  match __init__ env ["out"] "images" "videos" "unknown" false false
                 (world_of d) with
  | (Ok _, s) => parse_dir env ["src"] get_progress recursive_search cb s
  | r => r
  end.

Definition disk_after (r : result unit * state) : fs := disk (snd (snd r)).
Definition calls_after (r : result unit * state) : list call :=
  calls (snd (snd r)).
Definition self_after (r : result unit * state) : ImageOrganizer :=
  fst (snd r).

(** One picture taken on 2013-10-01. *)
Definition one_picture : fs :=
  list_to_map [ (["src"], dir);
                (["src"; "a.JPG"], file "JPEG 2013:10:01 09:17:50") ].

(** A month directory holding [a.jpg], [a(1).jpg] and [a(3).jpg]. *)
Definition month_with_gap : fs :=
  list_to_map [ (["out"], dir); (["out"; "images"], dir);
                (["out"; "images"; "2013"], dir);
                (["out"; "images"; "2013"; "october"], dir);
                (["out"; "images"; "2013"; "october"; "a.jpg"], file "first");
                (["out"; "images"; "2013"; "october"; "a(1).jpg"], file "second");
                (["out"; "images"; "2013"; "october"; "a(3).jpg"], file "third") ].

(** A sound file. *)
Definition one_song : fs :=
  list_to_map [ (["src"], dir); (["src"; "song.mp3"], file "MP3") ].

(** A picture whose capture date is the all-zero value. *)
Definition zero_date : fs :=
  list_to_map [ (["src"], dir);
                (["src"; "a.JPG"], file "JPEG 0000:00:00 00:00:00") ].

(** A file whose name has no dot, beside one that has. *)
Definition with_readme : fs :=
  list_to_map [ (["src"], dir); (["src"; "README"], file "read me");
                (["src"; "notes.txt"], file "notes") ].

(** Four pictures taken within one second. *)
Definition burst : fs :=
  list_to_map [ (["src"], dir);
                (["src"; "p1.jpg"], file "JPEG 2013:10:01 09:17:50 one");
                (["src"; "p2.jpg"], file "JPEG 2013:10:01 09:17:50 two");
                (["src"; "p3.jpg"], file "JPEG 2013:10:01 09:17:50 three");
                (["src"; "p4.jpg"], file "JPEG 2013:10:01 09:17:50 four") ].

End Sample.

(** The files [parse_dir] classified, in order. *)
Definition classified (cs : list call) : list path :=
  omap (fun c => match c with Classified f _ => Some f | _ => None end) cs.

(** The number of placements made into category [c]. *)
Definition is_placed (c : category) (x : call) : bool :=
  match x, c with
  | Placed Image _ _, Image | Placed Video _ _, Video
  | Placed Unknown _ _, Unknown => true
  | _, _ => false
  end.

Definition placements (c : category) (cs : list call) : nat :=
  length (List.filter (is_placed c) cs).

Open Scope list_scope.

(* ===================================================================== *)
(** * The vocabulary of the specifications *)
(* ===================================================================== *)

(** [m] relates every state to the state it leaves, whatever the outcome. *)
Definition keeps {A} (R : relation state) (m : M A) : Prop :=
  forall s, R s (snd (m s)).

(** The frame of the helper methods: the object is untouched, nothing
    is classified or placed, and the disk moves along [Rd]. *)
Definition frame (Rd : relation fs) : relation state := fun s s' =>
  fst s' = fst s
  /\ classified (calls (snd s')) = classified (calls (snd s))
  /\ (forall c, placements c (calls (snd s')) = placements c (calls (snd s)))
  /\ Rd (disk (snd s)) (disk (snd s')).

(** What a relation on disks has to admit for the helper methods to
    follow it. *)
Class DiskRel (Rd : relation fs) := {
  dr_pre :: PreOrder Rd;
  dr_mkdir : forall t d p d', mkdir_exist_ok t d p = Ok d' -> Rd d d';
  dr_copy2 : forall d src dst d', copy2 d src dst = Ok d' -> Rd d d';
  dr_append : forall t d p x d', append_text t d p x = Ok d' -> Rd d d';
}.

(** Every entry stays, and stays a regular file or stays something else. *)
Definition kinds_stay (d d' : fs) : Prop :=
  forall q, exists_ d q = true ->
            exists_ d' q = true /\ is_file d' q = is_file d q.

(** Regular files other than [f] stay regular files. *)
Definition files_stay_but (f : path) (d d' : fs) : Prop :=
  forall q, q <> f -> is_file d q = true -> is_file d' q = true.

(** The outcome is a return, not a raise. *)
Definition is_Ok {A} (r : result A) : bool :=
  match r with Ok _ => true | Raise _ => false end.

(** What a sorter does to the state [s]: the object is untouched, nothing is
    classified, there is one more placement into [c] exactly when it
    returns, regular files other than [f] stay, and in copy mode
    ([mv = false]) every entry stays what it was. *)
Definition sorter_post (c : category) (f : path) (mv : bool) (s : state)
    (x : result unit * state) : Prop :=
  fst (snd x) = fst s
  /\ classified (calls (snd (snd x))) = classified (calls (snd s))
  /\ (forall c', placements c' (calls (snd (snd x)))
                = placements c' (calls (snd s))
                  + (if is_Ok (fst x) && bool_decide (c' = c) then 1 else 0))
  /\ (is_file (disk (snd s)) f = true ->
      files_stay_but f (disk (snd s)) (disk (snd (snd x))))
  /\ (mv = false -> kinds_stay (disk (snd s)) (disk (snd (snd x)))).

(** The run counter of a category. *)
Definition totals (o : ImageOrganizer) (c : category) : nat :=
  match c with
  | Image => total_images o
  | Video => total_videos o
  | Unknown => total_unknown o
  end.

(** The two objects differ in their counters at most. *)
Definition same_config (o o' : ImageOrganizer) : Prop :=
  with_totals o' 0 0 0 = with_totals o 0 0 0.

(** No counter moved, or exactly one moved up by one. *)
Definition step_by_one (o o' : ImageOrganizer) : Prop :=
  (forall c, totals o' c = totals o c)
  \/ (exists c, forall c', totals o' c'
                 = totals o c' + (if bool_decide (c' = c) then 1 else 0)).

(** The counters moved as the placements did. *)
Definition balanced (s s' : state) : Prop :=
  forall c, totals (fst s') c + placements c (calls (snd s))
            = totals (fst s) c + placements c (calls (snd s')).

(** What the loop body on [f] does to configuration, counters and disk. *)
Definition step_core (f : path) (s : state) (x : result unit * state) : Prop :=
  same_config (fst s) (fst (snd x))
  /\ balanced s (snd x)
  /\ step_by_one (fst s) (fst (snd x))
  /\ (is_file (disk (snd s)) f = true ->
      files_stay_but f (disk (snd s)) (disk (snd (snd x))))
  /\ (move_file (fst s) = false ->
      kinds_stay (disk (snd s)) (disk (snd (snd x)))).

(** The part of the loop body after the classification. *)
Definition rest_post (f : path) (s : state) (x : result unit * state) : Prop :=
  step_core f s x
  /\ classified (calls (snd (snd x))) = classified (calls (snd s)).

(** The loop body on a regular file, progress wanted. *)
Definition file_post (f : path) (s : state) (x : result unit * state) : Prop :=
  step_core f s x
  /\ (is_Ok (fst x) = true ->
      classified (calls (snd (snd x))) = classified (calls (snd s)) ++ [f]).

(** Counters along a stretch of the run: the configuration is kept, the
    counters moved as the placements did, and none went down. *)
Definition counted (s s' : state) : Prop :=
  same_config (fst s) (fst s') /\ balanced s s'
  /\ (forall c, totals (fst s) c <= totals (fst s') c).

(** The counters and the log of calls are as they were. *)
Definition untouched (s s' : state) : Prop :=
  (forall c, totals (fst s') c = totals (fst s) c)
  /\ calls (snd s') = calls (snd s).





(** [n] names one entry of a directory, as every file name does: it has
    no slash and no NUL byte, and is not empty, [.] or [..]. *)
Definition entry_name (n : string) : Prop :=
  contains "/" n = false /\ contains (String nul "") n = false
  /\ n <> "" /\ n <> "." /\ n <> "..".

(** [p] is a directory or is not there. *)
Definition dir_or_absent (d : fs) (p : path) : bool :=
  match d !! p with
  | Some (Node KDir _) | None => true
  | Some _ => false
  end.

(** The disk after a successful [mkdir(exist_ok=True)]. *)
Definition made (t : datetime) (d : fs) (p : path) : fs :=
  if exists_ d p then d else <[p := Node KDir t]> d.

(** A field of a date: no colon, no space, no NUL byte. *)
Definition plain (x : string) : Prop :=
  contains ":" x = false /\ contains " " x = false
  /\ contains (String nul "") x = false.

(** ** The vocabulary of the further properties *)

(** Everything but the disk and the clock is as it was. *)
Definition only_disk (s s' : state) : Prop :=
  fst s' = fst s
  /\ calls (snd s') = calls (snd s)
  /\ stdout (snd s') = stdout (snd s)
  /\ delivered (snd s') = delivered (snd s).

(** The category whose sorter gets a file of media type [media_type]:
    the [if media_type: ... elif not media_type:] of [parse_dir]. *)
Definition dispatch (media_type : option string) : option category :=
  if truthy media_type then
    if bool_decide (media_type = Some "Image"%string) then Some Image
    else if bool_decide (media_type = Some "Video"%string) then Some Video
    else None
  else Some Unknown.

(** The calls the loop body makes for one file, in order. *)
Definition file_calls (f : path) (media_type exif : option string)
    (mtime : string) (dst : path) : list call :=
  Classified f media_type :: GotExif f exif
  :: (if truthy exif then [] else [GotModificationTime f mtime])
  ++ match dispatch media_type with
     | Some c => [Placed c f dst]
     | None => []
     end.

(** What the loop body reports for one file. *)
Definition reported (cb : callback) (progress total : nat) (w w' : world) : Prop :=
  match cb with
  | CbFunction =>
      delivered w' = delivered w
                     ++ [Progress (processing progress total) (progress, total)]
      /\ stdout w' = stdout w
  | CbNone =>
      delivered w' = delivered w
      /\ stdout w' = stdout w ++ [processing progress total]
  end.

(** A sorter that returns has noted one placement, and nothing else. *)
Definition sorter_log (c : category) (f : path) (s : state)
    (x : result unit * state) : Prop :=
  fst (snd x) = fst s
  /\ stdout (snd (snd x)) = stdout (snd s)
  /\ delivered (snd (snd x)) = delivered (snd s)
  /\ match fst x with
     | Ok _ => exists dst, calls (snd (snd x)) = calls (snd s) ++ [Placed c f dst]
     | Raise _ => calls (snd (snd x)) = calls (snd s)
     end.

(** What the loop did for one file it processed: its number in the
    enumeration, the file, what the classifier, [_get_exif] and
    [_get_modification_time] returned, and where the sorter put it. *)
Record row := Row {
  row_index : nat;
  row_file : path;
  row_media_type : option string;
  row_exif : option string;
  row_mtime : string;
  row_dst : path }.

Definition row_calls (r : row) : list call :=
  file_calls (row_file r) (row_media_type r) (row_exif r) (row_mtime r)
             (row_dst r).

Definition row_position (r : row) : nat * path := (row_index r, row_file r).

(** The dictionary the callback gets for the file of the row. *)
Definition row_report (total : nat) (r : row) : cb_record :=
  Progress (processing (row_index r) total) (row_index r, total).

(** The entries of the enumeration with their numbers, counted from [i]. *)
Definition positions (i : nat) (l : list path) : list (nat * path) :=
  zip (seq i (length l)) l.

(** The number of rows handed to the sorter of [c]. *)
Definition routed (c : category) (rows : list row) : nat :=
  length (filter (fun r => dispatch (row_media_type r) = Some c) rows).

(** What the loop reported, on the callback or on standard output. *)
Definition reported_rows (cb : callback) (total : nat) (rows : list row)
    (w w' : world) : Prop :=
  match cb with
  | CbFunction =>
      delivered w' = delivered w ++ map (row_report total) rows
      /\ stdout w' = stdout w
  | CbNone =>
      delivered w' = delivered w
      /\ stdout w' = stdout w
                     ++ map (fun r => processing (row_index r) total) rows
  end.

(** The category [fast_parse] files [f] under: by the guess of
    [mimetypes], anything that is neither image nor video is unknown. *)
Definition mime_category (env : Env) (f : path) : category :=
  match dispatch (_check_filetype_mime env f) with
  | Some c => c
  | None => Unknown
  end.

(** A holiday album: two pictures, a film, a sound file, a text file, a
    file without a dot in its name, and a directory with one. *)
Definition album : fs :=
  list_to_map [ (["src"], Sample.dir);
                (["src"; "a.jpg"], Sample.file "JPEG 2013:10:01 09:17:50");
                (["src"; "b.JPG"], Sample.file "JPEG");
                (["src"; "film.mp4"], Sample.file "MP4");
                (["src"; "song.mp3"], Sample.file "MP3");
                (["src"; "notes.txt"], Sample.file "notes");
                (["src"; "README"], Sample.file "read me");
                (["src"; "trip.2013"], Sample.dir);
                (["src"; "trip.2013"; "c.jpg"],
                 Sample.file "JPEG 2013:12:24 18:00:00") ].

(** The last step of a sorter: [copy2] or [move], by the mode. *)
Definition transfer (mv : bool) (d : fs) (src dst : path) : result fs :=
  if mv then move d src dst else copy2 d src dst.

(** Where [copy2] and [move] put a file sent to [dst]: into [dst] when
    that is a directory. *)
Definition landing (d : fs) (src dst : path) : path :=
  if is_dir d dst then dst ++ [name src] else dst.

(** A field of a timestamp [mm-dd-yyyy ...]: no dash, no space, no
    slash. *)
Definition field (x : string) : Prop :=
  contains "-" x = false /\ contains " " x = false /\ contains "/" x = false.

(** A time of the calendar, in the years 1000 to 9999. *)
Definition civil (t : datetime) : Prop :=
  (1000 <= Z.of_nat (dt_year t) <= 9999)%Z
  /\ 1 <= dt_month t <= 12 /\ 1 <= dt_day t <= 31
  /\ dt_hour t < 24 /\ dt_minute t < 60 /\ dt_second t < 60.

(** A string of decimal digits. *)
Fixpoint all_digits (s : string) : bool :=
  match s with
  | EmptyString => true
  | String c r => is_digit c && all_digits r
  end.






(** [self.image_dir], [self.video_dir] or [self.unknown_dir]. *)
Definition category_dir (c : category) (o : ImageOrganizer) : option path :=
  match c with
  | Image => image_dir o
  | Video => video_dir o
  | Unknown => unknown_dir o
  end.

(** [media_type] is what the classifier of the mode answers for a file
    with these bytes: the guess of [mimetypes] with [fast_parse], else the
    type of the second track MediaInfo finds, [None] when it finds fewer
    than two. *)
Definition classifier_answer (env : Env) (o : ImageOrganizer) (f : path)
    (bytes : string) (media_type : option string) : Prop :=
  if fast_parse o then media_type = _check_filetype_mime env f
  else exists tracks, mediainfo_parse env f bytes = Ok tracks
                      /\ media_type = nth_error tracks 1.

(** A field of a capture date that can be filed: no colon, space, NUL
    byte, dash or slash. *)
Definition clean (x : string) : Prop := plain x /\ field x.

(** PIL finds no capture date in a file with these bytes: it cannot open
    the file (an [OSError], [UnidentifiedImageError] among them), or the
    Exif data it reads has no [DateTimeOriginal]. *)
Definition no_capture_date (env : Env) (f : path) (bytes : string) : Prop :=
  (exists e, pil_getexif env f bytes = Raise e /\ is_OSError (exn_cls e) = true)
  \/ (exists open_image,
        pil_getexif env f bytes = Ok open_image
        /\ make_exif_dict env (open_image (find_exif_key (TAGS env) None))
             !! inl "DateTimeOriginal" = None).

(* ===================================================================== *)
(** * Properties *)
(* ===================================================================== *)

(** ** Reasoning about runs *)

Lemma bind_unfold {A B} (m : M A) (k : A -> M B) s :
  bind m k s = match m s with
               | (Ok a, s') => k a s'
               | (Raise e, s') => (Raise e, s')
               end.
Proof. reflexivity. Qed.

Section Keeps.
Context (R : relation state) `{!PreOrder R}.

Lemma keeps_ret {A} (a : A) : keeps R (ret a).
Proof. intros s. reflexivity. Qed.

Lemma keeps_raise {A} c msg : keeps R (@raise A c msg).
Proof. intros s. reflexivity. Qed.

Lemma keeps_lift {A} (r : result A) : keeps R (lift r).
Proof. intros s. reflexivity. Qed.

Lemma keeps_get_self : keeps R get_self.
Proof. intros s. reflexivity. Qed.

Lemma keeps_get_disk : keeps R get_disk.
Proof. intros s. reflexivity. Qed.

Lemma keeps_bind {A B} (m : M A) (k : A -> M B) :
  keeps R m -> (forall a, keeps R (k a)) -> keeps R (bind m k).
Proof.
  intros Hm Hk s. rewrite bind_unfold. specialize (Hm s).
  destruct (m s) as [[a | e] s1]; simpl in *; [| exact Hm].
  etransitivity; [exact Hm | apply Hk].
Qed.

Lemma keeps_try_except {A} (m : M A) (h : exn -> M A) :
  keeps R m -> (forall e, keeps R (h e)) -> keeps R (try_except m h).
Proof.
  intros Hm Hh s. unfold try_except. specialize (Hm s).
  destruct (m s) as [[a | e] s1]; simpl in *; [exact Hm |].
  etransitivity; [exact Hm | apply Hh].
Qed.

End Keeps.

Create HintDb keeps.
#[export] Hint Resolve keeps_ret keeps_raise keeps_lift keeps_get_self keeps_get_disk : keeps.
#[export] Hint Extern 1 (PreOrder _) => tc_solve : keeps.

Ltac keeps_go :=
  repeat first
    [ solve [eauto with keeps]
    | match goal with
      | |- forall _, _ => intro
      | |- PreOrder _ => tc_solve
      | |- keeps _ (bind _ _) => apply keeps_bind
      | |- keeps _ (try_except _ _) => apply keeps_try_except
      | |- keeps _ (if ?b then _ else _) => destruct b
      | |- keeps _ (match ?x with _ => _ end) => destruct x
      end ].

#[export] Instance frame_preorder Rd `{!PreOrder Rd} : PreOrder (frame Rd).
Proof.
  split.
  - intros s. unfold frame. repeat split; reflexivity.
  - intros s1 s2 s3 H1 H2. destruct H1 as (A1 & B1 & C1 & D1).
    destruct H2 as (A2 & B2 & C2 & D2). unfold frame.
    split; [congruence |]. split; [congruence |].
    split; [intros c; rewrite C2; apply C1 | etransitivity; eassumption].
Qed.

#[export] Hint Extern 1 (DiskRel _) => tc_solve : keeps.

Section Frame.
Context (env : Env) (Rd : relation fs) `{!DiskRel Rd}.

Lemma keeps_on_disk (op : fs -> result fs) :
  (forall d d', op d = Ok d' -> Rd d d') -> keeps (frame Rd) (on_disk op).
Proof.
  intros Hop [o w]. unfold on_disk, bind, get_disk, lift, set_world. simpl.
  destruct (op (disk w)) as [d' | e] eqn:E; simpl.
  - unfold frame; simpl. repeat split; auto.
  - reflexivity.
Qed.

Lemma keeps_print line : keeps (frame Rd) (print line).
Proof. intros [o w]. unfold frame; simpl. repeat split; reflexivity. Qed.

Lemma keeps_call_callback cb r : keeps (frame Rd) (call_callback cb r).
Proof. intros [o w]. destruct cb; unfold frame; simpl; repeat split; reflexivity. Qed.

Lemma keeps_now : keeps (frame Rd) (now env).
Proof. intros [o w]. unfold frame; simpl. repeat split; reflexivity. Qed.

Lemma keeps_stamp : keeps (frame Rd) (stamp env).
Proof. intros [o w]. unfold frame; simpl. repeat split; reflexivity. Qed.

Hint Resolve keeps_print keeps_call_callback keeps_now keeps_stamp : keeps.

Lemma keeps_mkdir p : keeps (frame Rd) (mkdir env p).
Proof.

  unfold mkdir. keeps_go. apply keeps_on_disk. intros d d'. apply dr_mkdir.
Qed.

Lemma keeps_log_exception prefix file e :
  keeps (frame Rd) (log_exception env prefix file e).
Proof.
  unfold log_exception. keeps_go. apply keeps_on_disk. intros d d'. apply dr_append.
Qed.

Lemma keeps_read_with {A} (lib : path -> string -> result A) file :
  keeps (frame Rd) (read_with lib file).
Proof. unfold read_with. keeps_go. Qed.

Hint Resolve keeps_mkdir keeps_log_exception keeps_read_with : keeps.

Lemma keeps_check_filetype_media_info file :
  keeps (frame Rd) (_check_filetype_media_info env file).
Proof. unfold _check_filetype_media_info. keeps_go. Qed.

Lemma keeps_date_time_original R `{!PreOrder R} exif_dict :
  keeps R (date_time_original exif_dict).
Proof. unfold date_time_original. keeps_go. Qed.

Lemma keeps_get_exif file : keeps (frame Rd) (_get_exif env file).
Proof. unfold _get_exif. keeps_go. apply keeps_date_time_original. tc_solve. Qed.

Lemma keeps_get_modification_time file :
  keeps (frame Rd) (_get_modification_time file).
Proof. unfold _get_modification_time. keeps_go. Qed.

Lemma keeps_check_for_dupes file_dir y m n :
  keeps (frame Rd) (_check_for_dupes file_dir y m n).
Proof. unfold _check_for_dupes. keeps_go. Qed.

End Frame.

#[export] Hint Resolve keeps_print keeps_call_callback keeps_now keeps_stamp
  keeps_mkdir keeps_log_exception keeps_read_with
  keeps_check_filetype_media_info keeps_get_exif keeps_get_modification_time
  keeps_check_for_dupes : keeps.

(** ** What the file-system operations leave in place *)

Lemma is_file_exists d q : is_file d q = true -> exists_ d q = true.
Proof. unfold is_file, exists_. destruct (d !! q); [reflexivity | discriminate]. Qed.

Lemma kinds_stay_files d d' f : kinds_stay d d' -> files_stay_but f d d'.
Proof.
  intros H q _ Hq. destruct (H q (is_file_exists _ _ Hq)) as [_ E]. congruence.
Qed.

Lemma kinds_stay_insert_new d p n :
  exists_ d p = false -> kinds_stay d (<[p := n]> d).
Proof.
  intros Hp q Hq. assert (p <> q) by (intros ->; congruence).
  unfold exists_, is_file in *. rewrite lookup_insert_ne by assumption. auto.
Qed.

Lemma kinds_stay_insert_file d p c t :
  is_file d p = true \/ exists_ d p = false ->
  kinds_stay d (<[p := Node (KFile c) t]> d).
Proof.
  intros [Hp | Hp]; [| apply kinds_stay_insert_new; assumption].
  intros q Hq. unfold exists_, is_file in *.
  destruct (decide (p = q)) as [-> | Hne].
  - rewrite lookup_insert_eq. split; [reflexivity | symmetry; exact Hp].
  - rewrite lookup_insert_ne by assumption. auto.
Qed.

#[export] Instance kinds_stay_preorder : PreOrder kinds_stay.
Proof.
  split.
  - intros d q Hq. auto.
  - intros d1 d2 d3 H12 H23 q Hq.
    destruct (H12 q Hq) as [E1 F1]. destruct (H23 q E1) as [E2 F2].
    split; congruence.
Qed.

Lemma open_for_write_Ok d p :
  open_for_write d p = Ok tt -> is_file d p = true \/ exists_ d p = false.
Proof.
  unfold open_for_write, is_file, exists_.
  destruct (d !! p) as [[[c | |] t] |]; intros H; try discriminate; auto.
Qed.

Lemma mkdir_kinds_stay t d p d' : mkdir_exist_ok t d p = Ok d' -> kinds_stay d d'.
Proof.
  unfold mkdir_exist_ok, raise_cls.
  destruct (exists_ d p) eqn:Ex; simpl.
  - destruct (is_dir d p); intros [= <-]. reflexivity.
  - destruct p as [| a p]; simpl.
    + intros [= <-]. reflexivity.
    + repeat case_match; intros [= <-]; apply kinds_stay_insert_new, Ex.
Qed.

Lemma copy2_kinds_stay d src dst d' : copy2 d src dst = Ok d' -> kinds_stay d d'.
Proof.
  unfold copy2, raise_cls. intros H. repeat case_match; try discriminate.
  all: injection H as <-; apply kinds_stay_insert_file, open_for_write_Ok.
  all: match goal with u : unit |- _ => destruct u end; assumption.
Qed.

Lemma append_kinds_stay t d p x d' : append_text t d p x = Ok d' -> kinds_stay d d'.
Proof.
  unfold append_text. destruct (open_for_write d p) as [[] | e] eqn:E; [| discriminate].
  apply open_for_write_Ok in E.
  intros H. repeat case_match; injection H as <-; apply kinds_stay_insert_file, E.
Qed.

#[export] Instance kinds_stay_diskrel : DiskRel kinds_stay.
Proof.
  split; [tc_solve | exact mkdir_kinds_stay | exact copy2_kinds_stay
         | exact append_kinds_stay].
Qed.

Lemma is_file_after_rename d f p c t q :
  q <> f -> is_file d q = true ->
  is_file (<[p := Node (KFile c) t]> (delete f d)) q = true.
Proof.
  intros Hq Hfile. unfold is_file in *.
  destruct (decide (p = q)) as [-> | Hne].
  - rewrite lookup_insert_eq. reflexivity.
  - rewrite lookup_insert_ne by assumption.
    rewrite lookup_delete_ne by congruence. assumption.
Qed.

(** A move of the regular file [f] takes [f] away and leaves the other
    regular files. *)
Lemma move_files_stay d f dst d' :
  is_file d f = true -> move d f dst = Ok d' -> files_stay_but f d d'.
Proof.
  unfold move, raise_cls, is_file. intros Hf H q Hq Hfile.
  destruct (d !! f) as [[[c | |] t] |] eqn:Ef; try discriminate.
  repeat case_match; try discriminate; injection H as <-; try assumption.
  all: apply is_file_after_rename; assumption.
Qed.

(** A specification [S] that a prefix of [R]-steps cannot break. *)
Lemma bind_prefix {A B} (R : relation state)
    (S : state -> result B * state -> Prop) (m : M A) (k : A -> M B) :
  (forall s s1 x, R s s1 -> S s1 x -> S s x) ->
  (forall s s1 e, R s s1 -> S s (Raise e, s1)) ->
  keeps R m -> (forall a s, S s (k a s)) -> forall s, S s (bind m k s).
Proof.
  intros Hpre Hraise Hm Hk s. rewrite bind_unfold. specialize (Hm s).
  destruct (m s) as [[a | e] s1]; simpl in Hm.
  - eapply Hpre; [exact Hm | apply Hk].
  - apply Hraise, Hm.
Qed.

Lemma sorter_post_prefix c f mv s s1 x :
  frame kinds_stay s s1 -> sorter_post c f mv s1 x -> sorter_post c f mv s x.
Proof.
  intros (A1 & B1 & C1 & D1) (A2 & B2 & C2 & D2 & E2).
  split; [congruence |]. split; [congruence |].
  split; [intros c'; rewrite C2, C1; reflexivity |].
  split.
  - intros Hf q Hq Hfile.
    destruct (D1 f (is_file_exists _ _ Hf)) as [_ Ef].
    destruct (D1 q (is_file_exists _ _ Hfile)) as [_ Eq].
    apply D2; congruence.
  - intros Hmv. etransitivity; [exact D1 | exact (E2 Hmv)].
Qed.

Lemma sorter_post_raise c f mv s s1 e :
  frame kinds_stay s s1 -> sorter_post c f mv s (Raise e, s1).
Proof.
  intros (A1 & B1 & C1 & D1). unfold sorter_post; simpl.
  split; [exact A1 |]. split; [exact B1 |].
  split; [intros c'; rewrite C1; lia |].
  split; [intros _; eapply kinds_stay_files, D1 | intros _; exact D1].
Qed.

Lemma placements_snoc c cs x :
  placements c (cs ++ [x]) = placements c cs + (if is_placed c x then 1 else 0).
Proof.
  unfold placements. rewrite List.filter_app, length_app. simpl.
  destruct (is_placed c x); reflexivity.
Qed.

Lemma classified_snoc_other cs x :
  (forall f m, x <> Classified f m) -> classified (cs ++ [x]) = classified cs.
Proof.
  intros H. unfold classified. rewrite omap_app. simpl.
  destruct x; try (rewrite app_nil_r; reflexivity). exfalso. eapply H. reflexivity.
Qed.

Lemma is_placed_Placed c' c f dst :
  is_placed c' (Placed c f dst) = bool_decide (c' = c).
Proof. destruct c, c'; reflexivity. Qed.

(** The last two steps of a sorter: copy or move, then the note. *)
Lemma place_post (c : category) (f : path) (mv : bool) (dst : path)
    (op : fs -> result fs) (s : state) :
  (forall d d', op d = Ok d' ->
     (is_file d f = true -> files_stay_but f d d')
     /\ (mv = false -> kinds_stay d d')) ->
  sorter_post c f mv s ((on_disk op ;; note (Placed c f dst)) s).
Proof.
  intros Hop. destruct s as [o w].
  unfold bind, on_disk, bind, get_disk, lift, set_world, note. simpl.
  destruct (op (disk w)) as [d' | e] eqn:E; simpl.
  - destruct (Hop _ _ E) as [H1 H2]. unfold sorter_post; simpl.
    split; [reflexivity |].
    split; [apply classified_snoc_other; discriminate |].
    split; [| split; assumption].
    intros c'. rewrite placements_snoc, is_placed_Placed. reflexivity.
  - apply sorter_post_raise. reflexivity.
Qed.

Lemma keeps_dir_of R `{!PreOrder R} o : keeps R (dir_of o).
Proof. unfold dir_of. keeps_go. Qed.
#[export] Hint Resolve keeps_dir_of : keeps.

Ltac sorter_step :=
  lazymatch goal with
  | |- forall s, sorter_post ?c ?f ?mv s (bind ?m ?k s) =>
      apply (bind_prefix (frame kinds_stay) (sorter_post c f mv) m k);
      [ apply sorter_post_prefix | apply sorter_post_raise
      | solve [keeps_go] | intros ?; cbv beta ]
  end.

Section Sorter.
Context (env : Env).

Lemma sorter_spec c dir f time s :
  sorter_post c f (move_file (fst s)) s (sorter env c dir f time s).
Proof.
  unfold sorter. rewrite bind_unfold. simpl.
  generalize (fst s) as self. intros self. revert s.
  repeat sorter_step.
  destruct (move_file self); cbn [negb];
    match goal with |- context [negb (exists_ ?d ?p)] =>
      destruct (exists_ d p) end;
    cbn [negb]; repeat sorter_step; intros s; apply place_post;
    intros d d' Hop.
  - split; [intros Hf; eapply move_files_stay; eassumption | discriminate].
  - split; [intros Hf; eapply move_files_stay; eassumption | discriminate].
  - apply copy2_kinds_stay in Hop. split; [intros _; eapply kinds_stay_files | intros _]; exact Hop.
  - apply copy2_kinds_stay in Hop. split; [intros _; eapply kinds_stay_files | intros _]; exact Hop.
Qed.

End Sorter.

(** ** One file of the loop *)

Lemma same_config_refl o : same_config o o.
Proof. reflexivity. Qed.

Lemma same_config_move_file o o' : same_config o o' -> move_file o' = move_file o.
Proof. intros H. apply (f_equal move_file) in H. exact H. Qed.

Lemma step_core_prefix f s s1 x :
  frame kinds_stay s s1 -> step_core f s1 x -> step_core f s x.
Proof.
  destruct s as [o w], s1 as [o1 w1].
  intros (A1 & B1 & C1 & D1) (A2 & B2 & C2 & D2 & E2). unfold step_core.
  simpl in *. subst o1.
  split; [exact A2 |].
  split; [intros c; specialize (B2 c); rewrite C1 in B2; exact B2 |].
  split; [exact C2 |].
  split.
  - intros Hf q Hq Hfile.
    destruct (D1 f (is_file_exists _ _ Hf)) as [_ Ef].
    destruct (D1 q (is_file_exists _ _ Hfile)) as [_ Eq].
    apply D2; congruence.
  - intros Hmv. etransitivity; [exact D1 | exact (E2 Hmv)].
Qed.

Lemma step_core_frame f s s1 r :
  frame kinds_stay s s1 -> step_core f s (r, s1).
Proof.
  destruct s as [o w], s1 as [o1 w1].
  intros (A1 & B1 & C1 & D1). unfold step_core; simpl in *. subst o1.
  split; [reflexivity |].
  split; [intros c; simpl; rewrite C1; reflexivity |].
  split; [left; reflexivity |].
  split; [intros _; eapply kinds_stay_files, D1 | intros _; exact D1].
Qed.

Lemma rest_post_prefix f s s1 x :
  frame kinds_stay s s1 -> rest_post f s1 x -> rest_post f s x.
Proof.
  intros H [Hc Hcl]. split; [eapply step_core_prefix; eassumption |].
  destruct H as (_ & B1 & _). congruence.
Qed.

Lemma rest_post_frame f s s1 r :
  frame kinds_stay s s1 -> rest_post f s (r, s1).
Proof.
  intros H. split; [apply step_core_frame, H |]. apply H.
Qed.

Lemma rest_post_raise f s s1 e :
  frame kinds_stay s s1 -> rest_post f s (Raise e, s1).
Proof. apply rest_post_frame. Qed.

Lemma file_post_prefix f s s1 x :
  frame kinds_stay s s1 -> file_post f s1 x -> file_post f s x.
Proof.
  intros H [Hc Hcl]. split; [eapply step_core_prefix; eassumption |].
  destruct H as (_ & B1 & _). intros Hok. rewrite (Hcl Hok), B1. reflexivity.
Qed.

Lemma file_post_raise f s s1 e :
  frame kinds_stay s s1 -> file_post f s (Raise e, s1).
Proof.
  intros H. split; [apply step_core_frame, H |]. discriminate.
Qed.

Lemma keeps_note_other Rd `{!PreOrder Rd} x :
  (forall f m, x <> Classified f m) -> (forall c f dst, x <> Placed c f dst) ->
  keeps (frame Rd) (note x).
Proof.
  intros H1 H2 [o w]. unfold frame; simpl.
  split; [reflexivity |]. split; [apply classified_snoc_other, H1 |].
  split; [| reflexivity].
  intros c. rewrite placements_snoc.
  destruct x; try (simpl; lia). exfalso. eapply H2. reflexivity.
Qed.

Lemma keeps_note_GotExif Rd `{!PreOrder Rd} f e : keeps (frame Rd) (note (GotExif f e)).
Proof. apply keeps_note_other; try tc_solve; intros; discriminate. Qed.

Lemma keeps_note_GotModificationTime Rd `{!PreOrder Rd} f e :
  keeps (frame Rd) (note (GotModificationTime f e)).
Proof. apply keeps_note_other; try tc_solve; intros; discriminate. Qed.

#[export] Hint Resolve keeps_note_GotExif keeps_note_GotModificationTime : keeps.

Section ParseFile.
Context (env : Env).

(** A sorter followed by the increment of its counter. *)
Lemma sort_and_count c dir f time (g : ImageOrganizer -> ImageOrganizer) s :
  (forall o, same_config o (g o)) ->
  (forall o c', totals (g o) c'
                = totals o c' + (if bool_decide (c' = c) then 1 else 0)) ->
  rest_post f s ((sorter env c dir f time ;; set_self g) s).
Proof.
  intros Hcfg Hg.
  rewrite bind_unfold. pose proof (sorter_spec env c dir f time s) as H.
  destruct s as [o w].
  destruct (sorter env c dir f time (o, w)) as [[[] | e] [o1 w1]];
    destruct H as (A & B & C & D & E); cbn [fst snd is_Ok andb] in *; subst o1.
  - split; [| exact B]. unfold step_core, set_self. cbn [fst snd].
    split; [apply Hcfg |].
    split; [intros c'; cbn [fst snd]; rewrite (C c'), Hg; lia |].
    split; [right; exists c; apply Hg |].
    split; assumption.
  - split; [| exact B]. unfold step_core. cbn [fst snd].
    split; [reflexivity |].
    split; [intros c'; cbn [fst snd]; rewrite (C c'); lia |].
    split; [left; reflexivity |].
    split; assumption.
Qed.

Ltac rest_step f :=
  lazymatch goal with
  | |- forall s, rest_post _ s (bind ?m ?k s) =>
      apply (bind_prefix (frame kinds_stay) (rest_post f) m k);
      [ apply rest_post_prefix | apply rest_post_raise
      | solve [keeps_go] | intros ?; cbv beta ]
  end.

Ltac file_step f :=
  lazymatch goal with
  | |- forall s, file_post _ s (bind ?m ?k s) =>
      apply (bind_prefix (frame kinds_stay) (file_post f) m k);
      [ apply file_post_prefix | apply file_post_raise
      | solve [keeps_go] | intros ?; cbv beta ]
  end.

(** The classification is noted, and then the rest runs. *)
Lemma file_post_after_note f m (k : M unit) s :
  (forall s1, rest_post f s1 (k s1)) ->
  file_post f s ((note (Classified f m) ;; k) s).
Proof.
  intros Hk. destruct s as [o w]. rewrite bind_unfold. cbn [note set_world fst snd].
  match goal with |- file_post _ _ (k ?s1) =>
    destruct (Hk s1) as [(A & B & C & D & E) Hcl];
    destruct (k s1) as [r [o2 w2]] end.
  cbn [fst snd calls disk] in *.
  split.
  - unfold step_core. cbn [fst snd].
    split; [exact A |]. split; [| split; [exact C | split; assumption]].
    intros c. specialize (B c). cbn [fst snd calls] in B.
    rewrite placements_snoc in B. cbn [is_placed] in B. cbn [fst snd]. lia.
  - intros _. cbn [fst snd]. rewrite Hcl. unfold classified.
    rewrite omap_app. reflexivity.
Qed.

Lemma keeps_file_creation_date f :
  keeps (frame kinds_stay) (file_creation_date env f).
Proof. unfold file_creation_date. keeps_go. Qed.
Hint Resolve keeps_file_creation_date : keeps.

Lemma parse_file_skip gp cb total f i s :
  is_file (disk (snd s)) f = false \/ wants_progress gp cb = false ->
  parse_file env gp cb total f i s = (Ok tt, s).
Proof.
  intros H. unfold parse_file. rewrite bind_unfold. cbn [get_disk].
  destruct (is_file (disk (snd s)) f); [| reflexivity].
  destruct (wants_progress gp cb); [| reflexivity].
  destruct H; discriminate.
Qed.

Lemma parse_file_spec gp cb total f i s :
  wants_progress gp cb = true -> is_file (disk (snd s)) f = true ->
  file_post f s (parse_file env gp cb total f i s).
Proof.
  intros Hw Hf. unfold parse_file. rewrite bind_unfold. cbn [get_disk].
  rewrite Hf, Hw. clear Hw Hf. revert s.
  repeat file_step f.
  intros s. apply file_post_after_note. clear s.
  repeat rest_step f.
  unfold _img_sorter, _video_sorter, _unknown_sorter.
  repeat case_match; intros s;
    first [ apply sort_and_count; [reflexivity | intros o c'; destruct c'; simpl; lia]
          | apply rest_post_frame; reflexivity ].
Qed.

End ParseFile.

(** ** The loop and [parse_dir] *)

Lemma same_config_trans o1 o2 o3 :
  same_config o1 o2 -> same_config o2 o3 -> same_config o1 o3.
Proof. unfold same_config. congruence. Qed.

Lemma step_by_one_le o o' c : step_by_one o o' -> totals o c <= totals o' c.
Proof.
  intros [H | [c0 H]]; [rewrite H; lia | rewrite (H c); lia].
Qed.

#[export] Instance counted_preorder : PreOrder counted.
Proof.
  split.
  - intros s. split; [reflexivity |]. split; [intros c; reflexivity | intros c; lia].
  - intros s1 s2 s3 (A1 & B1 & C1) (A2 & B2 & C2).
    split; [eapply same_config_trans; eassumption |].
    split; [intros c; specialize (B1 c); specialize (B2 c); lia |].
    intros c. specialize (C1 c). specialize (C2 c). lia.
Qed.

Lemma frame_counted Rd s s' : frame Rd s s' -> counted s s'.
Proof.
  intros (A & _ & C & _). unfold counted, balanced. rewrite A.
  split; [reflexivity |]. split; [intros c; rewrite C; lia | intros c; lia].
Qed.

Section Loop.
Context (env : Env).

Lemma parse_file_counted gp cb total f i :
  keeps counted (parse_file env gp cb total f i).
Proof.
  intros s.
  destruct (is_file (disk (snd s)) f) eqn:Hf;
    [destruct (wants_progress gp cb) eqn:Hw |].
  - destruct (parse_file_spec env gp cb total f i s Hw Hf) as [(A & B & C & _) _].
    split; [exact A |]. split; [exact B |]. intros c. apply step_by_one_le, C.
  - rewrite parse_file_skip by auto. reflexivity.
  - rewrite parse_file_skip by auto. reflexivity.
Qed.

Lemma parse_loop_counted gp cb total l i :
  keeps counted (parse_loop env gp cb total l i).
Proof.
  revert i. induction l as [| f l IH]; intros i; simpl.
  - apply keeps_ret. tc_solve.
  - apply keeps_bind; [tc_solve | apply parse_file_counted | intros _; apply IH].
Qed.

Lemma keeps_counted_of_frame {A} (m : M A) :
  keeps (frame kinds_stay) m -> keeps counted m.
Proof. intros H s. eapply frame_counted, H. Qed.

Lemma parse_dir_counted dir_path gp rec cb :
  keeps counted (parse_dir env dir_path gp rec cb).
Proof.
  unfold parse_dir.
  apply keeps_bind; [tc_solve | apply keeps_get_disk; tc_solve | intros d].
  apply keeps_bind; [tc_solve | apply parse_loop_counted | intros _].
  apply keeps_counted_of_frame. keeps_go.
Qed.

(** The record a completed run hands to a callback last is the summary
    of the counters. *)
Lemma parse_dir_summary dir_path gp rec s s' :
  parse_dir env dir_path gp rec CbFunction s = (Ok tt, s') ->
  List.last (delivered (snd s')) (Totals "" "" "")
  = Totals (str_of_nat (total_images (fst s')))
           (str_of_nat (total_videos (fst s')))
           (str_of_nat (total_unknown (fst s'))).
Proof.
  unfold parse_dir. rewrite bind_unfold. cbn [get_disk]. rewrite bind_unfold.
  destruct (parse_loop _ _ _ _ _ _ _) as [[[] | e] [o1 w1]]; [| discriminate].
  replace (wants_progress gp CbFunction) with true
    by (destruct gp; reflexivity).
  rewrite bind_unfold. cbn. intros [= <-]. cbn.
  apply List.last_last.
Qed.

End Loop.

(** ** Which files the loop classifies *)

Lemma filter_sublist_mono {A} (P Q : A -> Prop)
    `{DP : !forall x, Decision (P x)} `{DQ : !forall x, Decision (Q x)}
    (l : list A) :
  (forall x, x ∈ l -> P x -> Q x) -> sublist (filter P l) (filter Q l).
Proof.
  induction l as [| a l IH]; intros Himp; [constructor |].
  assert (sublist (filter P l) (filter Q l)) as IH'.
  { apply IH. intros x Hx. apply Himp. right. exact Hx. }
  rewrite !filter_cons.
  destruct (decide (P a)) as [Pa | nPa].
  - rewrite decide_True by (apply Himp; [left | exact Pa]).
    apply sublist_skip, IH'.
  - destruct (decide (Q a)); [apply sublist_cons |]; exact IH'.
Qed.

Lemma filter_ext_elem {A} (P Q : A -> Prop)
    `{DP : !forall x, Decision (P x)} `{DQ : !forall x, Decision (Q x)}
    (l : list A) :
  (forall x, x ∈ l -> P x <-> Q x) -> filter P l = filter Q l.
Proof.
  induction l as [| a l IH]; intros Hiff; [reflexivity |].
  rewrite !filter_cons, IH by (intros x Hx; apply Hiff; right; exact Hx).
  destruct (decide (P a)) as [Pa | nPa].
  - rewrite decide_True by (apply Hiff; [left | exact Pa]). reflexivity.
  - rewrite decide_False; [reflexivity |].
    intros Qa. apply nPa, Hiff; [left | exact Qa].
Qed.

Section Classified.
Context (env : Env).

Lemma parse_loop_classified gp cb total l : forall i s s',
  wants_progress gp cb = true -> NoDup l ->
  parse_loop env gp cb total l i s = (Ok tt, s') ->
  exists cl,
    classified (calls (snd s')) = classified (calls (snd s)) ++ cl
    /\ sublist cl l
    /\ sublist (filter (fun q => is_file (disk (snd s)) q = true) l) cl
    /\ (move_file (fst s) = false ->
        (forall q, q ∈ l -> exists_ (disk (snd s)) q = true) ->
        cl = filter (fun q => is_file (disk (snd s)) q = true) l).
Proof.
  induction l as [| f l IH]; intros i s s' Hw Hnd Hrun; simpl in Hrun.
  - injection Hrun as <-. exists []. rewrite app_nil_r.
    repeat split; constructor.
  - apply NoDup_cons in Hnd as [Hfl Hnd].
    rewrite bind_unfold in Hrun.
    destruct (is_file (disk (snd s)) f) eqn:Hf.
    + pose proof (parse_file_spec env gp cb total f i s Hw Hf) as Hpost.
      destruct (parse_file env gp cb total f i s) as [[[] | e] s1];
        [| discriminate].
      destruct Hpost as [(A & _ & _ & D & E) Hcl]. cbn [fst snd] in *.
      specialize (D Hf). specialize (Hcl eq_refl).
      destruct (IH _ _ _ Hw Hnd Hrun) as (cl & H1 & H2 & H3 & H4).
      exists (f :: cl).
      split; [rewrite H1, Hcl, <- app_assoc; reflexivity |].
      split; [apply sublist_skip, H2 |].
      rewrite filter_cons, decide_True by exact Hf.
      split.
      * apply sublist_skip. etransitivity; [| exact H3].
        apply filter_sublist_mono. intros q Hq. apply D. intros ->. exact (Hfl Hq).
      * intros Hmv Hex. specialize (E Hmv). f_equal.
        rewrite H4.
        -- apply filter_ext_elem. intros q Hq.
           destruct (E q (Hex q (list_elem_of_further _ _ _ Hq))) as [_ ->].
           reflexivity.
        -- rewrite (same_config_move_file _ _ A). exact Hmv.
        -- intros q Hq. apply E, Hex. right. exact Hq.
    + rewrite parse_file_skip in Hrun by auto.
      destruct (IH _ _ _ Hw Hnd Hrun) as (cl & H1 & H2 & H3 & H4).
      exists cl. split; [exact H1 |].
      split; [apply sublist_cons, H2 |].
      rewrite filter_cons, decide_False by congruence.
      split; [exact H3 |].
      intros Hmv Hex. apply H4; [exact Hmv |]. intros q Hq. apply Hex. right. exact Hq.
Qed.

End Classified.

(** ** Strings, paths and the enumeration *)

Lemma append_String a p b : (String a p ++ b)%string = String a (p ++ b)%string.
Proof. reflexivity. Qed.

Lemma append_empty b : ("" ++ b)%string = b.
Proof. reflexivity. Qed.

Lemma prefix_spec p s :
  String.prefix p s = true <-> exists b, s = (p ++ b)%string.
Proof.
  revert s. induction p as [| a p IH]; intros s.
  - split; [intros _; exists s; reflexivity | intros _; destruct s; reflexivity].
  - destruct s as [| a' s]; cbn [String.prefix].
    + split; [discriminate | intros [b Hb]; rewrite append_String in Hb; discriminate].
    + destruct (ascii_dec a a') as [-> | Hne].
      * rewrite IH. split; intros [b Hb]; exists b; rewrite append_String in *;
          congruence.
      * split; [discriminate | intros [b Hb]; rewrite append_String in Hb; congruence].
Qed.

Lemma contains_spec sub s :
  contains sub s = true <-> exists a b, s = (a ++ sub ++ b)%string.
Proof.
  induction s as [| c s IH].
  - cbn [contains]. rewrite orb_false_r, prefix_spec. split.
    + intros [b Hb]. exists "", b. exact Hb.
    + intros (a & b & Hab). destruct a; [exists b; exact Hab |].
      rewrite append_String in Hab. discriminate.
  - cbn [contains]. rewrite orb_true_iff, prefix_spec, IH. split.
    + intros [[b Hb] | (a & b & Hab)].
      * exists "", b. exact Hb.
      * exists (String c a), b. rewrite append_String. congruence.
    + intros (a & b & Hab). destruct a as [| c' a].
      * left. exists b. exact Hab.
      * right. exists a, b. rewrite append_String in Hab. congruence.
Qed.

Lemma star_dot_star_spec n :
  star_dot_star n = true <-> exists a b, n = (a ++ "." ++ b)%string.
Proof. apply contains_spec. Qed.

Lemma strip_prefix_spec dir k rest :
  strip_prefix dir k = Some rest <-> k = dir ++ rest.
Proof.
  revert k. induction dir as [| a dir IH]; intros k; simpl.
  - split; congruence.
  - destruct k as [| b k]; [split; discriminate |].
    destruct (String.eqb_spec a b) as [-> | Hne].
    + rewrite IH. split; congruence.
    + split; [discriminate | congruence].
Qed.

Lemma walk_spec d dir rest :
  walk d dir rest = true <->
  rest <> [] /\ forall r1 r2, rest = r1 ++ r2 -> r2 <> [] ->
                              is_dir d (dir ++ r1) = true.
Proof.
  revert dir. induction rest as [| n rest IH]; intros dir.
  - simpl. split; [discriminate | intros [H _]; congruence].
  - destruct rest as [| n' rest].
    + simpl. split.
      * intros Hd. split; [discriminate |]. intros r1 r2 E Hr2.
        destruct r1 as [| x r1]; [rewrite app_nil_r; exact Hd |].
        destruct r1; destruct r2; simpl in E; congruence.
      * intros [_ H]. specialize (H [] [n] eq_refl). rewrite app_nil_r in H.
        apply H. discriminate.
    + change (walk d dir (n :: n' :: rest))
        with (is_dir d dir && walk d (dir ++ [n]) (n' :: rest)).
      rewrite andb_true_iff, IH. split.
      * intros (Hd & _ & H). split; [discriminate |]. intros r1 r2 E Hr2.
        destruct r1 as [| x r1]; [rewrite app_nil_r; exact Hd |].
        simpl in E. injection E as <- E.
        specialize (H r1 r2 E Hr2). rewrite <- app_assoc in H. exact H.
      * intros [_ H]. split; [| split; [discriminate |]].
        -- specialize (H [] (n :: n' :: rest) eq_refl). rewrite app_nil_r in H.
           apply H. discriminate.
        -- intros r1 r2 E Hr2. rewrite <- app_assoc. apply (H (n :: r1) r2); [| exact Hr2].
           simpl. congruence.
Qed.

Lemma elem_of_paths (d : fs) k : k ∈ paths d <-> is_Some (d !! k).
Proof.
  unfold paths. rewrite list_elem_of_fmap. split.
  - intros ([k' n] & -> & H). apply elem_of_map_to_list in H. eauto.
  - intros [n H]. exists (k, n). split; [reflexivity |].
    apply elem_of_map_to_list. exact H.
Qed.

Lemma NoDup_paths (d : fs) : NoDup (paths d).
Proof. apply NoDup_fst_map_to_list. Qed.

Lemma elem_of_glob d dir k :
  k ∈ glob d dir <->
  is_Some (d !! k) /\ exists n, k = dir ++ [n] /\ is_dir d dir = true
                                /\ star_dot_star n = true.
Proof.
  unfold glob. rewrite list_elem_of_filter, elem_of_paths. split.
  - intros [H Hk]. split; [exact Hk |].
    destruct (strip_prefix dir k) as [[| n [| ? ?]] |] eqn:E; try discriminate.
    apply strip_prefix_spec in E. apply andb_true_iff in H. exists n. tauto.
  - intros [Hk (n & -> & Hd & Hn)]. split; [| exact Hk].
    rewrite (proj2 (strip_prefix_spec dir (dir ++ [n]) [n]) eq_refl).
    rewrite Hd, Hn. reflexivity.
Qed.

Lemma elem_of_rglob d dir k :
  k ∈ rglob d dir <->
  is_Some (d !! k) /\ exists rest, k = dir ++ rest /\ walk d dir rest = true
                                   /\ star_dot_star (name k) = true.
Proof.
  unfold rglob. rewrite list_elem_of_filter, elem_of_paths. split.
  - intros [H Hk]. split; [exact Hk |].
    destruct (strip_prefix dir k) as [rest |] eqn:E; [| discriminate].
    apply strip_prefix_spec in E. apply andb_true_iff in H. exists rest. tauto.
  - intros [Hk (rest & E & Hw & Hn)]. split; [| exact Hk].
    rewrite (proj2 (strip_prefix_spec dir k rest) E), Hw, Hn. reflexivity.
Qed.

(** *** The order of paths *)

Lemma compare_antisym p q : PathLib.compare q p = CompOpp (PathLib.compare p q).
Proof.
  revert q. induction p as [| a p IH]; intros [| b q]; simpl; try reflexivity.
  rewrite (String.compare_antisym a b).
  destruct (String.compare b a); simpl; [apply IH | reflexivity | reflexivity].
Qed.

#[export] Instance le_total : Total PathLib.le.
Proof.
  intros p q. unfold PathLib.le. rewrite (compare_antisym p q).
  destruct (PathLib.compare p q); simpl; [left | left | right]; congruence.
Qed.

Lemma string_compare_Lt_trans a b c :
  String.compare a b = Lt -> String.compare b c = Lt -> String.compare a c = Lt.
Proof.
  intros H1 H2.
  apply OrderedTypeEx.String_as_OT.cmp_lt in H1, H2.
  apply OrderedTypeEx.String_as_OT.cmp_lt.
  eapply OrderedTypeEx.String_as_OT.lt_trans; eassumption.
Qed.

#[export] Instance le_transitive : Transitive PathLib.le.
Proof.
  intros p. induction p as [| a p IH]; intros q r H1 H2; unfold PathLib.le in *.
  - destruct r; simpl; congruence.
  - destruct q as [| b q]; [simpl in H1; congruence |].
    destruct r as [| c r]; [simpl in H2; congruence |].
    simpl in *.
    destruct (String.compare a b) eqn:Eab; [| | congruence].
    + apply String.compare_eq_iff in Eab. subst b.
      destruct (String.compare a c) eqn:Eac; [eapply IH; eassumption | congruence | congruence].
    + destruct (String.compare b c) eqn:Ebc; [| | congruence].
      * apply String.compare_eq_iff in Ebc. subst c. rewrite Eab. congruence.
      * rewrite (string_compare_Lt_trans _ _ _ Eab Ebc). congruence.
Qed.

Lemma sorted_StronglySorted l : StronglySorted PathLib.le (sorted l).
Proof. apply StronglySorted_merge_sort; tc_solve. Qed.

Lemma elem_of_sorted l k : k ∈ sorted l <-> k ∈ l.
Proof. unfold sorted. rewrite merge_sort_Permutation. reflexivity. Qed.

Lemma NoDup_sorted l : NoDup l -> NoDup (sorted l).
Proof. unfold sorted. rewrite merge_sort_Permutation. auto. Qed.

(** ** C7: what [parse_dir] enumerates and processes *)

Lemma elem_of_glob_dir d dir_path (recursive_search : bool) k :
  k ∈ glob_dir d dir_path recursive_search <->
  is_Some (d !! k)
  /\ exists rest,
       k = dir_path ++ rest /\ rest <> []
       /\ (recursive_search = false -> length rest = 1)
       /\ (forall r1 r2, rest = r1 ++ r2 -> r2 <> [] ->
                         is_dir d (dir_path ++ r1) = true)
       /\ exists a b, name k = (a ++ "." ++ b)%string.
Proof.
  unfold glob_dir. destruct recursive_search; rewrite elem_of_sorted.
  - rewrite elem_of_rglob. split.
    + intros [Hk (rest & E & Hw & Hn)]. split; [exact Hk |]. exists rest.
      apply walk_spec in Hw as [Hne Hw]. apply star_dot_star_spec in Hn.
      repeat split; try assumption. discriminate.
    + intros [Hk (rest & E & Hne & _ & Hw & Hn)]. split; [exact Hk |].
      exists rest. split; [exact E |].
      split; [apply walk_spec; split; assumption | apply star_dot_star_spec, Hn].
  - rewrite elem_of_glob. split.
    + intros [Hk (n & E & Hd & Hn)]. split; [exact Hk |]. exists [n].
      split; [exact E |]. split; [discriminate |]. split; [reflexivity |].
      split.
      * intros r1 r2 E' Hr2. destruct r1 as [| x r1]; [rewrite app_nil_r; exact Hd |].
        destruct r1, r2; simpl in E'; congruence.
      * apply star_dot_star_spec. subst k. unfold name. rewrite last_last. exact Hn.
    + intros [Hk (rest & E & Hne & Hlen & Hw & Hn)]. split; [exact Hk |].
      specialize (Hlen eq_refl).
      destruct rest as [| n [| ? ?]]; try discriminate. exists n.
      split; [exact E |]. split.
      * specialize (Hw [] [n] eq_refl). rewrite app_nil_r in Hw. apply Hw. discriminate.
      * apply star_dot_star_spec. subst k. unfold name in Hn. rewrite last_last in Hn.
        exact Hn.
Qed.

Lemma NoDup_glob_dir d dir_path recursive_search :
  NoDup (glob_dir d dir_path recursive_search).
Proof.
  unfold glob_dir, rglob, glob.
  destruct recursive_search; apply NoDup_sorted, NoDup_filter, NoDup_paths.
Qed.

Lemma glob_dir_exists d dir_path recursive_search k :
  k ∈ glob_dir d dir_path recursive_search -> exists_ d k = true.
Proof.
  intros H. apply elem_of_glob_dir in H as [[n Hn] _].
  unfold exists_. rewrite Hn. reflexivity.
Qed.

(** C7, amended.  With progress wanted and the run completed:
    [parse_dir] runs over exactly the entries below the root
    (any depth when [recursive_search], the top level otherwise) whose name
    contains a dot, in sorted order; every one of them that is a regular
    file is classified, in that order, and nothing else is; an entry
    that is no regular file when the loop reaches it is skipped; in
    copy mode the files classified are exactly the enumerated regular
    files. *)
Theorem C7_enumerated_files_are_processed
    (env : Env) (dir_path : path) (get_progress recursive_search : bool)
    (cb : callback) (s s' : state) :
  wants_progress get_progress cb = true ->
  parse_dir env dir_path get_progress recursive_search cb s = (Ok tt, s') ->
  let d := disk (snd s) in
  let files := glob_dir d dir_path recursive_search in
  (forall k, k ∈ files <->
     is_Some (d !! k)
     /\ exists rest,
          k = dir_path ++ rest /\ rest <> []
          /\ (recursive_search = false -> length rest = 1)
          /\ (forall r1 r2, rest = r1 ++ r2 -> r2 <> [] ->
                            is_dir d (dir_path ++ r1) = true)
          /\ exists a b, name k = (a ++ "." ++ b)%string)
  /\ StronglySorted PathLib.le files
  /\ (exists cl,
        classified (calls (snd s')) = classified (calls (snd s)) ++ cl
        /\ sublist cl files
        /\ sublist (filter (fun k => is_file d k = true) files) cl
        /\ (move_file (fst s) = false ->
            cl = filter (fun k => is_file d k = true) files))
  /\ (forall total f i s0,
        is_file (disk (snd s0)) f = false ->
        parse_file env get_progress cb total f i s0 = (Ok tt, s0)).
Proof.
  intros Hw Hrun d files.
  split; [intros k; apply elem_of_glob_dir |].
  split; [unfold files, glob_dir; destruct recursive_search; apply sorted_StronglySorted |].
  split; [| intros total f i s0 Hf; apply parse_file_skip; auto].
  unfold parse_dir in Hrun. rewrite bind_unfold in Hrun. cbn [get_disk] in Hrun.
  fold d in Hrun. fold files in Hrun. rewrite bind_unfold in Hrun.
  destruct (parse_loop env get_progress cb (length files) files 1 s)
    as [[[] | e] s1] eqn:Hloop; [| discriminate].
  destruct (parse_loop_classified env get_progress cb (length files) files 1 s s1
              Hw (NoDup_glob_dir _ _ _) Hloop) as (cl & H1 & H2 & H3 & H4).
  assert (frame kinds_stay s1 s') as (_ & Hcl & _).
  { rewrite Hw in Hrun.
    pose proof (keeps_bind (frame kinds_stay) get_self
      (fun self => call_callback cb
         (Totals (str_of_nat (total_images self)) (str_of_nat (total_videos self))
                 (str_of_nat (total_unknown self))))) as Hk.
    specialize (Hk ltac:(eauto with keeps) ltac:(eauto with keeps) s1).
    rewrite Hrun in Hk. exact Hk. }
  exists cl. rewrite Hcl. split; [exact H1 |]. split; [exact H2 |].
  split; [exact H3 |].
  intros Hmv. apply H4; [exact Hmv |]. intros q Hq. eapply glob_dir_exists, Hq.
Qed.

(** The statement applied: the sample tree with [README], recursive
    search, a callback, copy mode. *)
Lemma C7_enumerated_files_are_processed_witness :
  let s0 := snd (__init__ Sample.env ["out"] "images" "videos" "unknown"
                   false false (Sample.world_of Sample.with_readme)) in
  let r := parse_dir Sample.env ["src"] true true CbFunction s0 in
  wants_progress true CbFunction = true
  /\ r = (Ok tt, snd r)
  /\ exists cl,
       classified (calls (snd (snd r))) = classified (calls (snd s0)) ++ cl
       /\ cl = filter (fun k => is_file (disk (snd s0)) k = true)
                      (glob_dir (disk (snd s0)) ["src"] true).
Proof.
  intros s0 r.
  assert (r = (Ok tt, snd r)) as Hrun by (vm_compute; reflexivity).
  split; [reflexivity |]. split; [exact Hrun |].
  destruct (C7_enumerated_files_are_processed Sample.env ["src"] true true
              CbFunction s0 (snd r) eq_refl Hrun)
    as (_ & _ & (cl & H1 & _ & _ & H4) & _).
  exists cl. split; [exact H1 | apply H4; reflexivity].
Defined.

(** ** C10: the run counters *)

#[export] Instance untouched_preorder : PreOrder untouched.
Proof.
  split.
  - intros s. split; reflexivity.
  - intros s1 s2 s3 [A1 B1] [A2 B2]. split; [intros c; rewrite A2; apply A1 | congruence].
Qed.

Lemma keeps_untouched_mkdir env p : keeps untouched (mkdir env p).
Proof.
  intros [o w]. unfold mkdir, stamp, on_disk, get_disk, lift, set_world.
  rewrite !bind_unfold. cbn.
  destruct (mkdir_exist_ok _ _ _); split; reflexivity.
Qed.

Lemma keeps_untouched_with_dirs (i v u : ImageOrganizer -> option path) :
  keeps untouched (set_self (fun o => with_dirs o (i o) (v o) (u o))).
Proof. intros [o w]. split; [intros []; reflexivity | reflexivity]. Qed.

Lemma make_directories_untouched env : keeps untouched (_make_directories env).
Proof.
  pose proof (keeps_untouched_mkdir env).
  pose proof keeps_untouched_with_dirs.
  unfold _make_directories. keeps_go.
Qed.

(** C10.  A new organizer has all three counters at zero.  One file of
    the loop moves no counter, or moves exactly one counter up by one,
    and a counter moves exactly when a placement into its category was
    made.  Over a whole [parse_dir] every counter grows by the number of
    placements made into its category and none goes down; so for a new
    organizer the counters after the run are the numbers of placements of
    the run.  The record a completed run hands to its callback last is
    the summary of these counters. *)
Theorem C10_run_counters (env : Env) :
  (forall wd i v u mv fp w c,
     totals (fst (snd (__init__ env wd i v u mv fp w))) c = 0)
  /\ (forall gp cb total f i s,
        let s' := snd (parse_file env gp cb total f i s) in
        (forall c, totals (fst s') c + placements c (calls (snd s))
                   = totals (fst s) c + placements c (calls (snd s')))
        /\ ((forall c, totals (fst s') c = totals (fst s) c)
            \/ (exists c, forall c',
                   totals (fst s') c'
                   = totals (fst s) c' + (if bool_decide (c' = c) then 1 else 0))))
  /\ (forall dir_path gp rec cb s,
        let s' := snd (parse_dir env dir_path gp rec cb s) in
        (forall c, totals (fst s') c + placements c (calls (snd s))
                   = totals (fst s) c + placements c (calls (snd s')))
        /\ (forall c, totals (fst s) c <= totals (fst s') c))
  /\ (forall wd i v u mv fp w dir_path gp rec cb c,
        let s0 := snd (__init__ env wd i v u mv fp w) in
        let s' := snd (parse_dir env dir_path gp rec cb s0) in
        totals (fst s') c + placements c (calls w)
        = placements c (calls (snd s')))
  /\ (forall dir_path gp rec s s',
        parse_dir env dir_path gp rec CbFunction s = (Ok tt, s') ->
        List.last (delivered (snd s')) (Totals "" "" "")
        = Totals (str_of_nat (total_images (fst s')))
                 (str_of_nat (total_videos (fst s')))
                 (str_of_nat (total_unknown (fst s')))).
Proof.
  assert (forall wd i v u mv fp w,
            untouched (fresh wd i v u mv fp, w)
                      (snd (__init__ env wd i v u mv fp w))) as Hinit.
  { intros. apply make_directories_untouched. }
  split; [| split; [| split; [| split]]].
  - intros. destruct (Hinit wd i v u mv fp w) as [H _]. rewrite H.
    destruct c; reflexivity.
  - intros gp cb total f i s s'.
    destruct (is_file (disk (snd s)) f) eqn:Hf;
      [destruct (wants_progress gp cb) eqn:Hw |].
    + destruct (parse_file_spec env gp cb total f i s Hw Hf) as [(_ & B & C & _) _].
      split; [exact B | exact C].
    + unfold s'. rewrite parse_file_skip by auto. split; [reflexivity | left; reflexivity].
    + unfold s'. rewrite parse_file_skip by auto. split; [reflexivity | left; reflexivity].
  - intros dir_path gp rec cb s s'.
    destruct (parse_dir_counted env dir_path gp rec cb s) as (_ & B & C).
    split; [exact B | exact C].
  - intros. destruct (Hinit wd i v u mv fp w) as [H1 H2].
    destruct (parse_dir_counted env dir_path gp rec cb s0) as (_ & B & _).
    specialize (B c). fold s' in B. fold s0 in H1, H2.
    rewrite H2, H1 in B. cbn [fst snd] in B.
    replace (totals (fresh wd i v u mv fp) c) with 0 in B by (destruct c; reflexivity).
    lia.
  - apply parse_dir_summary.
Qed.

(** The statement applied to the batch over the four pictures of the
    sample burst. *)
Lemma C10_run_counters_witness :
  let w := Sample.world_of Sample.burst in
  let s0 := snd (__init__ Sample.env ["out"] "images" "videos" "unknown"
                   false false w) in
  let r := parse_dir Sample.env ["src"] true true CbFunction s0 in
  r = (Ok tt, snd r)
  /\ List.last (delivered (snd (snd r))) (Totals "" "" "")
     = Totals (str_of_nat (total_images (fst (snd r))))
              (str_of_nat (total_videos (fst (snd r))))
              (str_of_nat (total_unknown (fst (snd r))))
  /\ totals (fst (snd r)) Image + placements Image (calls w)
     = placements Image (calls (snd (snd r))).
Proof.
  intros w s0 r.
  assert (r = (Ok tt, snd r)) as Hrun by (vm_compute; reflexivity).
  destruct (C10_run_counters Sample.env) as (_ & _ & _ & Hnew & Hsum).
  split; [exact Hrun |]. split.
  - exact (Hsum ["src"] true true s0 (snd r) Hrun).
  - exact (Hnew ["out"] "images" "videos" "unknown" false false w ["src"]
                true true CbFunction Image).
Defined.

(** ** C8: [_get_exif] does not raise *)



Lemma bind_lift_Ok {A B} (a : A) (k : A -> M B) s :
  bind (lift (Ok a)) k s = k a s.
Proof. reflexivity. Qed.

Lemma bind_lift_Raise {A B} e (k : A -> M B) s :
  bind (lift (Raise e)) k s = (Raise e, s).
Proof. reflexivity. Qed.





Section GetExif.
Context (env : Env).


End GetExif.



(** ** Strings without a separator *)

Lemma contains_char_cons c a r :
  contains (String c "") (String a r)
  = Ascii.eqb c a || contains (String c "") r.
Proof.
  cbn [contains String.prefix].
  destruct (ascii_dec c a) as [-> | Hne].
  - rewrite Ascii.eqb_refl. destruct r; reflexivity.
  - apply Ascii.eqb_neq in Hne. rewrite Hne. reflexivity.
Qed.

Lemma contains_char_empty c : contains (String c "") "" = false.
Proof. reflexivity. Qed.

Lemma contains_char_app c a b :
  contains (String c "") (a ++ b)%string
  = contains (String c "") a || contains (String c "") b.
Proof.
  induction a as [| x a IH].
  - rewrite append_empty. reflexivity.
  - rewrite append_String, !contains_char_cons, IH, orb_assoc. reflexivity.
Qed.

Lemma split_without_sep sep s :
  contains (String sep "") s = false -> split sep s = [s].
Proof.
  induction s as [| a s IH]; [reflexivity |].
  rewrite contains_char_cons. intros H. apply orb_false_iff in H as [Ha Hs].
  cbn [split]. rewrite Ascii.eqb_sym, Ha, (IH Hs). reflexivity.
Qed.

Lemma lower_app a b : lower (a ++ b)%string = (lower a ++ lower b)%string.
Proof.
  induction a as [| x a IH]; [reflexivity |].
  rewrite append_String. cbn [lower]. rewrite IH. reflexivity.
Qed.

Lemma lower_char_slash a : Ascii.eqb "/" (lower_char a) = Ascii.eqb "/" a.
Proof. destruct a as [[] [] [] [] [] [] [] []]; reflexivity. Qed.

Lemma lower_without_slash s :
  contains "/" (lower s) = contains "/" s.
Proof.
  induction s as [| a s IH]; [reflexivity |].
  cbn [lower]. rewrite !contains_char_cons, IH, lower_char_slash. reflexivity.
Qed.

Lemma substring_without c s : forall i m,
  contains (String c "") s = false ->
  contains (String c "") (String.substring i m s) = false.
Proof.
  induction s as [| a s IH]; intros i m H.
  - destruct i, m; reflexivity.
  - rewrite contains_char_cons in H. apply orb_false_iff in H as [Ha Hs].
    destruct i as [| i]; destruct m as [| m]; cbn [String.substring];
      try reflexivity.
    + rewrite contains_char_cons, Ha. apply IH, Hs.
    + apply IH, Hs.
    + apply IH, Hs.
Qed.

Lemma suffix_of_without c n :
  contains (String c "") n = false -> contains (String c "") (suffix_of n) = false.
Proof.
  intros H. unfold suffix_of. repeat case_match; try reflexivity.
  apply substring_without, H.
Qed.

Lemma prefix_slash n : contains "/" n = false -> String.prefix "/" n = false.
Proof.
  destruct n as [| a n]; [reflexivity |].
  rewrite contains_char_cons. intros H. apply orb_false_iff in H as [Ha _].
  cbn [String.prefix]. destruct (ascii_dec "/" a) as [<- | Hne].
  - rewrite Ascii.eqb_refl in Ha. discriminate.
  - reflexivity.
Qed.

Lemma joinpath_plain p n :
  contains "/" n = false -> n <> ""%string -> n <> "."%string ->
  joinpath p n = p ++ [n].
Proof.
  intros Hs He Hd. unfold joinpath, parts.
  rewrite (prefix_slash _ Hs), (split_without_sep "/" _ Hs).
  rewrite filter_cons, filter_nil.
  apply String.eqb_neq in He, Hd. rewrite He, Hd. reflexivity.
Qed.

Lemma joinpath_entry p n : entry_name n -> joinpath p n = p ++ [n].
Proof. intros (H1 & _ & H2 & H3 & _). apply joinpath_plain; assumption. Qed.

(** [str_lower] on ASCII text. *)
Lemma str_lower_ascii env x : is_ascii x = true -> str_lower env x = lower x.
Proof. intros H. unfold str_lower. rewrite H. reflexivity. Qed.

Lemma is_ascii_app a b : is_ascii (a ++ b) = is_ascii a && is_ascii b.
Proof.
  induction a as [| x a IH]; [reflexivity |].
  rewrite append_String. cbn [is_ascii]. rewrite IH, andb_assoc. reflexivity.
Qed.

Lemma lower_char_dash a : Ascii.eqb "-" (lower_char a) = Ascii.eqb "-" a.
Proof. destruct a as [[] [] [] [] [] [] [] []]; reflexivity. Qed.

Lemma lower_without_dash s : contains "-" (lower s) = contains "-" s.
Proof.
  induction s as [| a s IH]; [reflexivity |].
  cbn [lower]. rewrite !contains_char_cons, IH, lower_char_dash. reflexivity.
Qed.

Lemma lower_char_nul a :
  Ascii.eqb nul (lower_char a) = Ascii.eqb nul a.
Proof. destruct a as [[] [] [] [] [] [] [] []]; reflexivity. Qed.

Lemma lower_without_nul s :
  contains (String nul "") (lower s) = contains (String nul "") s.
Proof.
  induction s as [| a s IH]; [reflexivity |].
  cbn [lower]. rewrite !contains_char_cons, IH, lower_char_nul. reflexivity.
Qed.

(** The file name a sorter makes of ASCII text is one entry: the name of
    the source has no slash and no NUL byte, and the timestamp has a
    dash, no slash and no NUL byte. *)
Lemma stamped_name_is_entry env time file :
  is_ascii (time ++ suffix file) = true ->
  contains "-" time = true ->
  contains "/" time = false -> contains (String nul "") time = false ->
  contains "/" (name file) = false ->
  contains (String nul "") (name file) = false ->
  entry_name (str_lower env (time ++ suffix file)).
Proof.
  intros Ha Hdash Hslash Hnul Hname Hname0. rewrite (str_lower_ascii _ _ Ha).
  assert (contains "-" (lower (time ++ suffix file)) = true) as Hd
    by (rewrite lower_without_dash, contains_char_app, Hdash; reflexivity).
  split.
  { rewrite lower_without_slash, contains_char_app, Hslash.
    unfold suffix. rewrite (suffix_of_without _ _ Hname). reflexivity. }
  split.
  { rewrite lower_without_nul, contains_char_app, Hnul.
    unfold suffix. rewrite (suffix_of_without _ _ Hname0). reflexivity. }
  repeat split; intros E; rewrite E in Hd; discriminate Hd.
Qed.

(** ** Placing a file where nothing is in the way *)

Lemma parent_snoc (p : path) n : parent (p ++ [n]) = p.
Proof. apply removelast_last. Qed.

Lemma mkdir_exist_ok_Ok t d p n :
  dir_or_absent d (p ++ [n]) = true -> is_dir d p = true ->
  mkdir_exist_ok t d (p ++ [n]) = Ok (made t d (p ++ [n])).
Proof.
  intros Hp Hd. unfold mkdir_exist_ok, made. rewrite parent_snoc, Hd.
  unfold dir_or_absent in Hp. unfold exists_, is_dir.
  destruct (p ++ [n]) as [| x q] eqn:E; [destruct p; discriminate |].
  destruct (d !! (x :: q)) as [[[c | |] t'] |]; try discriminate;
    cbn [orb negb andb]; rewrite ?andb_false_r; reflexivity.
Qed.

Lemma made_is_dir t d p n :
  dir_or_absent d (p ++ [n]) = true -> is_dir (made t d (p ++ [n])) (p ++ [n]) = true.
Proof.
  unfold made, dir_or_absent, exists_, is_dir.
  destruct (p ++ [n]) as [| x q] eqn:E; [reflexivity |].
  destruct (d !! (x :: q)) as [[[c | |] t'] |] eqn:L; try discriminate; intros _.
  - rewrite L. reflexivity.
  - rewrite lookup_insert_eq. reflexivity.
Qed.

Lemma made_lookup_other t d p q : q <> p -> made t d p !! q = d !! q.
Proof.
  intros H. unfold made. destruct (exists_ d p); [reflexivity |].
  apply lookup_insert_ne. congruence.
Qed.

Lemma made_lookup_Some t d p q x : d !! q = Some x -> made t d p !! q = Some x.
Proof.
  intros H. unfold made, exists_. destruct (d !! p) eqn:E; [exact H |].
  rewrite lookup_insert_ne; [exact H | congruence].
Qed.

Lemma mkdir_run env p s :
  mkdir env p s
  = match mkdir_exist_ok (clock env (ticks (snd s))) (disk (snd s)) p with
    | Ok d' => (Ok tt, (fst s, set_disk d' (snd s)))
    | Raise e => (Raise e, s)
    end.
Proof.
  unfold mkdir, stamp, on_disk, get_disk, lift, set_world. rewrite !bind_unfold.
  destruct (mkdir_exist_ok _ _ p); reflexivity.
Qed.

Lemma on_disk_run (op : fs -> result fs) s :
  on_disk op s
  = match op (disk (snd s)) with
    | Ok d' => (Ok tt, (fst s, set_disk d' (snd s)))
    | Raise e => (Raise e, s)
    end.
Proof.
  unfold on_disk, get_disk, lift, set_world. rewrite !bind_unfold.
  destruct (op _); reflexivity.
Qed.

Lemma is_dir_lookup_None (d : fs) p n : d !! (p ++ [n]) = None -> is_dir d (p ++ [n]) = false.
Proof.
  unfold is_dir. intros ->. destruct (p ++ [n]) eqn:E; [destruct p; discriminate | reflexivity].
Qed.

(** Copy and move of a regular file to a free name in a directory. *)
Lemma copy2_to_free d src p n bytes mt :
  d !! src = Some (Node (KFile bytes) mt) -> d !! (p ++ [n]) = None ->
  is_dir d p = true ->
  copy2 d src (p ++ [n]) = Ok (<[p ++ [n] := Node (KFile bytes) mt]> d).
Proof.
  intros Hsrc Hdst Hp. unfold copy2.
  rewrite (is_dir_lookup_None _ _ _ Hdst).
  assert (src <> p ++ [n]) as Hne by congruence.
  rewrite bool_decide_eq_false_2 by exact Hne. cbn [andb].
  rewrite Hsrc, Hdst. unfold open_for_write. rewrite Hdst, parent_snoc, Hp.
  reflexivity.
Qed.

Lemma move_to_free d src p n bytes mt :
  d !! src = Some (Node (KFile bytes) mt) -> d !! (p ++ [n]) = None ->
  is_dir d p = true ->
  move d src (p ++ [n])
  = Ok (<[p ++ [n] := Node (KFile bytes) mt]> (delete src d)).
Proof.
  intros Hsrc Hdst Hp. unfold move.
  rewrite (is_dir_lookup_None _ _ _ Hdst). cbn [andb].
  assert (src <> p ++ [n]) as Hne by congruence.
  rewrite Hsrc, bool_decide_eq_false_2 by exact Hne.
  rewrite parent_snoc, Hp, (is_dir_lookup_None _ _ _ Hdst). reflexivity.
Qed.

Lemma bind_ret {A B} (a : A) (k : A -> M B) s : bind (ret a) k s = k a s.
Proof. reflexivity. Qed.

Lemma bind_get_self {B} (k : ImageOrganizer -> M B) s :
  bind get_self k s = k (fst s) s.
Proof. reflexivity. Qed.

Lemma bind_get_disk {B : Type} (k : fs -> M B) s :
  bind get_disk k s = k (disk (snd s)) s.
Proof. reflexivity. Qed.

Lemma bind_mkdir_Ok {B : Type} env p (k : unit -> M B) s d' :
  mkdir_exist_ok (clock env (ticks (snd s))) (disk (snd s)) p = Ok d' ->
  bind (mkdir env p) k s = k tt (fst s, set_disk d' (snd s)).
Proof. intros H. rewrite bind_unfold, mkdir_run, H. reflexivity. Qed.

Lemma bind_on_disk_Ok {B : Type} (op : fs -> result fs) (k : unit -> M B) s d' :
  op (disk (snd s)) = Ok d' ->
  bind (on_disk op) k s = k tt (fst s, set_disk d' (snd s)).
Proof. intros H. rewrite bind_unfold, on_disk_run, H. reflexivity. Qed.

Section Destination.
Context (env : Env).

Lemma get_exif_2013 file s bytes mt open_image :
  disk (snd s) !! file = Some (Node (KFile bytes) mt) ->
  pil_getexif env file bytes = Ok open_image ->
  make_exif_dict env (open_image (find_exif_key (TAGS env) None))
    !! inl "DateTimeOriginal" = Some "2013:10:01 09:17:50"%string ->
  _get_exif env file s = (Ok (Some "10-01-2013 [09.17.50]"%string), s).
Proof.
  intros Hfile Hpil Htag. unfold _get_exif. rewrite bind_unfold.
  unfold try_except, read_with. rewrite bind_unfold, bind_get_disk, Hfile.
  unfold lift. rewrite Hpil. cbn [ret].
  rewrite bool_decide_eq_true_2
    by (intros E; rewrite E, lookup_empty in Htag; discriminate).
  unfold date_time_original. rewrite Htag. vm_compute. reflexivity.
Qed.

(** C9.  A file whose Exif [DateTimeOriginal] is [2013:10:01 09:17:50]
    gets the timestamp [10-01-2013 [09.17.50]] from [_get_exif]; and
    each of the three sorters, with that timestamp and no entry yet at
    the destination, places the file at
    [<category root>/2013/october/<name>], in copy mode and in move mode.
    [<name>] is [str.lower] of [10-01-2013 [09.17.50]<ext>], as the code
    computes it from the suffix [<ext>] of the file, for every suffix; for
    an ASCII suffix it is [10-01-2013 [09.17.50]] followed by the suffix
    with its capitals in lower case. *)
Theorem C9_destination_2013_october
    (c : category) (dir : ImageOrganizer -> option path) (file : path)
    (s : state) (bytes : string) (mt : datetime)
    (open_image : option Z -> list (Z * string)) (root : path) :
  let d := disk (snd s) in
  let year := root ++ ["2013"%string] in
  let month := root ++ ["2013"%string; "october"%string] in
  let file_name := str_lower env ("10-01-2013 [09.17.50]" ++ suffix file) in
  let dst := root ++ ["2013"%string; "october"%string; file_name] in
  d !! file = Some (Node (KFile bytes) mt) ->
  pil_getexif env file bytes = Ok open_image ->
  make_exif_dict env (open_image (find_exif_key (TAGS env) None))
    !! inl "DateTimeOriginal" = Some "2013:10:01 09:17:50"%string ->
  entry_name file_name ->
  dir (fst s) = Some root ->
  is_dir d root = true ->
  dir_or_absent d year = true ->
  dir_or_absent d month = true ->
  d !! dst = None ->
  _get_exif env file s = (Ok (Some "10-01-2013 [09.17.50]"%string), s)
  /\ (is_ascii (suffix file) = true ->
      file_name = ("10-01-2013 [09.17.50]" ++ lower (suffix file))%string)
  /\ exists s',
       sorter env c dir file "10-01-2013 [09.17.50]" s = (Ok tt, s')
       /\ calls (snd s') = calls (snd s) ++ [Placed c file dst]
       /\ disk (snd s') !! dst = Some (Node (KFile bytes) mt)
       /\ is_dir (disk (snd s')) month = true.
Proof.
  intros d year month file_name dst Hfile Hpil Htag Hname Hdir Hroot Hyear
    Hmonth Hdst.
  split; [eapply get_exif_2013; eassumption |].
  split.
  { intros Ha. unfold file_name. rewrite str_lower_ascii, lower_app.
    - reflexivity.
    - rewrite is_ascii_app, Ha. reflexivity. }
  destruct s as [o w]. cbn [fst snd] in *.
  assert (month = year ++ ["october"%string]) as Emonth
    by (unfold month, year; rewrite <- app_assoc; reflexivity).
  assert (dst = (year ++ ["october"%string]) ++ [file_name])
    as Edst by (unfold dst, year; rewrite <- !app_assoc; reflexivity).
  clearbody month dst. subst month dst.
  set (month := year ++ ["october"%string]) in *.
  set (dst := month ++ [file_name]) in *.
  set (t := clock env (ticks w)).
  set (d1 := made t d year). set (d2 := made t d1 month).
  (* the two directories *)
  assert (mkdir_exist_ok t d year = Ok d1) as Hmk1
    by (apply mkdir_exist_ok_Ok; assumption).
  assert (month <> year) as Hmy.
  { intros E. apply (f_equal length) in E. unfold month in E.
    rewrite length_app in E. simpl in E. lia. }
  assert (dst <> year) as Hdy.
  { intros E. apply (f_equal length) in E. unfold dst, month in E.
    rewrite !length_app in E. simpl in E. lia. }
  assert (dst <> month) as Hdm.
  { intros E. apply (f_equal length) in E. unfold dst in E.
    rewrite length_app in E. simpl in E. lia. }
  assert (dir_or_absent d1 month = true) as Hmonth1.
  { unfold dir_or_absent, d1. rewrite made_lookup_other by exact Hmy. exact Hmonth. }
  assert (mkdir_exist_ok t d1 month = Ok d2) as Hmk2.
  { apply mkdir_exist_ok_Ok; [exact Hmonth1 | apply made_is_dir, Hyear]. }
  assert (is_dir d2 month = true) as Hm2 by (apply made_is_dir, Hmonth1).
  assert (d2 !! file = Some (Node (KFile bytes) mt)) as Hfile2
    by (apply made_lookup_Some, made_lookup_Some, Hfile).
  assert (d2 !! dst = None) as Hdst2.
  { unfold d2, d1. rewrite !made_lookup_other by assumption. exact Hdst. }
  (* the file name *)
  assert (joinpath month (str_lower env ("10-01-2013 [09.17.50]" ++ suffix file)%string)
          = dst) as Ejoin by (apply joinpath_entry, Hname).
  (* the run *)
  unfold sorter. rewrite bind_get_self. cbn [fst].
  change (index (split " " "10-01-2013 [09.17.50]") 0) with (Ok "10-01-2013"%string).
  rewrite bind_lift_Ok.
  change (index (split "-" "10-01-2013") 2) with (Ok "2013"%string).
  rewrite bind_lift_Ok, Hdir. unfold dir_of. rewrite bind_ret.
  change (joinpath root "2013") with year.
  rewrite (bind_mkdir_Ok env year _ (o, w) d1 Hmk1).
  rewrite bind_lift_Ok.
  change (index (split "-" "10-01-2013") 0) with (Ok "10"%string).
  rewrite bind_lift_Ok.
  change (int "10") with (Ok 10%Z). rewrite bind_lift_Ok.
  change (month_name 10) with (Ok "October"%string). rewrite bind_lift_Ok.
  change (lower "October") with "october"%string.
  change (joinpath year "october") with month.
  rewrite (bind_mkdir_Ok env month _ _ d2) by exact Hmk2.
  rewrite bind_get_disk. cbn [fst snd disk set_disk]. rewrite Ejoin.
  unfold exists_ at 1 2. rewrite Hdst2. cbn [negb].
  exists (o, {| disk := if move_file o
                        then <[dst := Node (KFile bytes) mt]> (delete file d2)
                        else <[dst := Node (KFile bytes) mt]> d2;
                stdout := stdout w; delivered := delivered w;
                calls := calls w ++ [Placed c file dst]; ticks := ticks w |}).
  cbn [fst snd calls disk].
  split; [| split; [reflexivity | split]].
  - destruct (move_file o); cbn [negb].
    + rewrite (bind_on_disk_Ok _ _ _ (<[dst := Node (KFile bytes) mt]> (delete file d2))).
      * reflexivity.
      * cbn [fst snd disk]. apply move_to_free; assumption.
    + rewrite (bind_on_disk_Ok _ _ _ (<[dst := Node (KFile bytes) mt]> d2)).
      * reflexivity.
      * cbn [fst snd disk]. apply copy2_to_free; assumption.
  - destruct (move_file o); apply lookup_insert_eq.
  - assert (forall d', is_dir (<[dst := Node (KFile bytes) mt]> d') month
                       = is_dir d' month) as Hins.
    { intros d'. unfold is_dir. rewrite lookup_insert_ne by congruence. reflexivity. }
    destruct (move_file o); rewrite Hins; [| exact Hm2].
    unfold is_dir in *. destruct month eqn:E; [reflexivity |].
    rewrite lookup_delete_ne; [exact Hm2 |].
    intros ->. rewrite Hfile2 in Hm2. discriminate.
Qed.

End Destination.

(** The statement applied: the sample picture, just after the organizer
    was constructed, sorted as an image. *)
Lemma C9_destination_2013_october_witness :
  let s := snd (__init__ Sample.env ["out"] "images" "videos" "unknown" false
                  false (Sample.world_of Sample.one_picture)) in
  let file := ["src"; "a.JPG"]%string in
  let bytes := "JPEG 2013:10:01 09:17:50"%string in
  let dst := ["out"; "images"; "2013"; "october"; "10-01-2013 [09.17.50].jpg"]%string in
  disk (snd s) !! file = Some (Node (KFile bytes) Sample.t0)
  /\ image_dir (fst s) = Some ["out"; "images"]%string
  /\ disk (snd s) !! dst = None
  /\ _get_exif Sample.env file s = (Ok (Some "10-01-2013 [09.17.50]"%string), s)
  /\ exists s',
       sorter Sample.env Image image_dir file "10-01-2013 [09.17.50]" s = (Ok tt, s')
       /\ calls (snd s') = calls (snd s) ++ [Placed Image file dst]
       /\ disk (snd s') !! dst = Some (Node (KFile bytes) Sample.t0).
Proof.
  intros s file bytes dst.
  pose (root := ["out"; "images"]%string).
  pose (open_image := fun key : option Z =>
          if bool_decide (key = Some 34665%Z)
          then [(36867%Z, String.substring 5 19 bytes)] else []).
  assert (disk (snd s) !! file = Some (Node (KFile bytes) Sample.t0)) as H1
    by (vm_compute; reflexivity).
  assert (pil_getexif Sample.env file bytes = Ok open_image) as H2 by reflexivity.
  assert (make_exif_dict Sample.env
            (open_image (find_exif_key (TAGS Sample.env) None))
            !! inl "DateTimeOriginal" = Some "2013:10:01 09:17:50"%string) as H3
    by (vm_compute; reflexivity).
  assert (entry_name (str_lower Sample.env
                        ("10-01-2013 [09.17.50]" ++ suffix file))) as H4
    by (repeat split; (reflexivity || discriminate)).
  assert (image_dir (fst s) = Some root) as H5 by (vm_compute; reflexivity).
  assert (is_dir (disk (snd s)) root = true) as H6 by (vm_compute; reflexivity).
  assert (dir_or_absent (disk (snd s)) (root ++ ["2013"%string]) = true) as H7
    by (vm_compute; reflexivity).
  assert (dir_or_absent (disk (snd s)) (root ++ ["2013"%string; "october"%string])
          = true) as H8 by (vm_compute; reflexivity).
  assert (disk (snd s)
            !! (root ++ ["2013"%string; "october"%string;
                         str_lower Sample.env
                           ("10-01-2013 [09.17.50]" ++ suffix file)])
          = None) as H9 by (vm_compute; reflexivity).
  destruct (C9_destination_2013_october Sample.env Image image_dir file s bytes
              Sample.t0 open_image root H1 H2 H3 H4 H5 H6 H7 H8 H9)
    as (Hexif & _ & s' & Hrun & Hcalls & Hdisk & _).
  split; [exact H1 |]. split; [exact H5 |]. split; [exact H9 |].
  split; [exact Hexif |].
  exists s'. split; [exact Hrun |]. split; [exact Hcalls | exact Hdisk].
Defined.

(** ** The conversion of a well-formed capture date *)

Lemma append_assoc a b c : ((a ++ b) ++ c)%string = (a ++ (b ++ c))%string.
Proof.
  induction a as [| x a IH]; [reflexivity |].
  rewrite !append_String, IH. reflexivity.
Qed.

Lemma split_app_sep sep a b :
  contains (String sep "") a = false ->
  split sep (a ++ String sep b)%string = a :: split sep b.
Proof.
  induction a as [| x a IH]; intros H.
  - rewrite append_empty. cbn [split]. rewrite Ascii.eqb_refl. reflexivity.
  - rewrite contains_char_cons in H. apply orb_false_iff in H as [Hx Ha].
    rewrite append_String. cbn [split].
    rewrite Ascii.eqb_sym, Hx, (IH Ha). reflexivity.
Qed.

Lemma replace_without c new s :
  contains (String c "") s = false -> replace c new s = s.
Proof.
  induction s as [| x s IH]; intros H; [reflexivity |].
  rewrite contains_char_cons in H. apply orb_false_iff in H as [Hx Hs].
  cbn [replace]. rewrite Ascii.eqb_sym, Hx, (IH Hs). reflexivity.
Qed.

Lemma replace_app c new a b :
  replace c new (a ++ b)%string = (replace c new a ++ replace c new b)%string.
Proof.
  induction a as [| x a IH]; [reflexivity |].
  rewrite append_String. cbn [replace]. rewrite IH.
  destruct (Ascii.eqb x c); [| reflexivity].
  symmetry. apply append_assoc.
Qed.

Ltac norm_append :=
  repeat first [ rewrite append_assoc | rewrite append_String
               | rewrite append_empty ].

Lemma date_time_original_reformat exif_dict s y mo d h mi se :
  plain y -> plain mo -> plain d -> plain h -> plain mi -> plain se ->
  exif_dict !! inl "DateTimeOriginal"
  = Some (y ++ ":" ++ mo ++ ":" ++ d ++ " " ++ h ++ ":" ++ mi ++ ":" ++ se)%string ->
  date_time_original exif_dict s
  = (Ok (Some (mo ++ "-" ++ d ++ "-" ++ y ++ " [" ++ h ++ "." ++ mi ++ "."
               ++ se ++ "]")%string), s).
Proof.
  intros (Hy1 & Hy2 & Hy3) (Hmo1 & Hmo2 & Hmo3) (Hd1 & Hd2 & Hd3)
         (Hh1 & Hh2 & Hh3) (Hmi1 & Hmi2 & Hmi3) (Hse1 & Hse2 & Hse3) Htag.
  set (date := (y ++ ":" ++ mo ++ ":" ++ d)%string).
  set (time := (h ++ ":" ++ mi ++ ":" ++ se)%string).
  assert (contains " " date = false) as Hdate
    by (unfold date; rewrite !contains_char_app, Hy2, Hmo2, Hd2; reflexivity).
  assert (contains " " time = false) as Htime
    by (unfold time; rewrite !contains_char_app, Hh2, Hmi2, Hse2; reflexivity).
  assert ((y ++ ":" ++ mo ++ ":" ++ d ++ " " ++ h ++ ":" ++ mi ++ ":" ++ se)%string
          = (date ++ String " " time)%string) as Ev.
  { unfold date, time. norm_append. reflexivity. }
  rewrite Ev in Htag.
  assert (replace nul "" (date ++ String " " time)%string
          = (date ++ String " " time)%string) as Enul.
  { apply replace_without. unfold date, time.
    rewrite !contains_char_app, !contains_char_cons, !contains_char_app,
      Hy3, Hmo3, Hd3, Hh3, Hmi3, Hse3. reflexivity. }
  assert (split " " (date ++ String " " time)%string = [date; time]) as Esplit.
  { rewrite (split_app_sep " " _ _ Hdate), (split_without_sep " " _ Htime).
    reflexivity. }
  assert (split ":" date = [y; mo; d]) as Edate.
  { unfold date. change (":" ++ mo ++ ":" ++ d)%string
      with (String ":" (mo ++ String ":" d)).
    rewrite (split_app_sep ":" _ _ Hy1), (split_app_sep ":" _ _ Hmo1),
      (split_without_sep ":" _ Hd1). reflexivity. }
  assert (replace ":" "." time = (h ++ "." ++ mi ++ "." ++ se)%string) as Etime.
  { unfold time. rewrite !replace_app, (replace_without ":" _ h Hh1),
      (replace_without ":" _ mi Hmi1), (replace_without ":" _ se Hse1).
    reflexivity. }
  unfold date_time_original. rewrite Htag, bind_ret, Enul.
  destruct (String.eqb_spec (date ++ String " " time) "00-00-0000 [00:00:00]")
    as [E | _].
  { exfalso. apply (f_equal (split " ")) in E. rewrite Esplit in E.
    injection E as E _. apply (f_equal (contains ":")) in E.
    unfold date in E. rewrite !contains_char_app in E.
    rewrite orb_true_r in E. cbn in E. discriminate E. }
  repeat first [ rewrite Esplit | rewrite Edate | rewrite Etime
               | rewrite bind_lift_Ok | progress cbn [index nth_error]
               | progress cbv zeta ].
  norm_append. reflexivity.
Qed.

(** ** The departures, for every environment *)

Section Departures.
Context (env : Env).



(** In accurate mode the classifier returns the type of the second
    track, whatever it is. *)
Lemma check_filetype_media_info_second_track file s bytes mt tracks t :
  disk (snd s) !! file = Some (Node (KFile bytes) mt) ->
  mediainfo_parse env file bytes = Ok tracks ->
  nth_error tracks 1 = Some t ->
  _check_filetype_media_info env file s = (Ok (Some t), s).
Proof.
  intros Hfile Hmi Ht. unfold _check_filetype_media_info, try_except, read_with.
  rewrite bind_unfold, bind_get_disk, Hfile. unfold lift. rewrite Hmi.
  unfold index. rewrite Ht. reflexivity.
Qed.

(** With [get_progress=False] and no callback [parse_dir] changes
    nothing at all. *)
Lemma parse_loop_without_progress total l : forall i s,
  parse_loop env false CbNone total l i s = (Ok tt, s).
Proof.
  induction l as [| f l IH]; intros i s; [reflexivity |].
  cbn [parse_loop]. rewrite bind_unfold, parse_file_skip by (right; reflexivity).
  apply IH.
Qed.

Lemma parse_dir_without_progress dir_path recursive_search s :
  parse_dir env dir_path false recursive_search CbNone s = (Ok tt, s).
Proof.
  unfold parse_dir. rewrite bind_get_disk, bind_unfold, parse_loop_without_progress.
  reflexivity.
Qed.

(** With [get_progress=True] and no callback [parse_dir] never returns. *)
Lemma parse_dir_progress_without_callback dir_path recursive_search s :
  exists e, fst (parse_dir env dir_path true recursive_search CbNone s) = Raise e.
Proof.
  unfold parse_dir. rewrite bind_get_disk, bind_unfold.
  destruct (parse_loop _ _ _ _ _ _ _) as [[[] | e] s1]; [| exists e; reflexivity].
  cbn [wants_progress orb]. rewrite bind_get_self. cbn [call_callback raise fst].
  eexists. reflexivity.
Qed.

(** A file that carries the tag: [_get_exif] is the conversion of its
    value. *)
Lemma get_exif_of_tag file s bytes mt open_image v :
  disk (snd s) !! file = Some (Node (KFile bytes) mt) ->
  pil_getexif env file bytes = Ok open_image ->
  make_exif_dict env (open_image (find_exif_key (TAGS env) None))
    !! inl "DateTimeOriginal" = Some v ->
  _get_exif env file s
  = try_except
      (date_time_original
         (make_exif_dict env (open_image (find_exif_key (TAGS env) None))))
      (fun e => match exn_cls e with
                | KeyError | IndexError => ret None
                | _ => lift (Raise e)
                end) s.
Proof.
  intros Hfile Hpil Htag. unfold _get_exif. rewrite bind_unfold.
  unfold try_except at 1. unfold read_with.
  rewrite bind_unfold, bind_get_disk, Hfile.
  unfold lift at 1. rewrite Hpil. cbn [ret].
  rewrite bool_decide_eq_true_2
    by (intros E; rewrite E, lookup_empty in Htag; discriminate).
  reflexivity.
Qed.

(** The all-zero capture date is converted like any other. *)
Lemma get_exif_zero_date file s bytes mt open_image :
  disk (snd s) !! file = Some (Node (KFile bytes) mt) ->
  pil_getexif env file bytes = Ok open_image ->
  make_exif_dict env (open_image (find_exif_key (TAGS env) None))
    !! inl "DateTimeOriginal" = Some "0000:00:00 00:00:00"%string ->
  _get_exif env file s = (Ok (Some "00-00-0000 [00.00.00]"%string), s).
Proof.
  intros Hfile Hpil Htag.
  rewrite (get_exif_of_tag _ _ _ _ _ _ Hfile Hpil Htag).
  unfold try_except, date_time_original. rewrite Htag. vm_compute. reflexivity.
Qed.

End Departures.

(** ** The batch on sample trees *)

Section Reruns.
Import Sample.

Let run1 := batch true true CbFunction one_picture.
Let run2 := batch true true CbFunction (disk_after run1).
Let run3 := batch true true CbFunction (disk_after run2).
Let run4 := batch true true CbFunction (disk_after run3).

Let october : path := ["out"; "images"; "2013"; "october"].

(** C1 (the code departs): the batch is run four times in copy mode on
    an unchanged source tree holding one picture.  The first three runs
    place it as [<stamp>.jpg], [<stamp>(1).jpg] and [<stamp>(2).jpg]; the
    fourth run is given the counter 2 again and writes over the file of
    the third run, so the month directory still holds three files. *)
Theorem C1_fourth_run_overwrites_third :
  map (fun r => (fst r, omap (fun c => match c with
                                        | Placed _ _ dst => Some (name dst)
                                        | _ => None
                                        end) (calls_after r)))
      [run1; run2; run3; run4]
  = [ (Ok tt, ["10-01-2013 [09.17.50].jpg"]);
      (Ok tt, ["10-01-2013 [09.17.50](1).jpg"]);
      (Ok tt, ["10-01-2013 [09.17.50](2).jpg"]);
      (Ok tt, ["10-01-2013 [09.17.50](2).jpg"]) ]
  /\ is_file (disk_after run3)
             (october ++ ["10-01-2013 [09.17.50](2).jpg"]) = true
  /\ sorted (glob (disk_after run4) october)
     = [ october ++ ["10-01-2013 [09.17.50](1).jpg"];
         october ++ ["10-01-2013 [09.17.50](2).jpg"];
         october ++ ["10-01-2013 [09.17.50].jpg"] ].
Proof. vm_compute. repeat split; reflexivity. Qed.

(** In one run over four pictures taken within the same second, the
    fourth picture replaces the third: its bytes are no longer in the
    output. *)
Lemma burst_loses_third_picture :
  let r := batch true true CbFunction burst in
  fst r = Ok tt
  /\ total_images (self_after r) = 4
  /\ List.map (fun p => kind <$> disk_after r !! p)
       (sorted (glob (disk_after r) october))
     = [ Some (KFile "JPEG 2013:10:01 09:17:50 two");
         Some (KFile "JPEG 2013:10:01 09:17:50 four");
         Some (KFile "JPEG 2013:10:01 09:17:50 one") ].
Proof. vm_compute. repeat split; reflexivity. Qed.

End Reruns.

(** C2 (the code departs): with [a.jpg], [a(1).jpg] and [a(3).jpg] in the
    month directory, a further file named [a.jpg] is given [a(2).jpg], not
    [a(4).jpg]: the counter is read from the file that sorts first. *)
Theorem C2_counter_after_1_and_3_is_2 :
  fst (_check_for_dupes ["out"; "images"] "2013" "october" "a.jpg"
         (fresh ["out"] "images" "videos" "unknown" false false,
          Sample.world_of Sample.month_with_gap))
  = Ok "a(2).jpg".
Proof. vm_compute. reflexivity. Qed.

(** C3 (the code departs): in accurate mode a sound file is classified
    ["Audio"], which is none of Image, Video and [None]; the run ends
    without placing the file anywhere and without counting it. *)
Theorem C3_audio_is_neither_classified_nor_placed :
  let r := Sample.batch true true CbFunction Sample.one_song in
  fst r = Ok tt
  /\ Sample.calls_after r
     = [ Classified ["src"; "song.mp3"] (Some "Audio");
         GotExif ["src"; "song.mp3"] None;
         GotModificationTime ["src"; "song.mp3"] "05-17-2020 [08.03.09]" ]
  /\ delivered (snd (snd r))
     = [ Progress "Processing file 1 of 1" (1, 1); Totals "0" "0" "0" ]
  /\ glob (Sample.disk_after r) ["out"; "images"] = []
  /\ glob (Sample.disk_after r) ["out"; "videos"] = []
  /\ glob (Sample.disk_after r) ["out"; "unknown"] = [].
Proof. vm_compute. repeat split; reflexivity. Qed.

(** C4 (the code departs): with [get_progress=False] and no callback the
    loop body is skipped for every file: nothing is classified, resolved
    or placed, no counter moves. *)
Theorem C4_without_progress_nothing_is_processed :
  let r := Sample.batch false true CbNone Sample.one_picture in
  fst r = Ok tt
  /\ Sample.calls_after r = []
  /\ (total_images (Sample.self_after r), total_videos (Sample.self_after r),
      total_unknown (Sample.self_after r)) = (0, 0, 0)
  /\ glob (Sample.disk_after r) ["out"; "images"] = [].
Proof. vm_compute. repeat split; reflexivity. Qed.

(** C5 (the code departs): with [get_progress=True] and no callback the
    file is processed and its progress printed, and then the call of the
    absent callback ends the run with a [TypeError]. *)
Theorem C5_progress_without_callback_raises :
  let r := Sample.batch true true CbNone Sample.one_picture in
  fst r = Raise (Exn TypeError "'NoneType' object is not callable")
  /\ stdout (snd (snd r)) = ["Processing file 1 of 1"]
  /\ total_images (Sample.self_after r) = 1.
Proof. vm_compute. repeat split; reflexivity. Qed.

(** C6 (the code departs): a capture date of [0000:00:00 00:00:00] is not
    taken as absent.  [_get_exif] returns it reformatted, the modification
    time is never read, and the file is placed under the year [0000]. *)
Theorem C6_zero_date_is_used :
  let r := Sample.batch true true CbFunction Sample.zero_date in
  fst r = Ok tt
  /\ Sample.calls_after r
     = [ Classified ["src"; "a.JPG"] (Some "Image");
         GotExif ["src"; "a.JPG"] (Some "00-00-0000 [00.00.00]");
         Placed Image ["src"; "a.JPG"]
                ["out"; "images"; "0000"; "00-00-0000 [00.00.00].jpg"] ].
Proof. vm_compute. repeat split; reflexivity. Qed.

(** C7 (as stated, refuted): [README] is a regular file under the root,
    and a completed recursive run never classifies it. *)
Lemma C7_file_without_dot_is_omitted :
  let r := Sample.batch true true CbFunction Sample.with_readme in
  is_file Sample.with_readme ["src"; "README"] = true
  /\ fst r = Ok tt
  /\ classified (Sample.calls_after r) = [ ["src"; "notes.txt"] ]
  /\ ~ In ["src"; "README"] (classified (Sample.calls_after r)).
Proof.
  vm_compute. repeat split; try reflexivity.
  intros [H | []]. discriminate H.
Qed.

(* ===================================================================== *)
(** * Further properties of the class *)
(* ===================================================================== *)

(** ** Helper methods touch the disk only *)

#[export] Instance only_disk_preorder : PreOrder only_disk.
Proof.
  split.
  - intros s. repeat split.
  - intros s1 s2 s3 (A1 & B1 & C1 & D1) (A2 & B2 & C2 & D2).
    unfold only_disk. repeat split; congruence.
Qed.

Lemma keeps_only_disk_on_disk (op : fs -> result fs) : keeps only_disk (on_disk op).
Proof.
  intros [o w]. rewrite on_disk_run. destruct (op _); repeat split.
Qed.

Lemma keeps_only_disk_now env : keeps only_disk (now env).
Proof. intros [o w]. repeat split. Qed.

Lemma keeps_only_disk_stamp env : keeps only_disk (stamp env).
Proof. intros [o w]. repeat split. Qed.

#[export] Hint Resolve keeps_only_disk_on_disk keeps_only_disk_now
  keeps_only_disk_stamp : keeps.

Lemma keeps_only_disk_mkdir env p : keeps only_disk (mkdir env p).
Proof. unfold mkdir. keeps_go. Qed.

Lemma keeps_only_disk_log_exception env prefix file e :
  keeps only_disk (log_exception env prefix file e).
Proof. unfold log_exception. keeps_go. Qed.

Lemma keeps_only_disk_read_with {A : Type} (lib : path -> string -> result A) file :
  keeps only_disk (read_with lib file).
Proof. unfold read_with. keeps_go. Qed.

#[export] Hint Resolve keeps_only_disk_mkdir keeps_only_disk_log_exception
  keeps_only_disk_read_with : keeps.

Lemma keeps_only_disk_check_filetype_media_info env file :
  keeps only_disk (_check_filetype_media_info env file).
Proof. unfold _check_filetype_media_info. keeps_go. Qed.

Lemma keeps_only_disk_get_exif env file : keeps only_disk (_get_exif env file).
Proof.
  unfold _get_exif. keeps_go. apply keeps_date_time_original. tc_solve.
Qed.

Lemma keeps_only_disk_get_modification_time file :
  keeps only_disk (_get_modification_time file).
Proof. unfold _get_modification_time. keeps_go. Qed.

Lemma keeps_only_disk_check_for_dupes file_dir y m n :
  keeps only_disk (_check_for_dupes file_dir y m n).
Proof. unfold _check_for_dupes. keeps_go. Qed.

#[export] Hint Resolve keeps_only_disk_check_filetype_media_info
  keeps_only_disk_get_exif keeps_only_disk_get_modification_time
  keeps_only_disk_check_for_dupes : keeps.

(** A run of [bind] that returns: both parts returned. *)
Lemma bind_Ok_inv {A B : Type} (m : M A) (k : A -> M B) s b s' :
  bind m k s = (Ok b, s') ->
  exists a s1, m s = (Ok a, s1) /\ k a s1 = (Ok b, s').
Proof.
  rewrite bind_unfold. destruct (m s) as [[a | e] s1]; [| discriminate].
  intros H. exists a, s1. split; [reflexivity | exact H].
Qed.

Lemma sorter_log_prefix c f s s1 x :
  only_disk s s1 -> sorter_log c f s1 x -> sorter_log c f s x.
Proof.
  intros (A1 & B1 & C1 & D1) (A2 & B2 & C2 & D2). unfold sorter_log.
  rewrite <- A1, <- B1, <- C1, <- D1. repeat split; assumption.
Qed.

Lemma sorter_log_raise c f s s1 e :
  only_disk s s1 -> sorter_log c f s (Raise e, s1).
Proof. intros (A1 & B1 & C1 & D1). repeat split; assumption. Qed.

Ltac log_step :=
  lazymatch goal with
  | |- forall s, sorter_log ?c ?f s (bind ?m ?k s) =>
      apply (bind_prefix only_disk (sorter_log c f) m k);
      [ apply sorter_log_prefix | apply sorter_log_raise
      | solve [keeps_go] | intros ?; cbv beta ]
  end.

Lemma note_log (c : category) (f dst : path) (s : state) :
  sorter_log c f s (note (Placed c f dst) s).
Proof. destruct s as [o w]. cbn. repeat split. exists dst. reflexivity. Qed.

Lemma sorter_logs env c dir f time s :
  sorter_log c f s (sorter env c dir f time s).
Proof.
  revert s. unfold sorter. repeat log_step.
  repeat case_match; repeat log_step; intros s; apply note_log.
Qed.

Section Sequence.
Context (env : Env).

(** The timestamp block notes the Exif date, and the modification time
    when it falls back to it. *)
Lemma file_creation_date_Ok f s t s' :
  file_creation_date env f s = (Ok t, s') ->
  exists exif mtime,
    fst s' = fst s
    /\ stdout (snd s') = stdout (snd s)
    /\ delivered (snd s') = delivered (snd s)
    /\ calls (snd s')
       = calls (snd s)
         ++ GotExif f exif :: (if truthy exif then [] else [GotModificationTime f mtime])
    /\ t = (if truthy exif then default ""%string exif else mtime).
Proof.
  unfold file_creation_date. intros H.
  apply bind_Ok_inv in H as (exif & s1 & H1 & H).
  pose proof (keeps_only_disk_get_exif env f s) as K1. rewrite H1 in K1.
  destruct K1 as (A1 & B1 & C1 & D1). cbn [fst snd] in *.
  rewrite bind_unfold in H. cbn [note set_world] in H.
  destruct (truthy exif) eqn:Et; cbn [negb] in H.
  - injection H as <- <-. exists exif, ""%string. cbn [fst snd calls stdout delivered].
    rewrite A1, B1, C1, D1, Et. repeat split.
  - apply bind_Ok_inv in H as (mt & s2 & H2 & H).
    match type of H2 with _get_modification_time f ?s0 = _ =>
      pose proof (keeps_only_disk_get_modification_time f s0) as K2 end.
    rewrite H2 in K2. destruct K2 as (A2 & B2 & C2 & D2). cbn [fst snd] in *.
    rewrite bind_unfold in H. cbn [note set_world ret] in H.
    injection H as <- <-. exists exif, mt. cbn [fst snd calls stdout delivered] in *.
    rewrite A2, B2, C2, D2, A1, B1, C1, D1, <- app_assoc, Et. repeat split.
Qed.

(** A sorter and the increment that follows it. *)
Lemma sort_and_count_Ok c dir f time (g : ImageOrganizer -> ImageOrganizer) s s' :
  (sorter env c dir f time ;; set_self g) s = (Ok tt, s') ->
  exists dst,
    fst s' = g (fst s)
    /\ stdout (snd s') = stdout (snd s)
    /\ delivered (snd s') = delivered (snd s)
    /\ calls (snd s') = calls (snd s) ++ [Placed c f dst].
Proof.
  intros H. apply bind_Ok_inv in H as ([] & s1 & H1 & H).
  pose proof (sorter_logs env c dir f time s) as K. rewrite H1 in K.
  destruct K as (A & B & C & dst & D). cbn [fst snd] in *.
  injection H as <-. exists dst. cbn [fst snd]. rewrite A. repeat split; assumption.
Qed.

(** The loop body on a regular file, progress wanted, when it returns:
    the report, then the calls in order, and the counter of the category
    the file was handed to. *)
Lemma parse_file_sequence gp cb total f i s s' :
  wants_progress gp cb = true -> is_file (disk (snd s)) f = true ->
  parse_file env gp cb total f i s = (Ok tt, s') ->
  exists media_type exif mtime dst,
    reported cb i total (snd s) (snd s')
    /\ calls (snd s') = calls (snd s) ++ file_calls f media_type exif mtime dst
    /\ (forall c, totals (fst s') c
                  = totals (fst s) c
                    + (if bool_decide (dispatch media_type = Some c) then 1 else 0))
    /\ (fast_parse (fst s) = true -> media_type = _check_filetype_mime env f).
Proof.
  intros Hw Hf H. unfold parse_file in H. rewrite bind_get_disk, Hf, Hw in H.
  apply bind_Ok_inv in H as ([] & s1 & Hrep & H).
  assert (fst s1 = fst s /\ calls (snd s1) = calls (snd s)
          /\ reported cb i total (snd s) (snd s1)) as (A1 & B1 & R1).
  { destruct s as [o w]. destruct cb; cbn in Hrep; injection Hrep as <-;
      repeat split. }
  rewrite bind_get_self in H.
  apply bind_Ok_inv in H as (mt & s2 & Hcls & H).
  assert (only_disk s1 s2) as (A2 & B2 & C2 & D2).
  { destruct (fast_parse (fst s1)); cbn [negb] in Hcls.
    - injection Hcls as <- <-. reflexivity.
    - pose proof (keeps_only_disk_check_filetype_media_info env f s1) as K.
      rewrite Hcls in K. exact K. }
  assert (fast_parse (fst s) = true -> mt = _check_filetype_mime env f) as Hfast.
  { intros E. rewrite A1, E in Hcls. injection Hcls as <- _. reflexivity. }
  rewrite bind_unfold in H. cbn [note set_world] in H.
  apply bind_Ok_inv in H as (t & s3 & Hdate & H).
  apply file_creation_date_Ok in Hdate
    as (exif & mtime & A3 & B3 & C3 & D3 & _).
  cbn [fst snd calls stdout delivered] in *.
  assert (reported cb i total (snd s) (snd s3)) as R3.
  { unfold reported in *. destruct cb; rewrite B3, C3, C2, D2; exact R1. }
  assert (forall (c : category) dir (g : ImageOrganizer -> ImageOrganizer),
            dispatch mt = Some c ->
            (forall o c', totals (g o) c'
                          = totals o c' + (if bool_decide (Some c = Some c') then 1 else 0)) ->
            (sorter env c dir f t ;; set_self g) s3 = (Ok tt, s') ->
            exists dst,
              reported cb i total (snd s) (snd s')
              /\ calls (snd s') = calls (snd s) ++ file_calls f mt exif mtime dst
              /\ (forall c', totals (fst s') c'
                    = totals (fst s) c'
                      + (if bool_decide (dispatch mt = Some c') then 1 else 0))) as Hplace.
  { intros c dir g Hd Hg Hrun.
    apply sort_and_count_Ok in Hrun as (dst & A4 & B4 & C4 & D4).
    exists dst. split; [| split].
    - unfold reported in *. destruct cb; rewrite B4, C4; exact R3.
    - rewrite D4, D3, B2, B1. unfold file_calls. rewrite Hd.
      rewrite <- !app_assoc. reflexivity.
    - intros c'. rewrite A4, Hg, A3, A2, A1, Hd. reflexivity. }
  exists mt, exif, mtime.
  assert (forall (c : category) dir (g : ImageOrganizer -> ImageOrganizer),
            dispatch mt = Some c ->
            (forall o c', totals (g o) c'
                          = totals o c' + (if bool_decide (Some c = Some c') then 1 else 0)) ->
            (sorter env c dir f t ;; set_self g) s3 = (Ok tt, s') ->
            exists dst,
              reported cb i total (snd s) (snd s')
              /\ calls (snd s') = calls (snd s) ++ file_calls f mt exif mtime dst
              /\ (forall c', totals (fst s') c'
                    = totals (fst s) c'
                      + (if bool_decide (dispatch mt = Some c') then 1 else 0))
              /\ (fast_parse (fst s) = true -> mt = _check_filetype_mime env f)) as Hp.
  { intros c dir g Hd Hg Hrun.
    destruct (Hplace c dir g Hd Hg Hrun) as (dst & P1 & P2 & P3).
    exists dst. repeat split; assumption. }
  clear Hplace.
  destruct (truthy mt) eqn:Et.
  - destruct (bool_decide (mt = Some "Image"%string)) eqn:Ei.
    + eapply Hp; [unfold dispatch; rewrite Et, Ei; reflexivity | | exact H].
      clear; intros o []; case_bool_decide; try congruence; cbn; lia.
    + destruct (bool_decide (mt = Some "Video"%string)) eqn:Ev.
      * eapply Hp; [unfold dispatch; rewrite Et, Ei, Ev; reflexivity | | exact H].
        clear; intros o []; case_bool_decide; try congruence; cbn; lia.
      * injection H as <-. exists [].
        assert (dispatch mt = None) as Hd
          by (unfold dispatch; rewrite Et, Ei, Ev; reflexivity).
        split; [exact R3 |]. split; [| split; [| exact Hfast]].
        -- rewrite D3, B2, B1. unfold file_calls. rewrite Hd, app_nil_r,
             <- !app_assoc. reflexivity.
        -- intros c. rewrite A3, A2, A1, Hd.
           rewrite bool_decide_eq_false_2 by discriminate. lia.
  - eapply Hp; [unfold dispatch; rewrite Et; reflexivity | | exact H].
    clear; intros o []; case_bool_decide; try congruence; cbn; lia.
Qed.

End Sequence.

(** ** The files of a run, row by row *)

Lemma classified_app a b : classified (a ++ b) = classified a ++ classified b.
Proof. unfold classified. apply omap_app. Qed.

Lemma classified_file_calls f mt exif mtime dst :
  classified (file_calls f mt exif mtime dst) = [f].
Proof.
  unfold file_calls. destruct (truthy exif), (dispatch mt); reflexivity.
Qed.

Lemma classified_rows rows :
  classified (concat (map row_calls rows)) = map row_file rows.
Proof.
  induction rows as [| r rows IH]; [reflexivity |].
  cbn [map concat]. rewrite classified_app, IH. unfold row_calls.
  rewrite classified_file_calls. reflexivity.
Qed.

Lemma routed_cons c r rows :
  routed c (r :: rows)
  = (if bool_decide (dispatch (row_media_type r) = Some c) then 1 else 0)
    + routed c rows.
Proof.
  unfold routed. rewrite filter_cons. case_decide.
  - rewrite bool_decide_eq_true_2 by assumption. reflexivity.
  - rewrite bool_decide_eq_false_2 by assumption. reflexivity.
Qed.

Lemma positions_cons i f l : positions i (f :: l) = (i, f) :: positions (S i) l.
Proof. reflexivity. Qed.

Lemma elem_of_positions i l k f :
  (k, f) ∈ positions i l -> i <= k < i + length l /\ l !! (k - i) = Some f.
Proof.
  revert i. induction l as [| g l IH]; intros i H.
  - inversion H.
  - rewrite positions_cons in H. apply elem_of_cons in H as [E | H].
    + injection E as -> ->. cbn [length]. split; [lia |].
      replace (i - i) with 0 by lia. reflexivity.
    + apply IH in H as [H1 H2]. cbn [length]. split; [lia |].
      replace (k - i) with (S (k - S i)) by lia. exact H2.
Qed.

Section Rows.
Context (env : Env).

(** The loop, progress wanted, when it returns: one row for each file it
    processed, in the order of the enumeration. *)
Lemma parse_loop_rows gp cb total l : forall i s s',
  wants_progress gp cb = true ->
  parse_loop env gp cb total l i s = (Ok tt, s') ->
  exists rows,
    sublist (map row_position rows) (positions i l)
    /\ calls (snd s') = calls (snd s) ++ concat (map row_calls rows)
    /\ reported_rows cb total rows (snd s) (snd s')
    /\ (forall c, totals (fst s') c = totals (fst s) c + routed c rows)
    /\ (fast_parse (fst s) = true ->
        Forall (fun r => row_media_type r
                         = _check_filetype_mime env (row_file r)) rows).
Proof.
  induction l as [| f l IH]; intros i s s' Hw Hrun; cbn [parse_loop] in Hrun.
  - injection Hrun as <-. exists []. cbn [map concat]. rewrite app_nil_r.
    split; [constructor |]. split; [reflexivity |].
    split; [destruct cb; cbn [reported_rows map]; rewrite app_nil_r; split; reflexivity |].
    split; [intros c; unfold routed; cbn; lia | intros _; constructor].
  - apply bind_Ok_inv in Hrun as ([] & s1 & Hfile & Hrun).
    replace (i + 1) with (S i) in Hrun by lia.
    destruct (IH _ _ _ Hw Hrun) as (rows & R1 & R2 & R3 & R4 & R5).
    rewrite positions_cons.
    destruct (is_file (disk (snd s)) f) eqn:Hf.
    + pose proof (parse_file_spec env gp cb total f i s Hw Hf) as Hpost.
      rewrite Hfile in Hpost. destruct Hpost as [(Hcfg & _) _].
      cbn [fst snd] in Hcfg.
      destruct (parse_file_sequence env gp cb total f i s s1 Hw Hf Hfile)
        as (mt & exif & mtime & dst & P1 & P2 & P3 & P4).
      exists (Row i f mt exif mtime dst :: rows). cbn [map concat].
      split; [apply sublist_skip, R1 |].
      split; [rewrite R2, P2, <- app_assoc; reflexivity |].
      split.
      { unfold reported_rows, reported in *. destruct cb; cbn [map];
          destruct P1 as [P1 P1'], R3 as [R3 R3'].
        - split; [congruence |]. rewrite R3', P1', <- app_assoc. reflexivity.
        - split; [| congruence]. rewrite R3, P1, <- app_assoc. reflexivity. }
      split.
      { intros c. rewrite R4, P3, routed_cons. cbn [row_media_type]. lia. }
      intros Hfast. constructor; [exact (P4 Hfast) |].
      apply R5. apply (f_equal fast_parse) in Hcfg. cbn in Hcfg. congruence.
    + rewrite parse_file_skip in Hfile by auto. injection Hfile as <-.
      exists rows. split; [apply sublist_cons, R1 |].
      repeat split; assumption.
Qed.

End Rows.

(** ** Whole runs *)

Lemma run_pair {A} (r : result A * state) a : fst r = Ok a -> r = (Ok a, snd r).
Proof. destruct r as [x s']. cbn. intros ->. reflexivity. Qed.

Lemma dispatch_mime env f :
  dispatch (_check_filetype_mime env f) = Some (mime_category env f).
Proof.
  unfold mime_category, _check_filetype_mime.
  destruct (contains "image" _); [reflexivity |].
  destruct (contains "video" _); reflexivity.
Qed.

(** A sublist of the numbered enumeration that holds the files
    selected by [P] is the selection of the numbered entries. *)
Lemma sublist_zip_filter {A} (P : A -> Prop) `{!forall a, Decision (P a)}
    (l : list A) : forall (ns : list nat) (idx : list (nat * A)),
  NoDup l -> sublist idx (zip ns l) -> idx.*2 = filter P l ->
  idx = filter (fun p => P (snd p)) (zip ns l).
Proof.
  induction l as [| f l IH]; intros ns idx Hnd Hsub Heq.
  - destruct ns; cbn in Hsub; apply sublist_nil_r in Hsub; subst; reflexivity.
  - destruct ns as [| n ns].
    + cbn in Hsub. apply sublist_nil_r in Hsub. subst idx.
      cbn in *. symmetry in Heq. exact (f_equal (fun _ => []) Heq).
    + apply NoDup_cons in Hnd as [Hf Hnd]. cbn [zip zip_with] in *.
      assert (forall j, sublist j (zip ns l) -> f ∉ j.*2) as Hout.
      { intros j Hj Hin. apply Hf.
        apply (fmap_sublist snd) in Hj.
        eapply elem_of_sublist in Hin; [| exact Hj].
        apply list_elem_of_fmap in Hin as ([a b] & -> & Hin).
        apply elem_of_zip_r in Hin. exact Hin. }
      rewrite (filter_cons (fun p => P (snd p))). rewrite filter_cons in Heq.
      cbn [snd] in *.
      apply sublist_cons_r in Hsub as [Hsub | (idx' & -> & Hsub)].
      * destruct (decide (P f)) as [HP | HP].
        -- exfalso. apply (Hout idx Hsub). rewrite Heq. left.
        -- apply IH; assumption.
      * cbn [fmap list_fmap snd] in Heq.
        change (list_fmap _ _ snd idx') with (idx'.*2) in Heq.
        destruct (decide (P f)) as [HP | HP].
        -- injection Heq as Heq. f_equal. apply IH; assumption.
        -- exfalso. apply Hf.
           assert (f ∈ filter P l) as Hin by (rewrite <- Heq; left).
           apply list_elem_of_filter in Hin as [_ Hin]. exact Hin.
Qed.

Lemma Forall_positions i l idx :
  sublist idx (positions i l) ->
  Forall (fun p => i <= fst p < i + length l /\ l !! (fst p - i) = Some (snd p)) idx.
Proof.
  intros Hsub. apply Forall_forall. intros [k f] Hin.
  eapply elem_of_sublist in Hin; [| exact Hsub].
  apply elem_of_positions in Hin. exact Hin.
Qed.

Lemma routed_by {A} (g : A -> category) (l : list A) :
  length (filter (fun a => g a = Image) l)
  + length (filter (fun a => g a = Video) l)
  + length (filter (fun a => g a = Unknown) l) = length l.
Proof.
  induction l as [| a l IH]; [reflexivity |].
  rewrite !filter_cons. cbn [length]. destruct (g a);
    repeat (case_decide; try congruence); cbn [length]; lia.
Qed.

Lemma last_file_calls f mt exif mtime dst c :
  dispatch mt = Some c ->
  last (file_calls f mt exif mtime dst) = Some (Placed c f dst).
Proof.
  intros H. unfold file_calls. rewrite H. destruct (truthy exif); reflexivity.
Qed.

Section Runs.
Context (env : Env).

(** [parse_dir], progress wanted, when it returns: the loop returned,
    and the callback got the summary. *)
Lemma parse_dir_Ok_inv dir_path gp rec cb s s' :
  wants_progress gp cb = true ->
  parse_dir env dir_path gp rec cb s = (Ok tt, s') ->
  let files := glob_dir (disk (snd s)) dir_path rec in
  exists s1,
    parse_loop env gp cb (length files) files 1 s = (Ok tt, s1)
    /\ cb = CbFunction
    /\ fst s' = fst s1
    /\ calls (snd s') = calls (snd s1)
    /\ stdout (snd s') = stdout (snd s1)
    /\ disk (snd s') = disk (snd s1)
    /\ delivered (snd s')
       = delivered (snd s1)
         ++ [Totals (str_of_nat (total_images (fst s1)))
                    (str_of_nat (total_videos (fst s1)))
                    (str_of_nat (total_unknown (fst s1)))].
Proof.
  intros Hw Hrun files. unfold parse_dir in Hrun.
  rewrite bind_get_disk in Hrun. fold files in Hrun.
  apply bind_Ok_inv in Hrun as ([] & s1 & Hloop & Hrun).
  rewrite Hw, bind_get_self in Hrun. exists s1. split; [exact Hloop |].
  destruct cb; [discriminate |]. destruct s1 as [o1 w1].
  cbn in Hrun. injection Hrun as <-. repeat split.
Qed.

(** X1.  The loop body of [parse_dir] on a regular file, progress wanted,
    when it returns.  It reported the progress once (to the callback when
    there is one, on standard output otherwise); then it classified the
    file, read the Exif date, read the modification time exactly when
    the Exif date was empty, and handed the file to the sorter its media
    type selects: ["Image"] to [_img_sorter], ["Video"] to
    [_video_sorter], [None] and the empty string to [_unknown_sorter],
    any other type to no sorter at all.  The counter of the selected
    category went up by one and no other counter moved.  With
    [fast_parse] the media type is the answer of [_check_filetype_mime]. *)
Theorem parse_file_protocol (gp : bool) (cb : callback) (total : nat)
    (f : path) (i : nat) (s s' : state) :
  wants_progress gp cb = true -> is_file (disk (snd s)) f = true ->
  parse_file env gp cb total f i s = (Ok tt, s') ->
  exists media_type exif mtime dst,
    reported cb i total (snd s) (snd s')
    /\ calls (snd s')
       = calls (snd s)
         ++ [Classified f media_type; GotExif f exif]
         ++ (if truthy exif then [] else [GotModificationTime f mtime])
         ++ match dispatch media_type with
            | Some c => [Placed c f dst]
            | None => []
            end
    /\ (forall c, totals (fst s') c
                  = totals (fst s) c
                    + (if bool_decide (dispatch media_type = Some c) then 1 else 0))
    /\ (fast_parse (fst s) = true -> media_type = _check_filetype_mime env f).
Proof.
  intros Hw Hf Hrun.
  exact (parse_file_sequence env gp cb total f i s s' Hw Hf Hrun).
Qed.

(** X2.  A completed [parse_dir] with a callback delivers one progress
    record for each file it classified, in the order of the enumeration,
    then the summary of the counters, and prints nothing.  The number in a
    record is the position of the file in the sorted enumeration, counted
    from 1 over all enumerated entries (those that are no regular files
    too): it is at least 1 and at most the total, so the quotient behind
    ["percent"] never divides by zero.  In copy mode the records are
    those of exactly the enumerated regular files. *)
Theorem parse_dir_progress_reports (dir_path : path)
    (get_progress recursive_search : bool) (s s' : state) :
  parse_dir env dir_path get_progress recursive_search CbFunction s = (Ok tt, s') ->
  let d := disk (snd s) in
  let files := glob_dir d dir_path recursive_search in
  let total := length files in
  exists idx : list (nat * path),
    sublist idx (positions 1 files)
    /\ Forall (fun p => 1 <= fst p <= total
                        /\ files !! (fst p - 1) = Some (snd p)) idx
    /\ classified (calls (snd s')) = classified (calls (snd s)) ++ idx.*2
    /\ delivered (snd s')
       = delivered (snd s)
         ++ map (fun p => Progress (processing (fst p) total) (fst p, total)) idx
         ++ [Totals (str_of_nat (total_images (fst s')))
                    (str_of_nat (total_videos (fst s')))
                    (str_of_nat (total_unknown (fst s')))]
    /\ stdout (snd s') = stdout (snd s)
    /\ (move_file (fst s) = false ->
        idx = filter (fun p => is_file d (snd p) = true) (positions 1 files)).
Proof.
  intros Hrun d files total.
  assert (wants_progress get_progress CbFunction = true) as Hw
    by (destruct get_progress; reflexivity).
  destruct (parse_dir_Ok_inv _ _ _ _ _ _ Hw Hrun)
    as (s1 & Hloop & _ & A & B & C & _ & D).
  fold d in Hloop. fold files in Hloop. fold total in Hloop.
  destruct (parse_loop_rows env _ _ _ _ _ _ _ Hw Hloop)
    as (rows & R1 & R2 & [R3 R3'] & _).
  destruct (parse_loop_classified env _ _ _ _ _ _ _ Hw
              (NoDup_glob_dir _ _ _) Hloop) as (cl & H1 & _ & _ & H4).
  assert (cl = map row_file rows) as ->.
  { rewrite R2, classified_app, classified_rows in H1.
    apply app_inv_head in H1. congruence. }
  exists (map row_position rows).
  assert ((map row_position rows).*2 = map row_file rows) as Esnd.
  { unfold fmap. rewrite map_map. reflexivity. }
  split; [exact R1 |]. split.
  { eapply Forall_impl; [apply Forall_positions, R1 |].
    intros [k f] [H2 H3]. cbn [fst snd] in *. fold total in H2.
    split; [lia | exact H3]. }
  split; [rewrite B, Esnd; exact H1 |].
  split.
  { rewrite D, R3, A, map_map, <- app_assoc. reflexivity. }
  split; [congruence |].
  intros Hmv. unfold positions in *.
  refine (sublist_zip_filter (fun f => is_file d f = true) files _ _
            (NoDup_glob_dir _ _ _) R1 _).
  rewrite Esnd. apply H4; [exact Hmv |].
  intros q Hq. eapply glob_dir_exists, Hq.
Qed.

(** X3.  With [fast_parse], a completed run (progress wanted) drops no
    file: for every file it processes the media type is the answer of
    [_check_filetype_mime] and the last call places the file in the
    category of that answer (image, video, and unknown for anything
    else).  Each counter grows by the number of processed files of its
    category, and the three counters together by the number of processed
    files.  The processed files are enumerated files, among them every
    enumerated entry that was a regular file at the start; in copy mode
    they are exactly those. *)
Theorem fast_parse_places_every_file (dir_path : path)
    (get_progress recursive_search : bool) (cb : callback) (s s' : state) :
  wants_progress get_progress cb = true ->
  fast_parse (fst s) = true ->
  parse_dir env dir_path get_progress recursive_search cb s = (Ok tt, s') ->
  let d := disk (snd s) in
  let files := glob_dir d dir_path recursive_search in
  exists rows : list row,
    calls (snd s') = calls (snd s) ++ concat (map row_calls rows)
    /\ Forall (fun r =>
                 row_media_type r = _check_filetype_mime env (row_file r)
                 /\ last (row_calls r)
                    = Some (Placed (mime_category env (row_file r))
                                   (row_file r) (row_dst r))) rows
    /\ sublist (map row_file rows) files
    /\ sublist (filter (fun f => is_file d f = true) files) (map row_file rows)
    /\ (move_file (fst s) = false ->
        map row_file rows = filter (fun f => is_file d f = true) files)
    /\ (forall c,
          totals (fst s') c
          = totals (fst s) c
            + length (filter (fun r => mime_category env (row_file r) = c) rows))
    /\ total_images (fst s') + total_videos (fst s') + total_unknown (fst s')
       = total_images (fst s) + total_videos (fst s) + total_unknown (fst s)
         + length rows.
Proof.
  intros Hw Hfast Hrun d files.
  destruct (parse_dir_Ok_inv _ _ _ _ _ _ Hw Hrun)
    as (s1 & Hloop & _ & A & B & _).
  fold d in Hloop. fold files in Hloop.
  destruct (parse_loop_rows env _ _ _ _ _ _ _ Hw Hloop)
    as (rows & R1 & R2 & _ & R4 & R5).
  specialize (R5 Hfast).
  destruct (parse_loop_classified env _ _ _ _ _ _ _ Hw
              (NoDup_glob_dir _ _ _) Hloop) as (cl & H1 & H2 & H3 & H4).
  assert (cl = map row_file rows) as ->.
  { rewrite R2, classified_app, classified_rows in H1.
    apply app_inv_head in H1. congruence. }
  assert (forall c, routed c rows
                    = length (filter (fun r => mime_category env (row_file r) = c)
                                     rows)) as Hrouted.
  { intros c. clear -R5. induction R5 as [| r rows Hr _ IH]; [reflexivity |].
    rewrite routed_cons, filter_cons, IH, Hr, dispatch_mime.
    case_bool_decide as E; case_decide as E'; cbn [length]; try lia;
      exfalso; [apply E'; congruence | apply E; congruence]. }
  assert (forall c, totals (fst s') c
                    = totals (fst s) c
                      + length (filter (fun r => mime_category env (row_file r) = c)
                                       rows)) as Htot.
  { intros c. rewrite A, R4, Hrouted. reflexivity. }
  exists rows. split; [rewrite B; exact R2 |].
  split.
  { eapply Forall_impl; [exact R5 |]. intros r Hr. split; [exact Hr |].
    apply last_file_calls. rewrite Hr. apply dispatch_mime. }
  split; [exact H2 |]. split; [exact H3 |].
  split.
  { intros Hmv. apply H4; [exact Hmv |].
    intros q Hq. eapply glob_dir_exists, Hq. }
  split; [exact Htot |].
  pose proof (Htot Image) as TI. pose proof (Htot Video) as TV.
  pose proof (Htot Unknown) as TU. cbn [totals] in TI, TV, TU.
  pose proof (routed_by (fun r => mime_category env (row_file r)) rows).
  lia.
Qed.

End Runs.

(** The statement applied: the first picture of the sample album. *)
Lemma parse_file_protocol_witness :
  let s0 := snd (__init__ Sample.env ["out"] "images" "videos" "unknown"
                   false false (Sample.world_of album)) in
  let f := ["src"; "a.jpg"] in
  let r := parse_file Sample.env true CbFunction 7 f 1 s0 in
  wants_progress true CbFunction = true
  /\ is_file (disk (snd s0)) f = true
  /\ r = (Ok tt, snd r)
  /\ exists media_type exif mtime dst,
       reported CbFunction 1 7 (snd s0) (snd (snd r))
       /\ calls (snd (snd r))
          = calls (snd s0)
            ++ [Classified f media_type; GotExif f exif]
            ++ (if truthy exif then [] else [GotModificationTime f mtime])
            ++ match dispatch media_type with
               | Some c => [Placed c f dst]
               | None => []
               end
       /\ (forall c, totals (fst (snd r)) c
                     = totals (fst s0) c
                       + (if bool_decide (dispatch media_type = Some c)
                          then 1 else 0))
       /\ (fast_parse (fst s0) = true
           -> media_type = _check_filetype_mime Sample.env f).
Proof.
  intros s0 f r.
  assert (is_file (disk (snd s0)) f = true) as Hf by (vm_compute; reflexivity).
  assert (r = (Ok tt, snd r)) as Hrun by (apply run_pair; vm_compute; reflexivity).
  split; [reflexivity |]. split; [exact Hf |]. split; [exact Hrun |].
  exact (parse_file_protocol Sample.env true CbFunction 7 f 1 s0 (snd r)
           eq_refl Hf Hrun).
Defined.

(** The statement applied: the sample album, top level only, copy mode. *)
Lemma parse_dir_progress_reports_witness :
  let s0 := snd (__init__ Sample.env ["out"] "images" "videos" "unknown"
                   false false (Sample.world_of album)) in
  let r := parse_dir Sample.env ["src"] false false CbFunction s0 in
  let files := glob_dir (disk (snd s0)) ["src"] false in
  r = (Ok tt, snd r)
  /\ exists idx : list (nat * path),
       idx = filter (fun p => is_file (disk (snd s0)) (snd p) = true)
                    (positions 1 files)
       /\ delivered (snd (snd r))
          = delivered (snd s0)
            ++ map (fun p => Progress (processing (fst p) (length files))
                                      (fst p, length files)) idx
            ++ [Totals (str_of_nat (total_images (fst (snd r))))
                       (str_of_nat (total_videos (fst (snd r))))
                       (str_of_nat (total_unknown (fst (snd r))))].
Proof.
  intros s0 r files.
  assert (r = (Ok tt, snd r)) as Hrun by (apply run_pair; vm_compute; reflexivity).
  split; [exact Hrun |].
  destruct (parse_dir_progress_reports Sample.env ["src"] false false s0 (snd r)
              Hrun) as (idx & _ & _ & _ & H4 & _ & H6).
  assert (move_file (fst s0) = false) as Hmv by (vm_compute; reflexivity).
  exists idx. split; [exact (H6 Hmv) | exact H4].
Defined.

(** The statement applied: the sample album with [fast_parse], copy mode. *)
Lemma fast_parse_places_every_file_witness :
  let s0 := snd (__init__ Sample.env ["out"] "images" "videos" "unknown"
                   false true (Sample.world_of album)) in
  let r := parse_dir Sample.env ["src"] true true CbFunction s0 in
  let files := glob_dir (disk (snd s0)) ["src"] true in
  wants_progress true CbFunction = true
  /\ fast_parse (fst s0) = true
  /\ r = (Ok tt, snd r)
  /\ total_images (fst (snd r)) + total_videos (fst (snd r))
     + total_unknown (fst (snd r))
     = length (filter (fun f => is_file (disk (snd s0)) f = true) files).
Proof.
  intros s0 r files.
  assert (r = (Ok tt, snd r)) as Hrun by (apply run_pair; vm_compute; reflexivity).
  assert (fast_parse (fst s0) = true) as Hfast by (vm_compute; reflexivity).
  assert (move_file (fst s0) = false) as Hmv by (vm_compute; reflexivity).
  split; [reflexivity |]. split; [exact Hfast |]. split; [exact Hrun |].
  destruct (fast_parse_places_every_file Sample.env ["src"] true true CbFunction
              s0 (snd r) eq_refl Hfast Hrun)
    as (rows & _ & _ & _ & _ & H5 & _ & H7).
  assert (total_images (fst s0) + total_videos (fst s0) + total_unknown (fst s0)
          = 0) as Hz by (vm_compute; reflexivity).
  unfold files. rewrite <- (H5 Hmv), length_map, H7, Hz. reflexivity.
Defined.

(** ** Sorters that return *)

Lemma mkdir_exist_ok_inv t d p d' :
  mkdir_exist_ok t d p = Ok d' ->
  is_dir d' p = true
  /\ (d' = d \/ (d !! p = None /\ d' = <[p := Node KDir t]> d)).
Proof.
  unfold mkdir_exist_ok. intros H.
  destruct p as [| x p'].
  - rewrite orb_true_r in H. cbn [is_dir] in H. injection H as <-.
    split; [reflexivity | left; reflexivity].
  - rewrite orb_false_r in H. unfold exists_ in H at 1.
    destruct (d !! (x :: p')) as [n |] eqn:L.
    + destruct (is_dir d (x :: p')) eqn:Ed; [| discriminate].
      injection H as <-. split; [exact Ed | left; reflexivity].
    + repeat case_match; try discriminate. injection H as <-.
      split; [| right; split; reflexivity].
      unfold is_dir. rewrite lookup_insert_eq. reflexivity.
Qed.

Lemma mkdir_exist_ok_lookup t d p d' q x :
  mkdir_exist_ok t d p = Ok d' -> d !! q = Some x -> d' !! q = Some x.
Proof.
  intros H Hq. apply mkdir_exist_ok_inv in H as [_ [-> | [Hp ->]]]; [exact Hq |].
  rewrite lookup_insert_ne; [exact Hq | congruence].
Qed.

Lemma mkdir_Ok_inv env p s u s' :
  mkdir env p s = (Ok u, s') ->
  exists d', mkdir_exist_ok (clock env (ticks (snd s))) (disk (snd s)) p = Ok d'
             /\ s' = (fst s, set_disk d' (snd s)).
Proof.
  rewrite mkdir_run. destruct (mkdir_exist_ok _ _ p) as [d' | e]; [| discriminate].
  intros H. injection H as _ <-. exists d'. split; reflexivity.
Qed.

Lemma on_disk_Ok_inv (op : fs -> result fs) s u s' :
  on_disk op s = (Ok u, s') ->
  exists d', op (disk (snd s)) = Ok d' /\ s' = (fst s, set_disk d' (snd s)).
Proof.
  rewrite on_disk_run. destruct (op _) as [d' | e]; [| discriminate].
  intros H. injection H as _ <-. exists d'. split; reflexivity.
Qed.

Lemma lift_Ok_inv {A} (r : result A) s a s' :
  lift r s = (Ok a, s') -> r = Ok a /\ s' = s.
Proof. unfold lift. intros H. injection H as -> ->. split; reflexivity. Qed.

Lemma dir_of_Ok_inv o s p s' :
  dir_of o s = (Ok p, s') -> o = Some p /\ s' = s.
Proof.
  destruct o; cbn; intros H; [| discriminate].
  injection H as -> ->. split; reflexivity.
Qed.

Lemma check_for_dupes_state file_dir y m n s :
  snd (_check_for_dupes file_dir y m n s) = s.
Proof.
  unfold _check_for_dupes. rewrite bind_get_disk.
  destruct (fold_left _ _ _) as [g |].
  - rewrite bind_unfold, bind_unfold. unfold lift. destruct (int g); [| reflexivity].
    cbn [ret]. rewrite bind_unfold. destruct (with_suffix_empty _); reflexivity.
  - rewrite bind_ret, bind_unfold. unfold lift.
    destruct (with_suffix_empty _); reflexivity.
Qed.

Section SorterRuns.
Context (env : Env).

(** A sorter that returns: what it read off the timestamp, the two
    directories it made, and the transfer it ended with. *)
Lemma sorter_Ok_inv c dir file time s s' :
  sorter env c dir file time s = (Ok tt, s') ->
  exists root date yyyy mm m mon d1 d2 dst d3,
    let t := clock env (ticks (snd s)) in
    let month_dir := joinpath (joinpath root yyyy) (lower mon) in
    let date_dir_file :=
      joinpath month_dir (str_lower env (time ++ suffix file)%string) in
    index (split " " time) 0 = Ok date
    /\ index (split "-" date) 2 = Ok yyyy
    /\ index (split "-" date) 0 = Ok mm
    /\ int mm = Ok m /\ month_name m = Ok mon
    /\ dir (fst s) = Some root
    /\ mkdir_exist_ok t (disk (snd s)) (joinpath root yyyy) = Ok d1
    /\ mkdir_exist_ok t d1 month_dir = Ok d2
    /\ (if exists_ d2 date_dir_file
        then exists new,
               fst (_check_for_dupes root yyyy (lower mon)
                      (str_lower env (time ++ suffix file)%string)
                      (fst s, set_disk d2 (snd s))) = Ok new
               /\ dst = joinpath (parent date_dir_file) new
        else dst = date_dir_file)
    /\ transfer (move_file (fst s)) d2 file dst = Ok d3
    /\ s' = (fst s, {| disk := d3; stdout := stdout (snd s);
                       delivered := delivered (snd s);
                       calls := calls (snd s) ++ [Placed c file dst];
                       ticks := ticks (snd s) |}).
Proof.
  unfold sorter. rewrite bind_get_self. intros H.
  apply bind_Ok_inv in H as (date & s1 & H1 & H). apply lift_Ok_inv in H1 as [H1 ->].
  apply bind_Ok_inv in H as (yyyy & s1 & H2 & H). apply lift_Ok_inv in H2 as [H2 ->].
  apply bind_Ok_inv in H as (root & s1 & H3 & H). apply dir_of_Ok_inv in H3 as [H3 ->].
  apply bind_Ok_inv in H as (u1 & s1 & H4 & H).
  apply mkdir_Ok_inv in H4 as (d1 & H4 & ->).
  apply bind_Ok_inv in H as (date' & s1 & H5 & H). apply lift_Ok_inv in H5 as [H5 ->].
  assert (date' = date) as -> by congruence. clear H5.
  apply bind_Ok_inv in H as (mm & s1 & H6 & H). apply lift_Ok_inv in H6 as [H6 ->].
  apply bind_Ok_inv in H as (m & s1 & H7 & H). apply lift_Ok_inv in H7 as [H7 ->].
  apply bind_Ok_inv in H as (mon & s1 & H8 & H). apply lift_Ok_inv in H8 as [H8 ->].
  apply bind_Ok_inv in H as (u2 & s1 & H9 & H).
  apply mkdir_Ok_inv in H9 as (d2 & H9 & ->).
  cbn [fst snd set_disk disk ticks] in H9.
  rewrite bind_get_disk in H. cbn [fst snd set_disk disk] in H.
  destruct s as [o w]. cbn [fst snd] in *.
  set (month_dir := joinpath (joinpath root yyyy) (lower mon)) in *.
  set (file_name := str_lower env (time ++ suffix file)%string) in *.
  set (date_dir_file := joinpath month_dir file_name) in *.
  set (w2 := set_disk d2 (set_disk d1 w)) in *.
  assert (w2 = set_disk d2 w) as Ew2 by reflexivity.
  assert (forall dst,
            (on_disk (fun d => transfer (move_file o) d file dst) ;;
             note (Placed c file dst)) (o, w2) = (Ok tt, s') ->
            exists d3, transfer (move_file o) d2 file dst = Ok d3
                       /\ s' = (o, {| disk := d3; stdout := stdout w;
                                      delivered := delivered w;
                                      calls := calls w ++ [Placed c file dst];
                                      ticks := ticks w |})) as Hlast.
  { intros dst Hrun. apply bind_Ok_inv in Hrun as (u3 & s3 & Hop & Hnote).
    apply on_disk_Ok_inv in Hop as (d3 & Hop & ->).
    cbn in Hnote. injection Hnote as <-. exists d3. split; [exact Hop | reflexivity]. }
  exists root, date, yyyy, mm, m, mon, d1, d2.
  destruct (exists_ d2 date_dir_file) eqn:Ex; cbn [negb] in H.
  - assert (exists new,
              fst (_check_for_dupes root yyyy (lower mon) file_name (o, w2)) = Ok new
              /\ (on_disk (fun d => transfer (move_file o) d file
                                      (joinpath (parent date_dir_file) new)) ;;
                  note (Placed c file (joinpath (parent date_dir_file) new)))
                   (o, w2) = (Ok tt, s')) as (new & Hnew & Hrun).
    { destruct (move_file o); cbn [negb] in H;
        apply bind_Ok_inv in H as (new & s3 & Hd & H);
        pose proof (check_for_dupes_state root yyyy (lower mon) file_name (o, w2)) as Hs;
        rewrite Hd in Hs; cbn [snd] in Hs; subst s3;
        exists new; (split; [rewrite Hd; reflexivity | exact H]). }
    destruct (Hlast _ Hrun) as (d3 & Hop & ->).
    exists (joinpath (parent date_dir_file) new), d3. cbv zeta.
    fold month_dir. fold file_name. fold date_dir_file. rewrite Ex, <- Ew2.
    repeat split; try assumption. exists new. split; [exact Hnew | reflexivity].
  - assert ((on_disk (fun d => transfer (move_file o) d file date_dir_file) ;;
             note (Placed c file date_dir_file)) (o, w2) = (Ok tt, s')) as Hrun.
    { destruct (move_file o); exact H. }
    destruct (Hlast _ Hrun) as (d3 & Hop & ->).
    exists date_dir_file, d3. cbv zeta.
    fold month_dir. fold file_name. fold date_dir_file. rewrite Ex.
    repeat split; assumption.
Qed.

End SorterRuns.

Lemma copy2_Ok_inv d src dst d' bytes mt :
  d !! src = Some (Node (KFile bytes) mt) -> copy2 d src dst = Ok d' ->
  landing d src dst <> src
  /\ d' = <[landing d src dst := Node (KFile bytes) mt]> d.
Proof.
  intros Hsrc. unfold copy2. fold (landing d src dst).
  set (real := landing d src dst). unfold exists_. rewrite Hsrc, andb_true_r.
  case_bool_decide as E; [discriminate |]. intros H.
  split; [congruence |].
  destruct (d !! real) as [[[x | |] t'] |]; try discriminate;
    destruct (open_for_write d real); try discriminate;
    injection H as <-; reflexivity.
Qed.

Lemma move_Ok_inv d src dst d' bytes mt :
  d !! src = Some (Node (KFile bytes) mt) -> move d src dst = Ok d' ->
  (landing d src dst = src /\ d' = d)
  \/ (landing d src dst <> src
      /\ d' = <[landing d src dst := Node (KFile bytes) mt]> (delete src d)).
Proof.
  intros Hsrc. unfold move. fold (landing d src dst).
  set (real := landing d src dst). rewrite Hsrc. intros H.
  destruct (_ && _ && _); [discriminate |].
  case_bool_decide as E.
  - injection H as <-. left. split; [symmetry; exact E | reflexivity].
  - right. split; [congruence |].
    repeat case_match; try discriminate. injection H as <-. reflexivity.
Qed.

Section Content.
Context (env : Env).

(** X4.  A sorter that returns has put the bytes and the modification
    time of the file at its destination ([copy2] and [move] both keep
    them): the entry is at the destination the sorter computed, or inside
    it when that is a directory.  In copy mode the source is still there,
    unchanged; in move mode the source is gone, unless the destination
    is the source itself.  The object is as it was. *)
Theorem sorter_preserves_content (c : category)
    (dir : ImageOrganizer -> option path) (file : path) (time : string)
    (s s' : state) (bytes : string) (mt : datetime) :
  disk (snd s) !! file = Some (Node (KFile bytes) mt) ->
  sorter env c dir file time s = (Ok tt, s') ->
  exists dst real,
    calls (snd s') = calls (snd s) ++ [Placed c file dst]
    /\ (real = dst \/ real = dst ++ [name file])
    /\ disk (snd s') !! real = Some (Node (KFile bytes) mt)
    /\ (move_file (fst s) = false ->
        disk (snd s') !! file = Some (Node (KFile bytes) mt))
    /\ (move_file (fst s) = true -> real <> file ->
        disk (snd s') !! file = None)
    /\ fst s' = fst s.
Proof.
  intros Hfile Hrun.
  destruct (sorter_Ok_inv env c dir file time s s' Hrun)
    as (root & date & yyyy & mm & m & mon & d1 & d2 & dst & d3 & H).
  cbv zeta in H.
  destruct H as (_ & _ & _ & _ & _ & _ & Hmk1 & Hmk2 & _ & Hop & ->).
  assert (d2 !! file = Some (Node (KFile bytes) mt)) as Hfile2.
  { eapply mkdir_exist_ok_lookup; [exact Hmk2 |].
    eapply mkdir_exist_ok_lookup; [exact Hmk1 | exact Hfile]. }
  exists dst, (landing d2 file dst). cbn [fst snd calls disk].
  split; [reflexivity |].
  split; [unfold landing; destruct (is_dir d2 dst); auto |].
  unfold transfer in Hop. destruct (move_file (fst s)).
  - apply (move_Ok_inv _ _ _ _ _ _ Hfile2) in Hop as [[E ->] | [E ->]].
    + rewrite E. split; [exact Hfile2 |]. split; [discriminate |].
      split; [intros _ Hne; contradiction | reflexivity].
    + split; [apply lookup_insert_eq |]. split; [discriminate |].
      split; [| reflexivity]. intros _ _.
      rewrite lookup_insert_ne by exact E. apply lookup_delete_eq.
  - apply (copy2_Ok_inv _ _ _ _ _ _ Hfile2) in Hop as [E ->].
    split; [apply lookup_insert_eq |].
    split; [intros _; rewrite lookup_insert_ne by exact E; exact Hfile2 |].
    split; [discriminate | reflexivity].
Qed.

End Content.

(** The statement applied: the sample picture, moved. *)
Lemma sorter_preserves_content_witness :
  let s0 := snd (__init__ Sample.env ["out"] "images" "videos" "unknown"
                   true false (Sample.world_of Sample.one_picture)) in
  let file := ["src"; "a.JPG"] in
  let bytes := "JPEG 2013:10:01 09:17:50"%string in
  let r := sorter Sample.env Image image_dir file "10-01-2013 [09.17.50]" s0 in
  disk (snd s0) !! file = Some (Node (KFile bytes) Sample.t0)
  /\ r = (Ok tt, snd r)
  /\ exists dst real,
       calls (snd (snd r)) = calls (snd s0) ++ [Placed Image file dst]
       /\ (real = dst \/ real = dst ++ [name file])
       /\ disk (snd (snd r)) !! real = Some (Node (KFile bytes) Sample.t0)
       /\ (move_file (fst s0) = false ->
           disk (snd (snd r)) !! file = Some (Node (KFile bytes) Sample.t0))
       /\ (move_file (fst s0) = true -> real <> file ->
           disk (snd (snd r)) !! file = None)
       /\ fst (snd r) = fst s0.
Proof.
  intros s0 file bytes r.
  assert (disk (snd s0) !! file = Some (Node (KFile bytes) Sample.t0)) as Hfile
    by (vm_compute; reflexivity).
  assert (r = (Ok tt, snd r)) as Hrun by (apply run_pair; vm_compute; reflexivity).
  split; [exact Hfile |]. split; [exact Hrun |].
  exact (sorter_preserves_content Sample.env Image image_dir file
           "10-01-2013 [09.17.50]" s0 (snd r) bytes Sample.t0 Hfile Hrun).
Defined.

(** ** One component more *)

Lemma month_name_in_year m :
  (1 <= m <= 12)%Z ->
  exists mon, month_name m = Ok mon
              /\ month_names !! Z.to_nat m = Some mon
              /\ forall p, joinpath p (lower mon) = p ++ [lower mon].
Proof.
  intros H.
  assert (m = 1 \/ m = 2 \/ m = 3 \/ m = 4 \/ m = 5 \/ m = 6 \/ m = 7 \/ m = 8
          \/ m = 9 \/ m = 10 \/ m = 11 \/ m = 12)%Z as Hm by lia.
  repeat (destruct Hm as [-> | Hm]); try subst m;
    (eexists; split; [reflexivity | split; [reflexivity | intros p; reflexivity]]).
Qed.

Lemma stamp_fields mm dd yyyy tail :
  field mm -> field dd -> field yyyy ->
  let time := (mm ++ "-" ++ dd ++ "-" ++ yyyy ++ " " ++ tail)%string in
  let date := (mm ++ "-" ++ dd ++ "-" ++ yyyy)%string in
  index (split " " time) 0 = Ok date
  /\ index (split "-" date) 0 = Ok mm
  /\ index (split "-" date) 2 = Ok yyyy.
Proof.
  intros (M1 & M2 & _) (D1 & D2 & _) (Y1 & Y2 & _) time date.
  assert (contains " " date = false) as Hdate.
  { unfold date. rewrite !contains_char_app, M2, D2, Y2. reflexivity. }
  assert (time = (date ++ String " " tail)%string) as ->.
  { unfold time, date. norm_append. reflexivity. }
  rewrite (split_app_sep " " _ _ Hdate).
  assert (split "-" date = [mm; dd; yyyy]) as ->.
  { unfold date. change ("-" ++ dd ++ "-" ++ yyyy)%string
      with (String "-" (dd ++ String "-" yyyy)).
    rewrite (split_app_sep "-" _ _ M1), (split_app_sep "-" _ _ D1),
      (split_without_sep "-" _ Y1). reflexivity. }
  repeat split.
Qed.

Section SorterForward.
Context (env : Env).

(** A sorter whose timestamp reads well and whose destination is free. *)
Lemma sorter_places c dir file time s root date yyyy mm m mon d1 d2 d3 :
  let t := clock env (ticks (snd s)) in
  let month_dir := joinpath (joinpath root yyyy) (lower mon) in
  let date_dir_file :=
    joinpath month_dir (str_lower env (time ++ suffix file)%string) in
  index (split " " time) 0 = Ok date ->
  index (split "-" date) 2 = Ok yyyy ->
  index (split "-" date) 0 = Ok mm ->
  int mm = Ok m -> month_name m = Ok mon ->
  dir (fst s) = Some root ->
  mkdir_exist_ok t (disk (snd s)) (joinpath root yyyy) = Ok d1 ->
  mkdir_exist_ok t d1 month_dir = Ok d2 ->
  exists_ d2 date_dir_file = false ->
  transfer (move_file (fst s)) d2 file date_dir_file = Ok d3 ->
  sorter env c dir file time s
  = (Ok tt, (fst s, {| disk := d3; stdout := stdout (snd s);
                       delivered := delivered (snd s);
                       calls := calls (snd s) ++ [Placed c file date_dir_file];
                       ticks := ticks (snd s) |})).
Proof.
  intros t month_dir date_dir_file H1 H2 H3 H4 H5 H6 H7 H8 H9 H10.
  unfold sorter. rewrite bind_get_self, H1, bind_lift_Ok, H2, bind_lift_Ok, H6.
  unfold dir_of. rewrite bind_ret.
  rewrite (bind_mkdir_Ok env _ _ s d1 H7).
  rewrite bind_lift_Ok, H3, bind_lift_Ok, H4, bind_lift_Ok, H5, bind_lift_Ok.
  fold month_dir.
  rewrite (bind_mkdir_Ok env month_dir _ _ d2) by exact H8.
  rewrite bind_get_disk. cbn [fst snd disk set_disk].
  fold date_dir_file. rewrite H9. cbn [negb].
  unfold transfer in H10. destruct s as [o w]. cbn [fst snd] in *.
  destruct (move_file o); cbn [negb];
    rewrite (bind_on_disk_Ok _ _ _ d3) by exact H10; reflexivity.
Qed.

(** A sorter whose month field is no month: it raises after the year
    directory is made. *)
Lemma sorter_stops_at_month c dir file time s root date yyyy mm d1 e :
  let t := clock env (ticks (snd s)) in
  index (split " " time) 0 = Ok date ->
  index (split "-" date) 2 = Ok yyyy ->
  index (split "-" date) 0 = Ok mm ->
  dir (fst s) = Some root ->
  mkdir_exist_ok t (disk (snd s)) (joinpath root yyyy) = Ok d1 ->
  int mm = Raise e \/ (exists m, int mm = Ok m /\ month_name m = Raise e) ->
  sorter env c dir file time s = (Raise e, (fst s, set_disk d1 (snd s))).
Proof.
  intros t H1 H2 H3 H6 H7 Hbad.
  unfold sorter. rewrite bind_get_self, H1, bind_lift_Ok, H2, bind_lift_Ok, H6.
  unfold dir_of. rewrite bind_ret.
  rewrite (bind_mkdir_Ok env _ _ s d1 H7).
  rewrite bind_lift_Ok, H3, bind_lift_Ok.
  destruct Hbad as [E | (m & E & E')].
  - rewrite E, bind_lift_Raise. reflexivity.
  - rewrite E, bind_lift_Ok, E', bind_lift_Raise. reflexivity.
Qed.

End SorterForward.

Lemma snoc_ne_length {A} (p q : list A) : length p <> length q -> p <> q.
Proof. intros H E. apply H. rewrite E. reflexivity. Qed.

Section ByStamp.
Context (env : Env).

(** A sorter given a timestamp [mm-dd-yyyy tail] whose month is a month
    of the calendar, the destination being free. *)
Lemma sorter_files_by_stamp (c : category)
    (dir : ImageOrganizer -> option path) (file : path) (s : state)
    (bytes : string) (mt : datetime) (root : path)
    (mm dd yyyy tail : string) (m : Z) :
  let time := (mm ++ "-" ++ dd ++ "-" ++ yyyy ++ " " ++ tail)%string in
  let d := disk (snd s) in
  let mon := lower (default ""%string (month_names !! Z.to_nat m)) in
  let file_name := str_lower env (time ++ suffix file)%string in
  let dst := root ++ [yyyy; mon; file_name] in
  field mm -> field dd -> field yyyy ->
  entry_name yyyy ->
  String.length mm <= 4300 ->
  int mm = Ok m -> (1 <= m <= 12)%Z ->
  entry_name file_name ->
  d !! file = Some (Node (KFile bytes) mt) ->
  dir (fst s) = Some root ->
  is_dir d root = true ->
  dir_or_absent d (root ++ [yyyy]) = true ->
  dir_or_absent d (root ++ [yyyy; mon]) = true ->
  d !! dst = None ->
  exists s',
    sorter env c dir file time s = (Ok tt, s')
    /\ calls (snd s') = calls (snd s) ++ [Placed c file dst]
    /\ disk (snd s') !! dst = Some (Node (KFile bytes) mt)
    /\ is_dir (disk (snd s')) (root ++ [yyyy; mon]) = true
    /\ disk (snd s') !! file
       = (if move_file (fst s) then None else Some (Node (KFile bytes) mt)).
Proof.
  intros time d mon0 file_name dst Fm Fd Fy Hy _ Hint Hm Hname Hfile Hdir Hroot
         Hyear Hmonth Hdst.
  destruct (stamp_fields mm dd yyyy tail Fm Fd Fy) as (S1 & S2 & S3).
  fold time in S1.
  destruct (month_name_in_year m Hm) as (mon & Hmon & Hnth & Hjoin).
  assert (mon0 = lower mon) as Emon by (unfold mon0; rewrite Hnth; reflexivity).
  clearbody mon0. subst mon0.
  set (year := root ++ [yyyy]) in *.
  assert (root ++ [yyyy; lower mon] = year ++ [lower mon]) as Emonth
    by (unfold year; rewrite <- app_assoc; reflexivity).
  assert (dst = (year ++ [lower mon]) ++ [file_name]) as Edst
    by (unfold dst, year; rewrite <- !app_assoc; reflexivity).
  rewrite Emonth in *. clearbody dst. subst dst.
  set (month := year ++ [lower mon]) in *.
  set (dst := month ++ [file_name]) in *.
  destruct s as [o w]. cbn [fst snd] in *.
  set (t := clock env (ticks w)).
  set (d1 := made t d year). set (d2 := made t d1 month).
  assert (joinpath root yyyy = year) as Ejy by (apply joinpath_entry, Hy).
  assert (joinpath year (lower mon) = month) as Ejm by apply Hjoin.
  assert (joinpath month file_name = dst) as Ejf by (apply joinpath_entry, Hname).
  assert (mkdir_exist_ok t d year = Ok d1) as Hmk1
    by (apply mkdir_exist_ok_Ok; assumption).
  assert (month <> year) as Hmy
    by (apply snoc_ne_length; unfold month; rewrite length_app; simpl; lia).
  assert (dst <> year) as Hdy
    by (apply snoc_ne_length; unfold dst, month; rewrite !length_app; simpl; lia).
  assert (dst <> month) as Hdm
    by (apply snoc_ne_length; unfold dst; rewrite length_app; simpl; lia).
  assert (dir_or_absent d1 month = true) as Hmonth1.
  { unfold dir_or_absent, d1. rewrite made_lookup_other by exact Hmy. exact Hmonth. }
  assert (mkdir_exist_ok t d1 month = Ok d2) as Hmk2.
  { apply mkdir_exist_ok_Ok; [exact Hmonth1 | apply made_is_dir, Hyear]. }
  assert (is_dir d2 month = true) as Hm2 by (apply made_is_dir, Hmonth1).
  assert (d2 !! file = Some (Node (KFile bytes) mt)) as Hfile2
    by (apply made_lookup_Some, made_lookup_Some, Hfile).
  assert (d2 !! dst = None) as Hdst2.
  { unfold d2, d1. rewrite !made_lookup_other by assumption. exact Hdst. }
  assert (file <> dst) as Hfd by congruence.
  set (d3 := if move_file o
             then <[dst := Node (KFile bytes) mt]> (delete file d2)
             else <[dst := Node (KFile bytes) mt]> d2).
  assert (transfer (move_file o) d2 file dst = Ok d3) as Hop.
  { unfold transfer, d3. destruct (move_file o).
    - apply move_to_free; assumption.
    - apply copy2_to_free; assumption. }
  eexists. split.
  - apply (sorter_places env c dir file time (o, w) root _ yyyy mm m mon d1 d2 d3
             S1 S3 S2 Hint Hmon Hdir);
      cbn [fst snd]; rewrite ?Ejy, ?Ejm; fold file_name; rewrite ?Ejf;
      try assumption.
    unfold exists_. rewrite Hdst2. reflexivity.
  - cbn [fst snd calls disk]. rewrite Ejy, Ejm. fold file_name. rewrite Ejf.
    split; [reflexivity |]. unfold d3.
    split; [destruct (move_file o); apply lookup_insert_eq |].
    split.
    + assert (forall d', is_dir (<[dst := Node (KFile bytes) mt]> d') month
                         = is_dir d' month) as Hins.
      { intros d'. unfold is_dir. rewrite lookup_insert_ne by congruence. reflexivity. }
      destruct (move_file o); rewrite Hins; [| exact Hm2].
      unfold is_dir in *. destruct month eqn:E; [reflexivity |].
      rewrite lookup_delete_ne; [exact Hm2 |].
      intros ->. rewrite Hfile2 in Hm2. discriminate.
    + destruct (move_file o); rewrite lookup_insert_ne by congruence;
        [apply lookup_delete_eq | exact Hfile2].
Qed.

(** X5.  The destination rule of the three sorters.  Take a timestamp
    [mm-dd-yyyy tail] whose three date fields hold no dash, space or
    slash, whose year field is not empty, [.] or [..], and whose month
    field, of at most 4300 characters, reads as an integer from 1 to 12;
    a regular file; a category directory that exists; a year directory
    and a month directory that are directories or absent; and let the
    file name, [str.lower] of the timestamp followed by the suffix of the
    file, name one entry (no slash, not empty, [.] or [..]) and be free in
    the month directory.  Then the sorter returns, and the file is at
    [<category>/<yyyy>/<month name, lower case>/<file name>] with its
    bytes and modification time; the month directory is a directory.  The
    source stays in copy mode and is gone in move mode. *)
Theorem sorter_destination (c : category)
    (dir : ImageOrganizer -> option path) (file : path) (s : state)
    (bytes : string) (mt : datetime) (root : path)
    (mm dd yyyy tail : string) (m : Z) :
  let time := (mm ++ "-" ++ dd ++ "-" ++ yyyy ++ " " ++ tail)%string in
  let d := disk (snd s) in
  let mon := lower (default ""%string (month_names !! Z.to_nat m)) in
  let file_name := str_lower env (time ++ suffix file)%string in
  let dst := root ++ [yyyy; mon; file_name] in
  field mm -> field dd -> field yyyy ->
  entry_name yyyy ->
  String.length mm <= 4300 ->
  int mm = Ok m -> (1 <= m <= 12)%Z ->
  entry_name file_name ->
  d !! file = Some (Node (KFile bytes) mt) ->
  dir (fst s) = Some root ->
  is_dir d root = true ->
  dir_or_absent d (root ++ [yyyy]) = true ->
  dir_or_absent d (root ++ [yyyy; mon]) = true ->
  d !! dst = None ->
  exists s',
    sorter env c dir file time s = (Ok tt, s')
    /\ calls (snd s') = calls (snd s) ++ [Placed c file dst]
    /\ disk (snd s') !! dst = Some (Node (KFile bytes) mt)
    /\ is_dir (disk (snd s')) (root ++ [yyyy; mon]) = true
    /\ disk (snd s') !! file
       = (if move_file (fst s) then None else Some (Node (KFile bytes) mt)).
Proof.
  exact (sorter_files_by_stamp c dir file s bytes mt root mm dd yyyy tail m).
Qed.

End ByStamp.

(** The statement applied: the sample picture filed as a video of
    2014-12-24. *)
Lemma sorter_destination_witness :
  let s := snd (__init__ Sample.env ["out"] "images" "videos" "unknown" false
                  false (Sample.world_of Sample.one_picture)) in
  let file := ["src"; "a.JPG"] in
  let bytes := "JPEG 2013:10:01 09:17:50"%string in
  let time := "12-24-2014 [18.00.00]"%string in
  let dst := ["out"; "videos"; "2014"; "december"; "12-24-2014 [18.00.00].jpg"] in
  int "12" = Ok 12%Z
  /\ disk (snd s) !! file = Some (Node (KFile bytes) Sample.t0)
  /\ video_dir (fst s) = Some ["out"; "videos"]
  /\ disk (snd s) !! dst = None
  /\ exists s',
       sorter Sample.env Video video_dir file time s = (Ok tt, s')
       /\ calls (snd s') = calls (snd s) ++ [Placed Video file dst]
       /\ disk (snd s') !! dst = Some (Node (KFile bytes) Sample.t0).
Proof.
  intros s file bytes time dst.
  pose (root := ["out"; "videos"]).
  assert (field "12" /\ field "24" /\ field "2014") as (F1 & F2 & F3)
    by (repeat split; reflexivity).
  assert (entry_name "2014") as N1 by (repeat split; (reflexivity || discriminate)).
  assert (String.length "12" <= 4300) as N2 by (cbn; lia).
  assert (int "12" = Ok 12%Z) as Hint by reflexivity.
  assert (entry_name (str_lower Sample.env
                        (("12" ++ "-" ++ "24" ++ "-" ++ "2014" ++ " "
                          ++ "[18.00.00]") ++ suffix file)%string)) as Hname
    by (repeat split; (reflexivity || discriminate)).
  assert (disk (snd s) !! file = Some (Node (KFile bytes) Sample.t0)) as H1
    by (vm_compute; reflexivity).
  assert (video_dir (fst s) = Some root) as H5 by (vm_compute; reflexivity).
  assert (is_dir (disk (snd s)) root = true) as H6 by (vm_compute; reflexivity).
  assert (dir_or_absent (disk (snd s)) (root ++ ["2014"]) = true) as H7
    by (vm_compute; reflexivity).
  assert (dir_or_absent (disk (snd s))
            (root ++ ["2014"; lower (default ""%string
                                       (month_names !! Z.to_nat 12))]) = true)
    as H8 by (vm_compute; reflexivity).
  assert (disk (snd s)
            !! (root ++ ["2014";
                         lower (default ""%string (month_names !! Z.to_nat 12));
                         str_lower Sample.env
                           (("12" ++ "-" ++ "24" ++ "-" ++ "2014" ++ " "
                             ++ "[18.00.00]") ++ suffix file)%string])
          = None) as H9 by (vm_compute; reflexivity).
  destruct (sorter_destination Sample.env Video video_dir file s bytes Sample.t0
              root "12" "24" "2014" "[18.00.00]" 12%Z F1 F2 F3 N1 N2 Hint
              ltac:(lia) Hname H1 H5 H6 H7 H8 H9)
    as (s' & Hrun & Hcalls & Hdisk & _).
  split; [exact Hint |]. split; [exact H1 |]. split; [exact H5 |].
  split; [exact H9 |].
  exists s'. split; [exact Hrun |]. split; [exact Hcalls | exact Hdisk].
Defined.

Lemma month_name_out_of_range m :
  (m < -13 \/ 12 < m)%Z ->
  month_name m = raise_cls IndexError "list index out of range".
Proof.
  intros H. unfold month_name.
  destruct (Z.leb_spec 0 m) as [H0 | H0].
  - unfold index. rewrite (proj2 (nth_error_None month_names (Z.to_nat m)));
      [reflexivity |]. cbn [month_names length]. lia.
  - destruct (Z.leb_spec (-13) m); [lia | reflexivity].
Qed.

Lemma int_raises_ValueError x e : int x = Raise e -> exn_cls e = ValueError.
Proof.
  unfold int. destruct (rstrip (lstrip x)) as [| a r].
  - cbn. intros H. injection H as <-. reflexivity.
  - destruct (match String a r with
              | String "-" r0 => (true, r0)
              | String "+" r0 => (false, r0)
              | _ => (false, String a r)
              end) as [neg ds].
    destruct (int_digits ds 0 false); [discriminate |].
    intros H. injection H as <-. reflexivity.
Qed.

Section BadMonth.
Context (env : Env).

(** X6.  Take a timestamp [mm-dd-yyyy tail] whose three date fields hold
    no dash, space or slash, whose year field is not empty, [.] or [..],
    and whose month field is ASCII text that [int] does not read, or
    reads as an integer outside -13..12 (the indices [month_name]
    accepts); a category directory that exists and a year directory that
    is a directory or absent.  Then the sorter raises, [ValueError] from
    [int] or [IndexError] from [month_name], after the year directory has
    been made: the state after the raise is the state before but for that
    directory, and nothing is placed. *)
Theorem sorter_month_not_in_calendar (c : category)
    (dir : ImageOrganizer -> option path) (file : path) (s : state)
    (root : path) (mm dd yyyy tail : string) :
  let time := (mm ++ "-" ++ dd ++ "-" ++ yyyy ++ " " ++ tail)%string in
  let d := disk (snd s) in
  let year_made := made (clock env (ticks (snd s))) d (root ++ [yyyy]) in
  field mm -> field dd -> field yyyy ->
  entry_name yyyy ->
  is_ascii mm = true ->
  dir (fst s) = Some root ->
  is_dir d root = true ->
  dir_or_absent d (root ++ [yyyy]) = true ->
  (forall m, int mm = Ok m -> (m < -13 \/ 12 < m)%Z) ->
  exists e,
    sorter env c dir file time s = (Raise e, (fst s, set_disk year_made (snd s)))
    /\ (exn_cls e = ValueError \/ exn_cls e = IndexError)
    /\ is_dir year_made (root ++ [yyyy]) = true.
Proof.
  intros time d year_made Fm Fd Fy Hy _ Hdir Hroot Hyear Hbad.
  destruct (stamp_fields mm dd yyyy tail Fm Fd Fy) as (S1 & S2 & S3).
  fold time in S1.
  assert (joinpath root yyyy = root ++ [yyyy]) as Ejy
    by (apply joinpath_entry, Hy).
  assert (mkdir_exist_ok (clock env (ticks (snd s))) d (joinpath root yyyy)
          = Ok year_made) as Hmk.
  { rewrite Ejy. apply mkdir_exist_ok_Ok; assumption. }
  assert (exists e, (int mm = Raise e
                     \/ (exists m, int mm = Ok m /\ month_name m = Raise e))
                    /\ (exn_cls e = ValueError \/ exn_cls e = IndexError))
    as (e & He & Hcls).
  { destruct (int mm) as [m | e] eqn:E.
    - eexists. split.
      + right. exists m. split; [reflexivity |].
        apply month_name_out_of_range, Hbad. reflexivity.
      + right. reflexivity.
    - exists e. split; [left; reflexivity |]. left.
      eapply int_raises_ValueError, E. }
  exists e. split; [| split; [exact Hcls | apply made_is_dir, Hyear]].
  exact (sorter_stops_at_month env c dir file time s root _ yyyy mm year_made e
           S1 S3 S2 Hdir Hmk He).
Qed.

End BadMonth.

(** The statement applied: a thirteenth month. *)
Lemma sorter_month_not_in_calendar_witness :
  let s := snd (__init__ Sample.env ["out"] "images" "videos" "unknown" false
                  false (Sample.world_of Sample.one_picture)) in
  let file := ["src"; "a.JPG"] in
  let time := "13-01-2013 [09.17.50]"%string in
  int "13" = Ok 13%Z
  /\ image_dir (fst s) = Some ["out"; "images"]
  /\ exists e,
       fst (sorter Sample.env Image image_dir file time s) = Raise e
       /\ (exn_cls e = ValueError \/ exn_cls e = IndexError)
       /\ is_dir (disk (snd (snd (sorter Sample.env Image image_dir file time s))))
                 ["out"; "images"; "2013"] = true.
Proof.
  intros s file time.
  pose (root := ["out"; "images"]).
  assert (field "13" /\ field "01" /\ field "2013") as (F1 & F2 & F3)
    by (repeat split; reflexivity).
  assert (entry_name "2013") as N1 by (repeat split; (reflexivity || discriminate)).
  assert (is_ascii "13" = true) as N2 by reflexivity.
  assert (image_dir (fst s) = Some root) as H5 by (vm_compute; reflexivity).
  assert (is_dir (disk (snd s)) root = true) as H6 by (vm_compute; reflexivity).
  assert (dir_or_absent (disk (snd s)) (root ++ ["2013"]) = true) as H7
    by (vm_compute; reflexivity).
  assert (forall m, int "13" = Ok m -> (m < -13 \/ 12 < m)%Z) as Hbad.
  { intros m H. change (int "13") with (Ok 13%Z : result Z) in H.
    injection H as <-. right. lia. }
  destruct (sorter_month_not_in_calendar Sample.env Image image_dir file s root
              "13" "01" "2013" "[09.17.50]" F1 F2 F3 N1 N2 H5 H6 H7 Hbad)
    as (e & Hrun & Hcls & Hdir).
  split; [reflexivity |]. split; [exact H5 |].
  exists e. change (sorter Sample.env Image image_dir file time s)
    with (sorter Sample.env Image image_dir file
            ("13" ++ "-" ++ "01" ++ "-" ++ "2013" ++ " " ++ "[09.17.50]")%string s).
  rewrite Hrun. split; [reflexivity |]. split; [exact Hcls | exact Hdir].
Defined.

(** ** Decimal digits *)

Lemma all_digits_app a b :
  all_digits (a ++ b)%string = all_digits a && all_digits b.
Proof.
  induction a as [| x a IH]; [reflexivity |].
  rewrite append_String. cbn [all_digits]. rewrite IH, andb_assoc. reflexivity.
Qed.

Lemma all_digits_without c s :
  is_digit c = false -> all_digits s = true ->
  contains (String c "") s = false.
Proof.
  intros Hc. induction s as [| a s IH]; [reflexivity |].
  cbn [all_digits]. intros H. apply andb_true_iff in H as [Ha Hs].
  rewrite contains_char_cons, (IH Hs), orb_false_r.
  apply Ascii.eqb_neq. intros ->. congruence.
Qed.

Lemma all_digits_string_of_uint u :
  all_digits (NilZero.string_of_uint u) = true.
Proof.
  assert (all_digits (NilEmpty.string_of_uint u) = true) as H
    by (induction u; cbn; auto).
  destruct u; first [exact H | reflexivity].
Qed.

Lemma string_of_uint_not_empty u : NilZero.string_of_uint u <> ""%string.
Proof. destruct u; discriminate. Qed.

Lemma all_digits_zeros k : all_digits (String.concat "" (repeat "0" k)) = true.
Proof.
  induction k as [| k IH]; [reflexivity |].
  cbn [repeat String.concat]. destruct (repeat "0" k) eqn:E; [reflexivity |].
  rewrite !all_digits_app, IH. reflexivity.
Qed.

Lemma all_digits_pad w n : all_digits (pad w n) = true.
Proof.
  unfold pad, str_of_nat.
  rewrite all_digits_app, all_digits_zeros, all_digits_string_of_uint.
  reflexivity.
Qed.

Lemma field_pad w n : field (pad w n).
Proof.
  repeat split; apply all_digits_without; try reflexivity; apply all_digits_pad.
Qed.

Lemma all_digits_str_of_nat n : all_digits (str_of_nat n) = true.
Proof. apply all_digits_string_of_uint. Qed.

Lemma field_digits x : all_digits x = true -> field x.
Proof. intros H. repeat split; apply all_digits_without; try reflexivity; exact H. Qed.

Lemma entry_name_digits x : all_digits x = true -> x <> ""%string -> entry_name x.
Proof.
  intros H Hne. split; [apply all_digits_without; [reflexivity | exact H] |].
  split; [apply all_digits_without; [reflexivity | exact H] |].
  split; [exact Hne |]. split; intros ->; discriminate H.
Qed.

Lemma length_pad_month m : 1 <= m <= 12 -> String.length (pad 2 m) = 2.
Proof.
  intros H.
  assert (m = 1 \/ m = 2 \/ m = 3 \/ m = 4 \/ m = 5 \/ m = 6 \/ m = 7 \/ m = 8
          \/ m = 9 \/ m = 10 \/ m = 11 \/ m = 12) as Hm by lia.
  repeat (destruct Hm as [-> | Hm]); try subst m; reflexivity.
Qed.

Lemma int_pad_month m :
  1 <= m <= 12 -> int (pad 2 m) = Ok (Z.of_nat m).
Proof.
  intros H.
  assert (m = 1 \/ m = 2 \/ m = 3 \/ m = 4 \/ m = 5 \/ m = 6 \/ m = 7 \/ m = 8
          \/ m = 9 \/ m = 10 \/ m = 11 \/ m = 12) as Hm by lia.
  repeat (destruct Hm as [-> | Hm]); try subst m; reflexivity.
Qed.

Lemma get_modification_time_civil file s bytes t :
  disk (snd s) !! file = Some (Node (KFile bytes) t) ->
  (1000 <= Z.of_nat (dt_year t) <= 9999)%Z ->
  _get_modification_time file s = (Ok (strftime_m t), s).
Proof.
  intros Hfile Hy. unfold _get_modification_time. rewrite bind_get_disk, Hfile.
  cbv zeta. cbn [st_mtime].
  destruct (Z.leb_spec 1 (Z.of_nat (dt_year t))); [| lia].
  destruct (Z.leb_spec (Z.of_nat (dt_year t)) 9999); [| lia].
  reflexivity.
Qed.

Section ByModificationTime.
Context (env : Env).

(** A sorter given the formatted modification time [t]. *)
Lemma sorter_files_by_mtime (c : category)
    (dir : ImageOrganizer -> option path) (file : path) (s : state)
    (bytes : string) (t : datetime) (root : path) :
  let d := disk (snd s) in
  let time := strftime_m t in
  let yyyy := str_of_nat (dt_year t) in
  let mon := lower (default ""%string (month_names !! dt_month t)) in
  let file_name := str_lower env (time ++ suffix file)%string in
  let dst := root ++ [yyyy; mon; file_name] in
  civil t ->
  entry_name file_name ->
  d !! file = Some (Node (KFile bytes) t) ->
  dir (fst s) = Some root ->
  is_dir d root = true ->
  dir_or_absent d (root ++ [yyyy]) = true ->
  dir_or_absent d (root ++ [yyyy; mon]) = true ->
  d !! dst = None ->
  exists s',
    sorter env c dir file time s = (Ok tt, s')
    /\ calls (snd s') = calls (snd s) ++ [Placed c file dst]
    /\ disk (snd s') !! dst = Some (Node (KFile bytes) t)
    /\ is_dir (disk (snd s')) (root ++ [yyyy; mon]) = true
    /\ disk (snd s') !! file
       = (if move_file (fst s) then None else Some (Node (KFile bytes) t)).
Proof.
  intros d time yyyy mon file_name dst (_ & Hm & _) Hname Hfile Hdir Hroot
    Hyear Hmonth Hdst.
  set (tail := ("[" ++ pad 2 (dt_hour t) ++ "." ++ pad 2 (dt_minute t) ++ "."
                ++ pad 2 (dt_second t) ++ "]")%string).
  assert (time = (pad 2 (dt_month t) ++ "-" ++ pad 2 (dt_day t) ++ "-" ++ yyyy
                  ++ " " ++ tail)%string) as Etime by reflexivity.
  pose proof (sorter_files_by_stamp env c dir file s bytes t root
                (pad 2 (dt_month t)) (pad 2 (dt_day t)) yyyy tail
                (Z.of_nat (dt_month t))) as H.
  cbv zeta in H. rewrite Nat2Z.id, <- Etime in H.
  apply H; try assumption; try apply field_pad.
  - apply field_digits, all_digits_str_of_nat.
  - apply entry_name_digits;
      [apply all_digits_str_of_nat | apply string_of_uint_not_empty].
  - rewrite (length_pad_month _ Hm). lia.
  - apply int_pad_month, Hm.
  - lia.
Qed.

(** X7.  Filing by modification time.  Take a regular file whose
    modification time is a time of the calendar in the years 1000 to
    9999; a category directory that exists; a year directory and a month
    directory that are directories or absent; and let the file name,
    [str.lower] of the timestamp followed by the suffix of the file, name
    one entry (no slash, not empty, [.] or [..]) and be free in the month
    directory.  Then [_get_modification_time] returns the timestamp
    [%m-%d-%Y [%H.%M.%S]] of that time, and a sorter given this timestamp
    puts the file, bytes and modification time as they were, at
    [<category>/<year>/<month name, lower case>/<file name>]; the source
    stays in copy mode and is gone in move mode. *)
Theorem modification_time_destination (c : category)
    (dir : ImageOrganizer -> option path) (file : path) (s : state)
    (bytes : string) (t : datetime) (root : path) :
  let d := disk (snd s) in
  let time := strftime_m t in
  let yyyy := str_of_nat (dt_year t) in
  let mon := lower (default ""%string (month_names !! dt_month t)) in
  let file_name := str_lower env (time ++ suffix file)%string in
  let dst := root ++ [yyyy; mon; file_name] in
  civil t ->
  entry_name file_name ->
  d !! file = Some (Node (KFile bytes) t) ->
  dir (fst s) = Some root ->
  is_dir d root = true ->
  dir_or_absent d (root ++ [yyyy]) = true ->
  dir_or_absent d (root ++ [yyyy; mon]) = true ->
  d !! dst = None ->
  _get_modification_time file s = (Ok time, s)
  /\ exists s',
       sorter env c dir file time s = (Ok tt, s')
       /\ calls (snd s') = calls (snd s) ++ [Placed c file dst]
       /\ disk (snd s') !! dst = Some (Node (KFile bytes) t)
       /\ is_dir (disk (snd s')) (root ++ [yyyy; mon]) = true
       /\ disk (snd s') !! file
          = (if move_file (fst s) then None else Some (Node (KFile bytes) t)).
Proof.
  intros d time yyyy mon file_name dst Hm Hname Hfile Hdir Hroot Hyear Hmonth
    Hdst.
  split.
  { apply get_modification_time_civil with (bytes := bytes); [exact Hfile |].
    apply Hm. }
  exact (sorter_files_by_mtime c dir file s bytes t root Hm Hname Hfile Hdir
           Hroot Hyear Hmonth Hdst).
Qed.

End ByModificationTime.

(** The statement applied: the sample sound file, last modified on
    2020-05-17. *)
Lemma modification_time_destination_witness :
  let s := snd (__init__ Sample.env ["out"] "images" "videos" "unknown" false
                  false (Sample.world_of Sample.one_song)) in
  let file := ["src"; "song.mp3"] in
  let dst := ["out"; "unknown"; "2020"; "may"; "05-17-2020 [08.03.09].mp3"] in
  disk (snd s) !! file = Some (Node (KFile "MP3") Sample.t0)
  /\ unknown_dir (fst s) = Some ["out"; "unknown"]
  /\ _get_modification_time file s = (Ok "05-17-2020 [08.03.09]"%string, s)
  /\ exists s',
       sorter Sample.env Unknown unknown_dir file "05-17-2020 [08.03.09]" s
       = (Ok tt, s')
       /\ calls (snd s') = calls (snd s) ++ [Placed Unknown file dst]
       /\ disk (snd s') !! dst = Some (Node (KFile "MP3") Sample.t0).
Proof.
  intros s file dst.
  pose (root := ["out"; "unknown"]).
  assert (civil Sample.t0) as Hm by (unfold civil; cbn; lia).
  assert (entry_name (str_lower Sample.env
                        (strftime_m Sample.t0 ++ suffix file)%string)) as Hname
    by (repeat split; (reflexivity || discriminate)).
  assert (disk (snd s) !! file = Some (Node (KFile "MP3") Sample.t0)) as H1
    by (vm_compute; reflexivity).
  assert (unknown_dir (fst s) = Some root) as H5 by (vm_compute; reflexivity).
  assert (is_dir (disk (snd s)) root = true) as H6 by (vm_compute; reflexivity).
  assert (dir_or_absent (disk (snd s))
            (root ++ [str_of_nat (dt_year Sample.t0)]) = true)
    as H7 by (vm_compute; reflexivity).
  assert (dir_or_absent (disk (snd s))
            (root ++ [str_of_nat (dt_year Sample.t0);
                      lower (default ""%string
                               (month_names !! dt_month Sample.t0))]) = true)
    as H8 by (vm_compute; reflexivity).
  assert (disk (snd s)
            !! (root ++ [str_of_nat (dt_year Sample.t0);
                         lower (default ""%string
                                  (month_names !! dt_month Sample.t0));
                         str_lower Sample.env
                           (strftime_m Sample.t0 ++ suffix file)%string])
          = None) as H9 by (vm_compute; reflexivity).
  destruct (modification_time_destination Sample.env Unknown unknown_dir file s
              "MP3" Sample.t0 root Hm Hname H1 H5 H6 H7 H8 H9)
    as (Htime & s' & Hrun & Hcalls & Hdisk & _).
  split; [exact H1 |]. split; [exact H5 |]. split; [exact Htime |].
  exists s'. split; [exact Hrun |]. split; [exact Hcalls | exact Hdisk].
Defined.

(** ** The constructor *)

Lemma mkdir_exist_ok_is_dir t d p d' q :
  mkdir_exist_ok t d p = Ok d' -> is_dir d q = true -> is_dir d' q = true.
Proof.
  intros H Hq. destruct q as [| x q']; [reflexivity |].
  unfold is_dir in *. destruct (d !! (x :: q')) as [n |] eqn:L; [| discriminate].
  rewrite (mkdir_exist_ok_lookup _ _ _ _ _ _ H L). exact Hq.
Qed.

Lemma mkdir_exist_ok_again t d p : is_dir d p = true -> mkdir_exist_ok t d p = Ok d.
Proof.
  intros H. unfold mkdir_exist_ok. rewrite H.
  destruct p as [| x p']; [rewrite orb_true_r; reflexivity |].
  unfold is_dir in H. unfold exists_.
  destruct (d !! (x :: p')); [reflexivity | discriminate].
Qed.

Lemma mkdir_exist_ok_absent t d p d' q :
  mkdir_exist_ok t d p = Ok d' -> q <> p -> d' !! q = d !! q.
Proof.
  intros H Hq. apply mkdir_exist_ok_inv in H as [_ [-> | [_ ->]]]; [reflexivity |].
  apply lookup_insert_ne. congruence.
Qed.

Section Constructor.
Context (env : Env).

Lemma make_directories_Ok_inv s s' :
  _make_directories env s = (Ok tt, s') ->
  let t := clock env (ticks (snd s)) in
  let wd := working_dir (fst s) in
  let p1 := joinpath wd (image_dir_name (fst s)) in
  let p2 := joinpath wd (video_dir_name (fst s)) in
  let p3 := joinpath wd (unknown_dir_name (fst s)) in
  exists d1 d2 d3 d4,
    mkdir_exist_ok t (disk (snd s)) wd = Ok d1
    /\ mkdir_exist_ok t d1 p1 = Ok d2
    /\ mkdir_exist_ok t d2 p2 = Ok d3
    /\ mkdir_exist_ok t d3 p3 = Ok d4
    /\ s' = (with_dirs (fst s) (Some p1) (Some p2) (Some p3), set_disk d4 (snd s)).
Proof.
  intros H t wd p1 p2 p3.
  unfold _make_directories in H. rewrite bind_get_self in H.
  fold wd p1 p2 p3 in H.
  apply bind_Ok_inv in H as (u1 & s1 & M1 & H).
  apply mkdir_Ok_inv in M1 as (d1 & M1 & ->).
  apply bind_Ok_inv in H as (u2 & s1 & M2 & H).
  apply mkdir_Ok_inv in M2 as (d2 & M2 & ->).
  rewrite bind_unfold in H. cbn [set_self fst snd] in H.
  apply bind_Ok_inv in H as (u3 & s1 & M3 & H).
  apply mkdir_Ok_inv in M3 as (d3 & M3 & ->).
  rewrite bind_unfold in H. cbn [set_self fst snd] in H.
  apply bind_Ok_inv in H as (u4 & s1 & M4 & H).
  apply mkdir_Ok_inv in M4 as (d4 & M4 & ->).
  cbn [set_self fst snd set_disk disk ticks] in *.
  injection H as <-.
  exists d1, d2, d3, d4. repeat split; try assumption.
Qed.

Lemma make_directories_again s d1 d2 d3 d4 :
  let t := clock env (ticks (snd s)) in
  let wd := working_dir (fst s) in
  let p1 := joinpath wd (image_dir_name (fst s)) in
  let p2 := joinpath wd (video_dir_name (fst s)) in
  let p3 := joinpath wd (unknown_dir_name (fst s)) in
  mkdir_exist_ok t (disk (snd s)) wd = Ok d1 ->
  mkdir_exist_ok t d1 p1 = Ok d2 ->
  mkdir_exist_ok t d2 p2 = Ok d3 ->
  mkdir_exist_ok t d3 p3 = Ok d4 ->
  _make_directories env s
  = (Ok tt, (with_dirs (fst s) (Some p1) (Some p2) (Some p3), set_disk d4 (snd s))).
Proof.
  intros t wd p1 p2 p3 M1 M2 M3 M4.
  unfold _make_directories. rewrite bind_get_self. fold wd p1 p2 p3.
  rewrite (bind_mkdir_Ok env wd _ s d1 M1).
  rewrite (bind_mkdir_Ok env p1 _ _ d2) by exact M2.
  rewrite bind_unfold. cbn [set_self fst snd].
  rewrite (bind_mkdir_Ok env p2 _ _ d3) by exact M3.
  rewrite bind_unfold. cbn [set_self fst snd].
  rewrite (bind_mkdir_Ok env p3 _ _ d4) by exact M4.
  reflexivity.
Qed.

(** X8.  When the constructor returns, the object is the new one (all
    counters zero) with its three category directories set to
    [working_dir / name]; the working directory and the three category
    directories are directories; every entry that was on the disk is
    still there, unchanged; no other path was added; and nothing was
    printed, delivered or logged. *)
Theorem init_makes_directories (wd : path) (i v u : string) (mv fp : bool)
    (w : world) (o : ImageOrganizer) (w' : world) :
  __init__ env wd i v u mv fp w = (Ok tt, (o, w')) ->
  let made_dirs := [wd; joinpath wd i; joinpath wd v; joinpath wd u] in
  o = with_dirs (fresh wd i v u mv fp)
        (Some (joinpath wd i)) (Some (joinpath wd v)) (Some (joinpath wd u))
  /\ Forall (fun p => is_dir (disk w') p = true) made_dirs
  /\ (forall q x, disk w !! q = Some x -> disk w' !! q = Some x)
  /\ (forall q, q ∉ made_dirs -> disk w' !! q = disk w !! q)
  /\ (stdout w', delivered w', calls w', ticks w')
     = (stdout w, delivered w, calls w, ticks w).
Proof.
  intros H made_dirs. unfold __init__ in H.
  apply make_directories_Ok_inv in H. cbn [fst snd fresh working_dir
    image_dir_name video_dir_name unknown_dir_name] in H.
  destruct H as (d1 & d2 & d3 & d4 & M1 & M2 & M3 & M4 & H).
  injection H as -> ->. cbn [set_disk disk stdout delivered calls ticks].
  split; [reflexivity |].
  split.
  { repeat constructor.
    - eapply mkdir_exist_ok_is_dir; [exact M4 |].
      eapply mkdir_exist_ok_is_dir; [exact M3 |].
      eapply mkdir_exist_ok_is_dir; [exact M2 |].
      apply (mkdir_exist_ok_inv _ _ _ _ M1).
    - eapply mkdir_exist_ok_is_dir; [exact M4 |].
      eapply mkdir_exist_ok_is_dir; [exact M3 |].
      apply (mkdir_exist_ok_inv _ _ _ _ M2).
    - eapply mkdir_exist_ok_is_dir; [exact M4 |].
      apply (mkdir_exist_ok_inv _ _ _ _ M3).
    - apply (mkdir_exist_ok_inv _ _ _ _ M4). }
  split.
  { intros q x Hq.
    eapply mkdir_exist_ok_lookup; [exact M4 |].
    eapply mkdir_exist_ok_lookup; [exact M3 |].
    eapply mkdir_exist_ok_lookup; [exact M2 |].
    eapply mkdir_exist_ok_lookup; [exact M1 | exact Hq]. }
  split; [| reflexivity].
  intros q Hq. unfold made_dirs in Hq.
  rewrite !not_elem_of_cons in Hq. destruct Hq as (Q1 & Q2 & Q3 & Q4 & _).
  rewrite (mkdir_exist_ok_absent _ _ _ _ _ M4 Q4),
    (mkdir_exist_ok_absent _ _ _ _ _ M3 Q3),
    (mkdir_exist_ok_absent _ _ _ _ _ M2 Q2),
    (mkdir_exist_ok_absent _ _ _ _ _ M1 Q1). reflexivity.
Qed.

(** X9.  Constructing the organizer a second time, with the same
    arguments, on the disk the first construction left returns and
    changes nothing: directories that exist are accepted
    ([exist_ok=True]). *)
Theorem init_again_changes_nothing (wd : path) (i v u : string) (mv fp : bool)
    (w : world) (s' : state) :
  __init__ env wd i v u mv fp w = (Ok tt, s') ->
  __init__ env wd i v u mv fp (snd s') = (Ok tt, s').
Proof.
  unfold __init__. intros H.
  apply make_directories_Ok_inv in H. cbn [fst snd fresh working_dir
    image_dir_name video_dir_name unknown_dir_name] in H.
  destruct H as (d1 & d2 & d3 & d4 & M1 & M2 & M3 & M4 & ->).
  cbn [snd].
  assert (is_dir d4 wd = true) as D1.
  { eapply mkdir_exist_ok_is_dir; [exact M4 |].
    eapply mkdir_exist_ok_is_dir; [exact M3 |].
    eapply mkdir_exist_ok_is_dir; [exact M2 |].
    apply (mkdir_exist_ok_inv _ _ _ _ M1). }
  assert (is_dir d4 (joinpath wd i) = true) as D2.
  { eapply mkdir_exist_ok_is_dir; [exact M4 |].
    eapply mkdir_exist_ok_is_dir; [exact M3 |].
    apply (mkdir_exist_ok_inv _ _ _ _ M2). }
  assert (is_dir d4 (joinpath wd v) = true) as D3.
  { eapply mkdir_exist_ok_is_dir; [exact M4 |].
    apply (mkdir_exist_ok_inv _ _ _ _ M3). }
  assert (is_dir d4 (joinpath wd u) = true) as D4
    by apply (mkdir_exist_ok_inv _ _ _ _ M4).
  rewrite (make_directories_again _ d4 d4 d4 d4);
    cbn [fst snd fresh working_dir image_dir_name video_dir_name
         unknown_dir_name set_disk disk];
    try (apply mkdir_exist_ok_again; assumption).
  reflexivity.
Qed.


End Constructor.

(** The statement applied: the organizer of the sample batch. *)
Lemma init_makes_directories_witness :
  let r := __init__ Sample.env ["out"] "images" "videos" "unknown" false false
             (Sample.world_of Sample.one_picture) in
  r = (Ok tt, (fst (snd r), snd (snd r)))
  /\ Forall (fun p => is_dir (disk (snd (snd r))) p = true)
       [["out"]; joinpath ["out"] "images"; joinpath ["out"] "videos";
        joinpath ["out"] "unknown"]
  /\ (forall q x, Sample.one_picture !! q = Some x ->
                  disk (snd (snd r)) !! q = Some x).
Proof.
  intros r.
  assert (r = (Ok tt, (fst (snd r), snd (snd r)))) as Hrun.
  { rewrite <- surjective_pairing. apply run_pair. vm_compute. reflexivity. }
  split; [exact Hrun |].
  destruct (init_makes_directories Sample.env ["out"] "images" "videos" "unknown"
              false false (Sample.world_of Sample.one_picture)
              (fst (snd r)) (snd (snd r)) Hrun) as (_ & H2 & H3 & _).
  split; [exact H2 | exact H3].
Defined.

(** The statement applied: the organizer of the sample batch, twice. *)
Lemma init_again_changes_nothing_witness :
  let r := __init__ Sample.env ["out"] "images" "videos" "unknown" false false
             (Sample.world_of Sample.one_picture) in
  r = (Ok tt, snd r)
  /\ __init__ Sample.env ["out"] "images" "videos" "unknown" false false
       (snd (snd r)) = (Ok tt, snd r).
Proof.
  intros r.
  assert (r = (Ok tt, snd r)) as Hrun by (apply run_pair; vm_compute; reflexivity).
  split; [exact Hrun |].
  exact (init_again_changes_nothing Sample.env ["out"] "images" "videos" "unknown"
           false false (Sample.world_of Sample.one_picture) (snd r) Hrun).
Defined.


(** ** The exception logs and the capture date *)


Section MediaInfo.
Context (env : Env).


(** The conversion sees the tag without its NUL bytes. *)
Lemma date_time_original_without_nul exif_dict s v value :
  exif_dict !! inl "DateTimeOriginal" = Some v ->
  replace nul "" v = value ->
  contains (String nul "") value = false ->
  date_time_original exif_dict s
  = date_time_original {[inl "DateTimeOriginal" := value]} s.
Proof.
  intros Htag Hrep Hnul. unfold date_time_original.
  rewrite Htag, lookup_singleton_eq, Hrep, (replace_without nul "" value Hnul).
  reflexivity.
Qed.

(** X12.  For a regular file whose Exif [DateTimeOriginal], its NUL
    bytes dropped, is [y:mo:d h:mi:se] (fields without colon or space),
    [_get_exif] returns [mo-d-y [h.mi.se]] and leaves the state alone: a
    value padded with NUL bytes is read like the value itself. *)
Theorem get_exif_reformats (file : path) (s : state) (bytes : string)
    (mt : datetime) (open_image : option Z -> list (Z * string))
    (v y mo d h mi se : string) :
  plain y -> plain mo -> plain d -> plain h -> plain mi -> plain se ->
  disk (snd s) !! file = Some (Node (KFile bytes) mt) ->
  pil_getexif env file bytes = Ok open_image ->
  make_exif_dict env (open_image (find_exif_key (TAGS env) None))
    !! inl "DateTimeOriginal" = Some v ->
  replace nul "" v
  = (y ++ ":" ++ mo ++ ":" ++ d ++ " " ++ h ++ ":" ++ mi ++ ":" ++ se)%string ->
  _get_exif env file s
  = (Ok (Some (mo ++ "-" ++ d ++ "-" ++ y ++ " [" ++ h ++ "." ++ mi ++ "."
               ++ se ++ "]")%string), s).
Proof.
  intros Py Pmo Pd Ph Pmi Pse Hfile Hpil Htag Hrep.
  rewrite (get_exif_of_tag env _ _ _ _ _ _ Hfile Hpil Htag).
  unfold try_except.
  rewrite (date_time_original_without_nul _ s v _ Htag Hrep).
  - rewrite (date_time_original_reformat _ s y mo d h mi se Py Pmo Pd Ph Pmi Pse)
      by apply lookup_singleton_eq.
    reflexivity.
  - destruct Py as (_ & _ & Hy), Pmo as (_ & _ & Hmo), Pd as (_ & _ & Hd),
      Ph as (_ & _ & Hh), Pmi as (_ & _ & Hmi), Pse as (_ & _ & Hse).
    rewrite !contains_char_app, Hy, Hmo, Hd, Hh, Hmi, Hse. reflexivity.
Qed.

End MediaInfo.


(** The statement applied: the sample picture. *)
Lemma get_exif_reformats_witness :
  let s := snd (__init__ Sample.env ["out"] "images" "videos" "unknown" false
                  false (Sample.world_of Sample.one_picture)) in
  let file := ["src"; "a.JPG"] in
  let bytes := "JPEG 2013:10:01 09:17:50"%string in
  disk (snd s) !! file = Some (Node (KFile bytes) Sample.t0)
  /\ _get_exif Sample.env file s
     = (Ok (Some ("10" ++ "-" ++ "01" ++ "-" ++ "2013" ++ " [" ++ "09" ++ "."
                  ++ "17" ++ "." ++ "50" ++ "]")%string), s).
Proof.
  intros s file bytes.
  pose (open_image := fun key : option Z =>
          if bool_decide (key = Some 34665%Z)
          then [(36867%Z, String.substring 5 19 bytes)] else []).
  assert (disk (snd s) !! file = Some (Node (KFile bytes) Sample.t0)) as H1
    by (vm_compute; reflexivity).
  assert (pil_getexif Sample.env file bytes = Ok open_image) as H2 by reflexivity.
  assert (make_exif_dict Sample.env
            (open_image (find_exif_key (TAGS Sample.env) None))
            !! inl "DateTimeOriginal"
          = Some "2013:10:01 09:17:50"%string) as H3
    by (vm_compute; reflexivity).
  assert (replace nul "" "2013:10:01 09:17:50"
          = ("2013" ++ ":" ++ "10" ++ ":" ++ "01" ++ " " ++ "09" ++ ":"
             ++ "17" ++ ":" ++ "50")%string) as H4 by reflexivity.
  split; [exact H1 |].
  apply (get_exif_reformats Sample.env file s bytes Sample.t0 open_image
           "2013:10:01 09:17:50" "2013" "10" "01" "09" "17" "50");
    first [exact H1 | exact H2 | exact H3 | exact H4 | repeat split; reflexivity].
Defined.

(** ** The counter of a duplicate *)

Lemma digit_not_space c : is_digit c = true -> is_space c = false.
Proof. destruct c as [[] [] [] [] [] [] [] []]; try discriminate; reflexivity. Qed.

Lemma lstrip_digits s : all_digits s = true -> lstrip s = s.
Proof.
  destruct s as [| c r]; [reflexivity |]. cbn [all_digits lstrip].
  intros H. apply andb_true_iff in H as [Hc _].
  rewrite (digit_not_space _ Hc). reflexivity.
Qed.

Lemma rstrip_digits s : all_digits s = true -> rstrip s = s.
Proof.
  induction s as [| c r IH]; [reflexivity |]. cbn [all_digits rstrip].
  intros H. apply andb_true_iff in H as [Hc Hr]. rewrite (IH Hr).
  destruct r; [rewrite (digit_not_space _ Hc) |]; reflexivity.
Qed.

Lemma int_digits_all_digits s : forall acc b,
  all_digits s = true -> (s <> ""%string \/ b = true) ->
  exists n, int_digits s acc b = Some n.
Proof.
  induction s as [| c r IH]; intros acc b Hs Hb.
  - destruct Hb as [Hb | ->]; [contradiction | exists acc; reflexivity].
  - cbn [all_digits] in Hs. apply andb_true_iff in Hs as [Hc Hr].
    cbn [int_digits]. rewrite Hc. apply IH; [exact Hr | right; reflexivity].
Qed.

Lemma int_of_digits g :
  all_digits g = true -> g <> ""%string ->
  exists n, int g = Ok (Z.of_N n).
Proof.
  intros Hg Hne. unfold int. rewrite (lstrip_digits _ Hg), (rstrip_digits _ Hg).
  destruct g as [| c r]; [contradiction |].
  destruct (int_digits_all_digits (String c r) 0%N false Hg (or_introl Hne))
    as [n Hn].
  assert (match String c r with
          | String "-" r0 => (true, r0)
          | String "+" r0 => (false, r0)
          | _ => (false, String c r)
          end = (false, String c r)) as ->.
  { cbn [all_digits] in Hg. apply andb_true_iff in Hg as [Hc _].
    destruct c as [[] [] [] [] [] [] [] []]; try discriminate Hc; reflexivity. }
  rewrite Hn. exists n. reflexivity.
Qed.

Lemma span_digits_all_digits s : all_digits (fst (span_digits s)) = true.
Proof.
  induction s as [| c r IH]; [reflexivity |]. cbn [span_digits].
  destruct (is_digit c) eqn:Hc; [| reflexivity].
  destruct (span_digits r) as [ds rest]. cbn [fst all_digits] in *.
  rewrite Hc, IH. reflexivity.
Qed.

Lemma match_counter_here_digits s g :
  match_counter_here s = Some g -> all_digits g = true /\ g <> ""%string.
Proof.
  unfold match_counter_here. pose proof (span_digits_all_digits s) as H.
  destruct (span_digits s) as [[| c d] rest]; [discriminate |].
  destruct rest as [| a rest']; [discriminate |].
  destruct (ascii_dec a ")") as [-> | Hne].
  - intros [= <-]. split; [exact H | discriminate].
  - destruct a as [[] [] [] [] [] [] [] []]; try discriminate; contradiction.
Qed.

Lemma re_search_counter_digits s g :
  re_search_counter s = Some g -> all_digits g = true /\ g <> ""%string.
Proof.
  induction s as [| c r IH]; [discriminate |]. cbn [re_search_counter].
  destruct (Ascii.eqb c "("); [| exact IH].
  destruct (match_counter_here r) as [g' |] eqn:E; [| exact IH].
  intros [= <-]. eapply match_counter_here_digits, E.
Qed.

(** ** The stem and the suffix of a name *)

Lemma substring_all n : String.substring 0 (String.length n) n = n.
Proof. induction n as [| c r IH]; [reflexivity |]. cbn. rewrite IH. reflexivity. Qed.

Lemma substring_split n : forall i,
  i <= String.length n ->
  (String.substring 0 i n ++ String.substring i (String.length n - i) n)%string = n.
Proof.
  induction n as [| c r IH]; intros i Hi.
  - destruct i; [reflexivity | cbn in Hi; lia].
  - destruct i as [| i].
    + rewrite Nat.sub_0_r, substring_all. reflexivity.
    + cbn [String.length] in *. cbn [String.substring Nat.sub].
      rewrite append_String, IH by lia. reflexivity.
Qed.

Lemma length_substring_tail n : forall i,
  i <= String.length n ->
  String.length (String.substring i (String.length n - i) n) = String.length n - i.
Proof.
  induction n as [| c r IH]; intros i Hi.
  - destruct i; reflexivity.
  - destruct i as [| i].
    + rewrite Nat.sub_0_r, substring_all. reflexivity.
    + cbn [String.length] in *. cbn [String.substring Nat.sub]. apply IH. lia.
Qed.

Lemma append_empty_r a : (a ++ "")%string = a.
Proof. induction a as [| c a IH]; [reflexivity |]. rewrite append_String, IH. reflexivity. Qed.

Lemma stem_and_suffix n :
  n <> ""%string ->
  exists stem, with_suffix_empty n = Ok stem /\ (stem ++ suffix_of n)%string = n.
Proof.
  intros Hn. unfold with_suffix_empty.
  apply String.eqb_neq in Hn. rewrite Hn. eexists. split; [reflexivity |].
  unfold suffix_of. destruct (rfind "." n) as [i |]; cycle 1.
  { cbn [String.length]. rewrite Nat.sub_0_r, substring_all. apply append_empty_r. }
  destruct ((0 <? i)%nat && (i <? String.length n - 1)%nat) eqn:E; cycle 1.
  { cbn [String.length]. rewrite Nat.sub_0_r, substring_all. apply append_empty_r. }
  apply andb_true_iff in E as [_ E]. apply Nat.ltb_lt in E.
  rewrite length_substring_tail by lia.
  replace (String.length n - (String.length n - i)) with i by lia.
  apply substring_split. lia.
Qed.

Lemma fold_last_Some {A B} (f : A -> option B) (l : list A) : forall o b,
  fold_left (fun _ x => f x) l o = Some b ->
  o = Some b \/ exists x, x ∈ l /\ f x = Some b.
Proof.
  induction l as [| a l IH]; intros o b H; cbn [fold_left] in H; [left; exact H |].
  right. destruct (IH _ _ H) as [E | (x & Hx & E)].
  - exists a. split; [left | exact E].
  - exists x. split; [right; exact Hx | exact E].
Qed.

(** X13.  [_check_for_dupes] on a file name that is not empty returns the
    name with a counter between stem and suffix, [stem(k)suffix] with
    [k >= 1], stem and suffix being those of the name (the extension is
    kept), and leaves the state alone.  In particular [int] of the
    counter it matched never raises. *)
Theorem check_for_dupes_name (file_dir : path)
    (get_year get_month file_name : string) (s : state) :
  let n := name (parts file_name) in
  n <> ""%string ->
  exists (k : Z) (stem : string),
    _check_for_dupes file_dir get_year get_month file_name s
    = (Ok (stem ++ "(" ++ str_of_Z k ++ ")" ++ suffix_of n)%string, s)
    /\ (1 <= k)%Z
    /\ (stem ++ suffix_of n)%string = n.
Proof.
  intros n Hn. destruct (stem_and_suffix n Hn) as (stem & Hstem & Hjoin).
  unfold _check_for_dupes. rewrite bind_get_disk. fold n. unfold suffix. fold n.
  destruct (fold_left _ _ _) as [g |] eqn:Hg.
  - apply fold_last_Some in Hg as [Hg | (x & _ & Hg)]; [discriminate |].
    apply re_search_counter_digits in Hg as [Hd Hne].
    destruct (int_of_digits g Hd Hne) as [m Hm].
    exists (Z.of_N m + 1)%Z, stem.
    rewrite bind_unfold, bind_unfold, Hm. cbn [lift ret].
    rewrite bind_unfold, Hstem. cbn [lift ret].
    split; [unfold ret; norm_append; reflexivity |]. split; [lia | exact Hjoin].
  - exists 1%Z, stem. rewrite bind_ret, bind_unfold, Hstem. cbn [lift ret].
    split; [reflexivity |]. split; [lia | exact Hjoin].
Qed.

(** The statement applied: the month directory with the gap. *)
Lemma check_for_dupes_name_witness :
  let s := (fresh ["out"] "images" "videos" "unknown" false false,
            Sample.world_of Sample.month_with_gap) in
  name (parts "a.jpg") <> ""%string
  /\ exists (k : Z) (stem : string),
       _check_for_dupes ["out"; "images"] "2013" "october" "a.jpg" s
       = (Ok (stem ++ "(" ++ str_of_Z k ++ ")"
              ++ suffix_of (name (parts "a.jpg")))%string, s)
       /\ (1 <= k)%Z
       /\ (stem ++ suffix_of (name (parts "a.jpg")))%string = name (parts "a.jpg").
Proof.
  intros s.
  assert (name (parts "a.jpg") <> ""%string) as H by (vm_compute; discriminate).
  split; [exact H |].
  exact (check_for_dupes_name ["out"; "images"] "2013" "october" "a.jpg" s H).
Defined.

(** ** Reading a number back *)

Lemma int_digits_uint_acc l : forall acc : positive,
  int_digits (NilEmpty.string_of_uint l) (N.pos acc) true
  = Some (N.pos (Pos.of_uint_acc l acc)).
Proof.
  induction l; intros acc; cbn [NilEmpty.string_of_uint Pos.of_uint_acc];
    [reflexivity | ..];
    cbn [int_digits];
    match goal with
    | |- context [is_digit ?c] => change (is_digit c) with true; cbv iota
    end;
    rewrite <- IHl; f_equal; vm_compute digit_val; lia.
Qed.

Lemma int_digits_uint l : forall b,
  l <> Decimal.Nil \/ b = true ->
  int_digits (NilEmpty.string_of_uint l) 0%N b = Some (Pos.of_uint l).
Proof.
  induction l; intros b Hb; cbn [NilEmpty.string_of_uint Pos.of_uint].
  - destruct Hb as [Hb | ->]; [contradiction | reflexivity].
  - cbn [int_digits]. change (is_digit "0") with true. cbv iota.
    apply IHl. right. reflexivity.
  - apply (int_digits_uint_acc l 1).
  - apply (int_digits_uint_acc l 2).
  - apply (int_digits_uint_acc l 3).
  - apply (int_digits_uint_acc l 4).
  - apply (int_digits_uint_acc l 5).
  - apply (int_digits_uint_acc l 6).
  - apply (int_digits_uint_acc l 7).
  - apply (int_digits_uint_acc l 8).
  - apply (int_digits_uint_acc l 9).
Qed.

Lemma int_of_int_digits g n :
  all_digits g = true -> g <> ""%string ->
  int_digits g 0%N false = Some n -> int g = Ok (Z.of_N n).
Proof.
  intros Hg Hne Hn. unfold int. rewrite (lstrip_digits _ Hg), (rstrip_digits _ Hg).
  destruct g as [| c r]; [contradiction |].
  assert (match String c r with
          | String "-" r0 => (true, r0)
          | String "+" r0 => (false, r0)
          | _ => (false, String c r)
          end = (false, String c r)) as ->.
  { cbn [all_digits] in Hg. apply andb_true_iff in Hg as [Hc _].
    destruct c as [[] [] [] [] [] [] [] []]; try discriminate Hc; reflexivity. }
  rewrite Hn. reflexivity.
Qed.

Lemma int_str_of_Z k : (0 <= k)%Z -> int (str_of_Z k) = Ok k.
Proof.
  intros Hk. destruct k as [| p | p]; [reflexivity | | lia].
  unfold str_of_Z. cbn [Z.to_int NilZero.string_of_int].
  assert (Pos.to_uint p <> Decimal.Nil) as Hnil.
  { intros E. pose proof (DecimalPos.Unsigned.of_to p) as H. rewrite E in H. discriminate H. }
  assert (NilZero.string_of_uint (Pos.to_uint p)
          = NilEmpty.string_of_uint (Pos.to_uint p)) as E
    by (destruct (Pos.to_uint p); [contradiction | reflexivity ..]).
  rewrite (int_of_int_digits _ (N.pos p)); [reflexivity | | |].
  - apply all_digits_string_of_uint.
  - apply string_of_uint_not_empty.
  - rewrite E, int_digits_uint by (left; exact Hnil).
    rewrite DecimalPos.Unsigned.of_to. reflexivity.
Qed.

(** ** Searching a longer string *)



Lemma span_digits_digits ds b :
  all_digits ds = true ->
  span_digits (ds ++ String ")" b)%string = (ds, String ")" b).
Proof.
  induction ds as [| c ds IH]; [reflexivity |]. cbn [all_digits]. intros H.
  apply andb_true_iff in H as [Hc Hd].
  rewrite append_String. cbn [span_digits]. rewrite Hc, (IH Hd). reflexivity.
Qed.





Lemma re_search_counter_written stem ds sfx :
  contains "(" stem = false -> all_digits ds = true -> ds <> ""%string ->
  re_search_counter (stem ++ "(" ++ ds ++ ")" ++ sfx)%string = Some ds.
Proof.
  intros Hs Hd Hne. induction stem as [| a stem IH].
  - rewrite append_empty.
    change ("(" ++ ds ++ ")" ++ sfx)%string with (String "(" (ds ++ String ")" sfx)).
    cbn [re_search_counter]. rewrite Ascii.eqb_refl.
    unfold match_counter_here. rewrite (span_digits_digits _ _ Hd).
    destruct ds; [contradiction | reflexivity].
  - rewrite contains_char_cons in Hs. apply orb_false_iff in Hs as [Ha Hs].
    rewrite append_String. cbn [re_search_counter].
    rewrite Ascii.eqb_sym, Ha. exact (IH Hs).
Qed.

(** X14.  The counter [_check_for_dupes] writes is the counter it reads
    back: in a path [stem(k)suffix] whose stem has no opening
    parenthesis the search for [\((\d+)\)] finds the digits of [k], and
    [int] of them is [k]. *)
Theorem dupe_counter_round_trip (stem sfx : string) (k : Z) :
  contains "(" stem = false -> (0 <= k)%Z ->
  re_search_counter (stem ++ "(" ++ str_of_Z k ++ ")" ++ sfx)%string
  = Some (str_of_Z k)
  /\ int (str_of_Z k) = Ok k.
Proof.
  intros Hs Hk. split; [| apply int_str_of_Z, Hk].
  apply re_search_counter_written; [exact Hs | |].
  - destruct k as [| p | p]; [reflexivity | | lia].
    apply all_digits_string_of_uint.
  - destruct k as [| p | p]; [discriminate | | lia].
    apply string_of_uint_not_empty.
Qed.

(** The statement applied: the twelfth duplicate of a picture. *)
Lemma dupe_counter_round_trip_witness :
  contains "(" "/out/images/2013/october/10-01-2013 [09.17.50]" = false
  /\ (0 <= 12)%Z
  /\ re_search_counter ("/out/images/2013/october/10-01-2013 [09.17.50]" ++ "("
                        ++ str_of_Z 12 ++ ")" ++ ".jpg")%string
     = Some (str_of_Z 12)
  /\ int (str_of_Z 12) = Ok 12%Z.
Proof.
  assert (contains "(" "/out/images/2013/october/10-01-2013 [09.17.50]" = false)
    as H1 by reflexivity.
  assert (0 <= 12)%Z as H2 by lia.
  split; [exact H1 |]. split; [exact H2 |].
  exact (dupe_counter_round_trip
           "/out/images/2013/october/10-01-2013 [09.17.50]" ".jpg" 12 H1 H2).
Defined.

(** ** The counter and the name of the directory *)






(** ** Copy mode keeps every entry *)

Section CopyMode.
Context (env : Env).

Lemma parse_loop_copy_keeps gp cb total l : forall i s,
  move_file (fst s) = false ->
  kinds_stay (disk (snd s))
             (disk (snd (snd (parse_loop env gp cb total l i s))))
  /\ move_file (fst (snd (parse_loop env gp cb total l i s))) = false.
Proof.
  induction l as [| f l IH]; intros i s Hmv; cbn [parse_loop].
  - split; [reflexivity | exact Hmv].
  - rewrite bind_unfold.
    assert (kinds_stay (disk (snd s))
              (disk (snd (snd (parse_file env gp cb total f i s))))
            /\ move_file (fst (snd (parse_file env gp cb total f i s))) = false)
      as [H1 H2].
    { destruct (is_file (disk (snd s)) f) eqn:Hf;
        [destruct (wants_progress gp cb) eqn:Hw |].
      - destruct (parse_file_spec env gp cb total f i s Hw Hf)
          as [(A & _ & _ & _ & E) _].
        split; [exact (E Hmv) |]. rewrite (same_config_move_file _ _ A). exact Hmv.
      - rewrite parse_file_skip by auto. split; [reflexivity | exact Hmv].
      - rewrite parse_file_skip by auto. split; [reflexivity | exact Hmv]. }
    destruct (parse_file env gp cb total f i s) as [[[] | e] s1];
      cbn [fst snd] in *; [| split; assumption].
    destruct (IH (i + 1) s1 H2) as [H3 H4].
    split; [etransitivity; eassumption | exact H4].
Qed.

(** X16.  In copy mode [parse_dir] removes nothing, whatever its outcome
    (return or raise): every entry that was on the disk is still there,
    and is a regular file exactly when it was one. *)
Theorem copy_mode_keeps_every_entry (dir_path : path)
    (get_progress recursive_search : bool) (cb : callback) (s : state) :
  move_file (fst s) = false ->
  let s' := snd (parse_dir env dir_path get_progress recursive_search cb s) in
  forall q, exists_ (disk (snd s)) q = true ->
            exists_ (disk (snd s')) q = true
            /\ is_file (disk (snd s')) q = is_file (disk (snd s)) q.
Proof.
  intros Hmv s'. change (kinds_stay (disk (snd s)) (disk (snd s'))).
  unfold s', parse_dir. rewrite bind_get_disk, bind_unfold.
  set (files := glob_dir (disk (snd s)) dir_path recursive_search).
  destruct (parse_loop_copy_keeps get_progress cb (length files) files 1 s Hmv)
    as [H _].
  destruct (parse_loop env get_progress cb (length files) files 1 s)
    as [[[] | e] s1]; cbn [fst snd] in *; [| exact H].
  destruct (wants_progress get_progress cb); [| exact H].
  rewrite bind_get_self. destruct cb; destruct s1 as [o1 w1]; exact H.
Qed.

End CopyMode.

(** The statement applied: the third picture of the sample burst. *)
Lemma copy_mode_keeps_every_entry_witness :
  let s := snd (__init__ Sample.env ["out"] "images" "videos" "unknown" false
                  false (Sample.world_of Sample.burst)) in
  let s' := snd (parse_dir Sample.env ["src"] true true CbFunction s) in
  move_file (fst s) = false
  /\ exists_ (disk (snd s)) ["src"; "p3.jpg"] = true
  /\ exists_ (disk (snd s')) ["src"; "p3.jpg"] = true
  /\ is_file (disk (snd s')) ["src"; "p3.jpg"]
     = is_file (disk (snd s)) ["src"; "p3.jpg"].
Proof.
  intros s s'.
  assert (move_file (fst s) = false) as H1 by (vm_compute; reflexivity).
  assert (exists_ (disk (snd s)) ["src"; "p3.jpg"] = true) as H2
    by (vm_compute; reflexivity).
  split; [exact H1 |]. split; [exact H2 |].
  exact (copy_mode_keeps_every_entry Sample.env ["src"] true true CbFunction s H1
           ["src"; "p3.jpg"] H2).
Defined.

(** ** Files the run does not enumerate *)

Section Outside.
Context (env : Env).

Lemma parse_loop_outside gp cb total l : forall i s q,
  q ∉ l -> is_file (disk (snd s)) q = true ->
  is_file (disk (snd (snd (parse_loop env gp cb total l i s)))) q = true.
Proof.
  induction l as [| f l IH]; intros i s q Hq Hfile; cbn [parse_loop].
  - exact Hfile.
  - apply not_elem_of_cons in Hq as [Hqf Hq]. rewrite bind_unfold.
    assert (is_file (disk (snd (snd (parse_file env gp cb total f i s)))) q = true)
      as H1.
    { destruct (is_file (disk (snd s)) f) eqn:Hf;
        [destruct (wants_progress gp cb) eqn:Hw |].
      - destruct (parse_file_spec env gp cb total f i s Hw Hf)
          as [(_ & _ & _ & D & _) _].
        apply (D Hf); assumption.
      - rewrite parse_file_skip by auto. exact Hfile.
      - rewrite parse_file_skip by auto. exact Hfile. }
    destruct (parse_file env gp cb total f i s) as [[[] | e] s1];
      cbn [fst snd] in *; [| exact H1].
    apply IH; assumption.
Qed.

(** X17.  In both modes and whatever the outcome, a regular file that
    [parse_dir] does not enumerate is still a regular file after the
    run: move mode takes away enumerated files only. *)
Theorem files_outside_the_enumeration_stay (dir_path : path)
    (get_progress recursive_search : bool) (cb : callback) (s : state)
    (q : path) :
  q ∉ glob_dir (disk (snd s)) dir_path recursive_search ->
  is_file (disk (snd s)) q = true ->
  is_file (disk (snd (snd (parse_dir env dir_path get_progress recursive_search
                             cb s)))) q = true.
Proof.
  intros Hq Hfile. unfold parse_dir. rewrite bind_get_disk, bind_unfold.
  set (files := glob_dir (disk (snd s)) dir_path recursive_search) in *.
  pose proof (parse_loop_outside get_progress cb (length files) files 1 s q
                Hq Hfile) as H.
  destruct (parse_loop env get_progress cb (length files) files 1 s)
    as [[[] | e] s1]; cbn [fst snd] in *; [| exact H].
  destruct (wants_progress get_progress cb); [| exact H].
  rewrite bind_get_self. destruct cb; destruct s1 as [o1 w1]; exact H.
Qed.

Lemma glob_dir_not_a_directory d dir_path recursive_search :
  is_dir d dir_path = false -> glob_dir d dir_path recursive_search = [].
Proof.
  intros H. destruct (glob_dir d dir_path recursive_search) as [| k l] eqn:E;
    [reflexivity |].
  assert (k ∈ glob_dir d dir_path recursive_search) as Hk by (rewrite E; left).
  apply elem_of_glob_dir in Hk as (_ & rest & -> & Hne & _ & Hwalk & _).
  specialize (Hwalk [] rest eq_refl Hne). rewrite app_nil_r in Hwalk.
  congruence.
Qed.

(** X18.  When [dir_path] is not a directory (a missing path, or a file),
    [parse_dir] with a callback raises nothing: it enumerates nothing,
    delivers the summary of the unchanged counters, and changes nothing
    else. *)
Theorem parse_dir_source_not_a_directory (dir_path : path)
    (get_progress recursive_search : bool) (s : state) :
  is_dir (disk (snd s)) dir_path = false ->
  parse_dir env dir_path get_progress recursive_search CbFunction s
  = (Ok tt,
     (fst s,
      {| disk := disk (snd s); stdout := stdout (snd s);
         delivered := delivered (snd s)
                      ++ [Totals (str_of_nat (total_images (fst s)))
                                 (str_of_nat (total_videos (fst s)))
                                 (str_of_nat (total_unknown (fst s)))];
         calls := calls (snd s); ticks := ticks (snd s) |})).
Proof.
  intros H. unfold parse_dir. rewrite bind_get_disk.
  rewrite (glob_dir_not_a_directory _ _ _ H). cbn [length parse_loop].
  rewrite bind_ret.
  replace (wants_progress get_progress CbFunction) with true
    by (destruct get_progress; reflexivity).
  rewrite bind_get_self. reflexivity.
Qed.

End Outside.

(** The statement applied: [README] in a run in move mode. *)
Lemma files_outside_the_enumeration_stay_witness :
  let s := snd (__init__ Sample.env ["out"] "images" "videos" "unknown" true
                  false (Sample.world_of Sample.with_readme)) in
  let q := ["src"; "README"] in
  (q ∉ glob_dir (disk (snd s)) ["src"] true)
  /\ is_file (disk (snd s)) q = true
  /\ is_file (disk (snd (snd (parse_dir Sample.env ["src"] true true CbFunction s))))
             q = true.
Proof.
  intros s q.
  assert (q ∉ glob_dir (disk (snd s)) ["src"] true) as H1.
  { apply (bool_decide_unpack _). vm_compute. exact I. }
  assert (is_file (disk (snd s)) q = true) as H2 by (vm_compute; reflexivity).
  split; [exact H1 |]. split; [exact H2 |].
  exact (files_outside_the_enumeration_stay Sample.env ["src"] true true
           CbFunction s q H1 H2).
Defined.

(** The statement applied: a source directory that is not there. *)
Lemma parse_dir_source_not_a_directory_witness :
  let s := snd (__init__ Sample.env ["out"] "images" "videos" "unknown" false
                  false (Sample.world_of Sample.one_picture)) in
  is_dir (disk (snd s)) ["pictures"] = false
  /\ fst (parse_dir Sample.env ["pictures"] true true CbFunction s) = Ok tt
  /\ delivered (snd (snd (parse_dir Sample.env ["pictures"] true true
                            CbFunction s)))
     = delivered (snd s) ++ [Totals (str_of_nat (total_images (fst s)))
                                    (str_of_nat (total_videos (fst s)))
                                    (str_of_nat (total_unknown (fst s)))].
Proof.
  intros s.
  assert (is_dir (disk (snd s)) ["pictures"] = false) as H
    by (vm_compute; reflexivity).
  split; [exact H |].
  rewrite (parse_dir_source_not_a_directory Sample.env ["pictures"] true true s H).
  split; reflexivity.
Defined.

(** ** One file, from the first call to the last *)

Section EndToEnd.
Context (env : Env).

Lemma check_filetype_media_info_tracks file s bytes mt tracks :
  disk (snd s) !! file = Some (Node (KFile bytes) mt) ->
  mediainfo_parse env file bytes = Ok tracks ->
  _check_filetype_media_info env file s = (Ok (nth_error tracks 1), s).
Proof.
  intros Hfile Hmi. unfold _check_filetype_media_info, try_except, read_with.
  rewrite bind_unfold, bind_get_disk, Hfile. unfold lift. rewrite Hmi.
  unfold index. destruct (nth_error tracks 1); reflexivity.
Qed.

Lemma classifier_run f s bytes mt media_type :
  disk (snd s) !! f = Some (Node (KFile bytes) mt) ->
  classifier_answer env (fst s) f bytes media_type ->
  (if negb (fast_parse (fst s)) then _check_filetype_media_info env f
   else ret (_check_filetype_mime env f)) s = (Ok media_type, s).
Proof.
  intros Hfile Hcls. unfold classifier_answer in Hcls.
  destruct (fast_parse (fst s)); cbn [negb].
  - rewrite Hcls. reflexivity.
  - destruct Hcls as (tracks & Hmi & ->).
    eapply check_filetype_media_info_tracks; eassumption.
Qed.

(** The loop body on a regular file whose classifier, Exif reader and
    sorter are known to return. *)
Lemma parse_file_run gp cb total f i s bytes mt media_type exif c dst node :
  let time := if truthy exif then default ""%string exif else strftime_m mt in
  wants_progress gp cb = true ->
  disk (snd s) !! f = Some (Node (KFile bytes) mt) ->
  classifier_answer env (fst s) f bytes media_type ->
  dispatch media_type = Some c ->
  (truthy exif = false -> (1000 <= Z.of_nat (dt_year mt) <= 9999)%Z) ->
  (forall s1, disk (snd s1) = disk (snd s) -> fst s1 = fst s ->
              _get_exif env f s1 = (Ok exif, s1)) ->
  (forall s1, disk (snd s1) = disk (snd s) -> fst s1 = fst s ->
     exists s2, sorter env c (category_dir c) f time s1 = (Ok tt, s2)
                /\ calls (snd s2) = calls (snd s1) ++ [Placed c f dst]
                /\ disk (snd s2) !! dst = Some node) ->
  exists s',
    parse_file env gp cb total f i s = (Ok tt, s')
    /\ reported cb i total (snd s) (snd s')
    /\ calls (snd s')
       = calls (snd s) ++ file_calls f media_type exif (strftime_m mt) dst
    /\ disk (snd s') !! dst = Some node
    /\ (forall c', totals (fst s') c'
                   = totals (fst s) c' + (if bool_decide (c' = c) then 1 else 0)).
Proof.
  intros time Hw Hfile Hcls Hdisp Hyr Hexif Hsort.
  unfold parse_file. rewrite bind_get_disk. unfold is_file at 1.
  rewrite Hfile, Hw.
  (* the report *)
  assert (exists s1,
            match cb with
            | CbNone => print (processing i total)
            | CbFunction =>
                call_callback cb (Progress (processing i total) (i, total))
            end s = (Ok tt, s1)
            /\ fst s1 = fst s /\ disk (snd s1) = disk (snd s)
            /\ calls (snd s1) = calls (snd s)
            /\ reported cb i total (snd s) (snd s1))
    as (s1 & Hrep & A1 & D1 & C1 & R1).
  { destruct s as [o w]. destruct cb; eexists; (split; [reflexivity |]);
      repeat split. }
  rewrite bind_unfold, Hrep, bind_get_self.
  (* the classifier *)
  rewrite bind_unfold.
  rewrite (classifier_run f s1 bytes mt media_type)
    by (rewrite ?D1, ?A1; assumption).
  rewrite bind_unfold. cbn [note set_world].
  set (s2 := (fst s1, _)).
  assert (fst s2 = fst s /\ disk (snd s2) = disk (snd s)
          /\ calls (snd s2) = calls (snd s) ++ [Classified f media_type]
          /\ stdout (snd s2) = stdout (snd s1)
          /\ delivered (snd s2) = delivered (snd s1)) as (A2 & D2 & C2 & O2 & L2).
  { unfold s2. cbn [fst snd disk calls stdout delivered]. rewrite C1. auto. }
  clearbody s2.
  (* the timestamp *)
  assert (exists s3,
            file_creation_date env f s2 = (Ok time, s3)
            /\ fst s3 = fst s /\ disk (snd s3) = disk (snd s)
            /\ calls (snd s3)
               = calls (snd s2)
                 ++ GotExif f exif
                    :: (if truthy exif then []
                        else [GotModificationTime f (strftime_m mt)])
            /\ stdout (snd s3) = stdout (snd s2)
            /\ delivered (snd s3) = delivered (snd s2))
    as (s3 & Hdate & A3 & D3 & C3 & O3 & L3).
  { unfold file_creation_date. rewrite bind_unfold, (Hexif s2 D2 A2).
    rewrite bind_unfold. cbn [note set_world]. unfold time.
    destruct (truthy exif); cbn [negb].
    - eexists. split; [reflexivity |]. cbn [fst snd disk calls stdout delivered].
      repeat split; assumption.
    - rewrite bind_unfold.
      rewrite (get_modification_time_civil f _ bytes mt)
        by first [cbn [snd disk]; rewrite D2; exact Hfile | apply Hyr; reflexivity].
      rewrite bind_unfold. cbn [note set_world ret].
      eexists. split; [reflexivity |]. cbn [fst snd disk calls stdout delivered].
      rewrite <- app_assoc. repeat split; assumption. }
  rewrite bind_unfold, Hdate.
  (* the sorter and the counter *)
  destruct (Hsort s3 D3 A3) as (s4 & Hrun & C4 & N4).
  pose proof (sorter_logs env c (category_dir c) f time s3) as Hlog.
  rewrite Hrun in Hlog. destruct Hlog as (A4 & O4 & L4 & _).
  cbn [fst snd] in A4, O4, L4.
  assert (forall g : ImageOrganizer -> ImageOrganizer,
            (forall o c', totals (g o) c'
                          = totals o c' + (if bool_decide (c' = c) then 1 else 0)) ->
            exists s',
              (sorter env c (category_dir c) f time ;; set_self g) s3 = (Ok tt, s')
              /\ reported cb i total (snd s) (snd s')
              /\ calls (snd s')
                 = calls (snd s) ++ file_calls f media_type exif (strftime_m mt) dst
              /\ disk (snd s') !! dst = Some node
              /\ (forall c', totals (fst s') c'
                    = totals (fst s) c'
                      + (if bool_decide (c' = c) then 1 else 0))) as Hend.
  { intros g Hg. exists (g (fst s4), snd s4).
    split; [rewrite bind_unfold, Hrun; reflexivity |]. cbn [fst snd].
    split.
    { unfold reported in *. destruct cb; rewrite O4, L4, O3, L3, O2, L2; exact R1. }
    split.
    { rewrite C4, C3, C2. unfold file_calls. rewrite Hdisp, <- !app_assoc.
      reflexivity. }
    split; [exact N4 |].
    intros c'. rewrite Hg, A4, A3. reflexivity. }
  unfold dispatch in Hdisp.
  destruct (truthy media_type).
  - destruct (bool_decide (media_type = Some "Image"%string)).
    + injection Hdisp as <-. apply Hend.
      clear; intros o []; case_bool_decide; try congruence; cbn; lia.
    + destruct (bool_decide (media_type = Some "Video"%string)); [| discriminate].
      injection Hdisp as <-. apply Hend.
      clear; intros o []; case_bool_decide; try congruence; cbn; lia.
  - injection Hdisp as <-. apply Hend.
    clear; intros o []; case_bool_decide; try congruence; cbn; lia.
Qed.

Lemma get_exif_none f s bytes mt :
  disk (snd s) !! f = Some (Node (KFile bytes) mt) ->
  no_capture_date env f bytes ->
  _get_exif env f s = (Ok None, s).
Proof.
  intros Hfile [(e & Hpil & Hos) | (open_image & Hpil & Htag)];
    unfold _get_exif; rewrite bind_unfold; unfold try_except at 1, read_with;
    rewrite bind_unfold, bind_get_disk, Hfile; unfold lift at 1; rewrite Hpil.
  - rewrite Hos. reflexivity.
  - cbn [ret]. case_bool_decide; [| reflexivity].
    unfold try_except, date_time_original. rewrite bind_unfold, Htag.
    reflexivity.
Qed.

Lemma stamp_truthy (mo rest : string) :
  truthy (Some (mo ++ String "-" rest)%string) = true.
Proof. destruct mo; reflexivity. Qed.

(** X19.  One file from end to end, by its capture date.  Take a regular
    file whose Exif [DateTimeOriginal] is [y:mo:d h:mi:se], the six fields
    without colon, space, NUL byte, dash or slash, the year [y] not empty,
    [.] or [..], the month [mo] of at most 4300 characters and read by
    [int] as an integer from 1 to 12; whose media type, as the classifier
    of the mode answers it, selects the category [c]; the directory of
    [c] exists, the year and month directories are directories or absent;
    and the file name, [str.lower] of [mo-d-y [h.mi.se]] followed by the
    suffix of the file, names one entry (no slash, not empty, [.] or [..])
    and is free in the month directory.  Then the loop body, progress
    wanted, returns: it reports the progress, classifies the file, reads
    the capture date, never asks for the modification time, and places
    the file at [<directory of c>/<y>/<month name, lower case>/<file
    name>], bytes and modification time as they were; the counter of [c]
    goes up by one and no other counter moves. *)
Theorem file_with_capture_date_is_filed (gp : bool) (cb : callback)
    (total : nat) (f : path) (i : nat) (s : state) (bytes : string)
    (mt : datetime) (open_image : option Z -> list (Z * string))
    (y mo d h mi se : string) (m : Z) (media_type : option string)
    (c : category) (root : path) :
  let stamp := (mo ++ "-" ++ d ++ "-" ++ y ++ " [" ++ h ++ "." ++ mi ++ "."
                ++ se ++ "]")%string in
  let mon := lower (default ""%string (month_names !! Z.to_nat m)) in
  let file_name := str_lower env (stamp ++ suffix f)%string in
  let dst := root ++ [y; mon; file_name] in
  let disk0 := disk (snd s) in
  wants_progress gp cb = true ->
  disk0 !! f = Some (Node (KFile bytes) mt) ->
  classifier_answer env (fst s) f bytes media_type ->
  dispatch media_type = Some c ->
  pil_getexif env f bytes = Ok open_image ->
  make_exif_dict env (open_image (find_exif_key (TAGS env) None))
    !! inl "DateTimeOriginal"
  = Some (y ++ ":" ++ mo ++ ":" ++ d ++ " " ++ h ++ ":" ++ mi ++ ":" ++ se)%string ->
  clean y -> clean mo -> clean d -> clean h -> clean mi -> clean se ->
  entry_name y ->
  String.length mo <= 4300 ->
  int mo = Ok m -> (1 <= m <= 12)%Z ->
  entry_name file_name ->
  category_dir c (fst s) = Some root ->
  is_dir disk0 root = true ->
  dir_or_absent disk0 (root ++ [y]) = true ->
  dir_or_absent disk0 (root ++ [y; mon]) = true ->
  disk0 !! dst = None ->
  exists s',
    parse_file env gp cb total f i s = (Ok tt, s')
    /\ reported cb i total (snd s) (snd s')
    /\ calls (snd s')
       = calls (snd s)
         ++ [Classified f media_type; GotExif f (Some stamp); Placed c f dst]
    /\ disk (snd s') !! dst = Some (Node (KFile bytes) mt)
    /\ (forall c', totals (fst s') c'
                   = totals (fst s) c' + (if bool_decide (c' = c) then 1 else 0)).
Proof.
  intros stamp mon file_name dst disk0 Hw Hfile Hcls Hdisp Hpil Htag
         [Py Fy] [Pmo Fmo] [Pd Fd] [Ph Fh] [Pmi Fmi] [Pse Fse] Hy Hlen Hint Hm
         Hname Hdir Hroot Hyear Hmonth Hdst.
  set (tail := ("[" ++ h ++ "." ++ mi ++ "." ++ se ++ "]")%string).
  assert (stamp = (mo ++ "-" ++ d ++ "-" ++ y ++ " " ++ tail)%string) as Estamp
    by reflexivity.
  assert (truthy (Some stamp) = true) as Htruthy by apply stamp_truthy.
  pose proof (parse_file_run gp cb total f i s bytes mt media_type (Some stamp)
                c dst (Node (KFile bytes) mt)) as H.
  cbv zeta in H. rewrite Htruthy in H. unfold file_calls in H.
  rewrite Htruthy, Hdisp in H. cbn [default] in H. unfold id in H.
  apply H; try assumption; try reflexivity.
  - discriminate.
  - intros s1 D1 A1.
    rewrite (get_exif_of_tag env f s1 bytes mt open_image _
               ltac:(rewrite D1; exact Hfile) Hpil Htag).
    unfold try_except.
    rewrite (date_time_original_reformat _ s1 _ _ _ _ _ _ Py Pmo Pd Ph Pmi Pse Htag).
    reflexivity.
  - intros s1 D1 A1.
    destruct (sorter_files_by_stamp env c (category_dir c) f s1 bytes mt root
                mo d y tail m Fmo Fd Fy Hy Hlen Hint Hm Hname)
      as (s2 & Hrun & Hcalls & Hnode & _);
      rewrite ?D1, ?A1; try assumption.
    exists s2. rewrite Estamp. auto.
Qed.

(** X20.  One file from end to end, by its modification time.  Take a
    regular file in which PIL finds no capture date (it cannot open the
    file, or the Exif data has no [DateTimeOriginal]), whose modification
    time is a time of the calendar in the years 1000 to 9999, and whose
    media type, as the classifier of the mode answers it, selects the
    category [c]; the directory of [c] exists, the year and month
    directories are directories or absent; and the file name, [str.lower]
    of the timestamp [%m-%d-%Y [%H.%M.%S]] followed by the suffix of the
    file, names one entry (no slash, not empty, [.] or [..]) and is free
    in the month directory.  Then the loop body, progress wanted,
    returns: it reports the progress, classifies the file, reads the
    capture date, falls back to the modification time, and places the
    file at [<directory of c>/<year>/<month name, lower case>/<file
    name>], bytes and modification time as they were; the counter of [c]
    goes up by one and no other counter moves. *)
Theorem file_without_capture_date_is_filed (gp : bool) (cb : callback)
    (total : nat) (f : path) (i : nat) (s : state) (bytes : string)
    (mt : datetime) (media_type : option string) (c : category) (root : path) :
  let stamp := strftime_m mt in
  let yyyy := str_of_nat (dt_year mt) in
  let mon := lower (default ""%string (month_names !! dt_month mt)) in
  let file_name := str_lower env (stamp ++ suffix f)%string in
  let dst := root ++ [yyyy; mon; file_name] in
  let disk0 := disk (snd s) in
  wants_progress gp cb = true ->
  disk0 !! f = Some (Node (KFile bytes) mt) ->
  classifier_answer env (fst s) f bytes media_type ->
  dispatch media_type = Some c ->
  no_capture_date env f bytes ->
  civil mt ->
  entry_name file_name ->
  category_dir c (fst s) = Some root ->
  is_dir disk0 root = true ->
  dir_or_absent disk0 (root ++ [yyyy]) = true ->
  dir_or_absent disk0 (root ++ [yyyy; mon]) = true ->
  disk0 !! dst = None ->
  exists s',
    parse_file env gp cb total f i s = (Ok tt, s')
    /\ reported cb i total (snd s) (snd s')
    /\ calls (snd s')
       = calls (snd s)
         ++ [Classified f media_type; GotExif f None;
             GotModificationTime f stamp; Placed c f dst]
    /\ disk (snd s') !! dst = Some (Node (KFile bytes) mt)
    /\ (forall c', totals (fst s') c'
                   = totals (fst s) c' + (if bool_decide (c' = c) then 1 else 0)).
Proof.
  intros stamp yyyy mon file_name dst disk0 Hw Hfile Hcls Hdisp Hnone Hm
         Hname Hdir Hroot Hyear Hmonth Hdst.
  pose proof (parse_file_run gp cb total f i s bytes mt media_type None
                c dst (Node (KFile bytes) mt)) as H.
  cbv zeta in H. unfold file_calls in H. cbn [truthy] in H. rewrite Hdisp in H.
  apply H; try assumption; try reflexivity.
  - intros _. apply Hm.
  - intros s1 D1 A1. apply (get_exif_none f s1 bytes mt); [| exact Hnone].
    rewrite D1. exact Hfile.
  - intros s1 D1 A1.
    destruct (sorter_files_by_mtime env c (category_dir c) f s1 bytes mt root
                Hm Hname) as (s2 & Hrun & Hcalls & Hnode & _);
      rewrite ?D1, ?A1; try assumption.
    exists s2. auto.
Qed.

End EndToEnd.

(** The statement applied: the sample picture, accurate mode. *)
Lemma file_with_capture_date_is_filed_witness :
  let s := snd (__init__ Sample.env ["out"] "images" "videos" "unknown" false
                  false (Sample.world_of Sample.one_picture)) in
  let f := ["src"; "a.JPG"] in
  let bytes := "JPEG 2013:10:01 09:17:50"%string in
  let dst := ["out"; "images"; "2013"; "october"; "10-01-2013 [09.17.50].jpg"] in
  disk (snd s) !! f = Some (Node (KFile bytes) Sample.t0)
  /\ classifier_answer Sample.env (fst s) f bytes (Some "Image"%string)
  /\ int "10" = Ok 10%Z
  /\ disk (snd s) !! dst = None
  /\ exists s',
       parse_file Sample.env true CbFunction 1 f 1 s = (Ok tt, s')
       /\ calls (snd s')
          = calls (snd s)
            ++ [Classified f (Some "Image"%string);
                GotExif f (Some "10-01-2013 [09.17.50]"%string);
                Placed Image f dst]
       /\ disk (snd s') !! dst = Some (Node (KFile bytes) Sample.t0)
       /\ total_images (fst s') = total_images (fst s) + 1.
Proof.
  intros s f bytes dst.
  pose (root := ["out"; "images"]).
  pose (open_image := fun key : option Z =>
          if bool_decide (key = Some 34665%Z)
          then [(36867%Z, String.substring 5 19 bytes)] else []).
  assert (disk (snd s) !! f = Some (Node (KFile bytes) Sample.t0)) as H1
    by (vm_compute; reflexivity).
  assert (entry_name (str_lower Sample.env
                        (("10" ++ "-" ++ "01" ++ "-" ++ "2013" ++ " ["
                          ++ "09" ++ "." ++ "17" ++ "." ++ "50" ++ "]")
                         ++ suffix f)%string)) as H2
    by (repeat split; (reflexivity || discriminate)).
  assert (fast_parse (fst s) = false) as Hfp by (vm_compute; reflexivity).
  assert (classifier_answer Sample.env (fst s) f bytes (Some "Image"%string)) as H3.
  { unfold classifier_answer. rewrite Hfp. exists ["General"; "Image"]%string.
    split; reflexivity. }
  assert (dispatch (Some "Image"%string) = Some Image) as H4 by reflexivity.
  assert (pil_getexif Sample.env f bytes = Ok open_image) as H5 by reflexivity.
  assert (make_exif_dict Sample.env
            (open_image (find_exif_key (TAGS Sample.env) None))
            !! inl "DateTimeOriginal"
          = Some ("2013" ++ ":" ++ "10" ++ ":" ++ "01" ++ " " ++ "09" ++ ":"
                  ++ "17" ++ ":" ++ "50")%string) as H6
    by (vm_compute; reflexivity).
  assert (clean "2013" /\ clean "10" /\ clean "01" /\ clean "09" /\ clean "17"
          /\ clean "50") as (C1 & C2 & C3 & C4 & C5 & C6)
    by (repeat split; reflexivity).
  assert (entry_name "2013") as N1 by (repeat split; (reflexivity || discriminate)).
  assert (String.length "10" <= 4300) as N2 by (cbn; lia).
  assert (int "10" = Ok 10%Z) as Hint by reflexivity.
  assert (category_dir Image (fst s) = Some root) as H7 by (vm_compute; reflexivity).
  assert (is_dir (disk (snd s)) root = true) as H8 by (vm_compute; reflexivity).
  assert (dir_or_absent (disk (snd s)) (root ++ ["2013"]) = true) as H9
    by (vm_compute; reflexivity).
  assert (dir_or_absent (disk (snd s))
            (root ++ ["2013"; lower (default ""%string
                                       (month_names !! Z.to_nat 10))]) = true)
    as H10 by (vm_compute; reflexivity).
  assert (disk (snd s)
            !! (root ++ ["2013";
                         lower (default ""%string (month_names !! Z.to_nat 10));
                         str_lower Sample.env
                           (("10" ++ "-" ++ "01" ++ "-" ++ "2013" ++ " ["
                             ++ "09" ++ "." ++ "17" ++ "." ++ "50" ++ "]")
                            ++ suffix f)%string])
          = None) as H11 by (vm_compute; reflexivity).
  destruct (file_with_capture_date_is_filed Sample.env true CbFunction 1 f 1 s
              bytes Sample.t0 open_image "2013" "10" "01" "09" "17" "50" 10%Z
              (Some "Image"%string) Image root eq_refl H1 H3 H4 H5 H6
              C1 C2 C3 C4 C5 C6 N1 N2 Hint ltac:(lia) H2 H7 H8 H9 H10 H11)
    as (s' & Hrun & _ & Hcalls & Hnode & Htot).
  split; [exact H1 |]. split; [exact H3 |]. split; [exact Hint |].
  split; [exact H11 |].
  exists s'. split; [exact Hrun |]. split; [exact Hcalls |].
  split; [exact Hnode | exact (Htot Image)].
Defined.

(** The statement applied: the text file of the sample tree with [README]. *)
Lemma file_without_capture_date_is_filed_witness :
  let s := snd (__init__ Sample.env ["out"] "images" "videos" "unknown" false
                  false (Sample.world_of Sample.with_readme)) in
  let f := ["src"; "notes.txt"] in
  let dst := ["out"; "unknown"; "2020"; "may"; "05-17-2020 [08.03.09].txt"] in
  disk (snd s) !! f = Some (Node (KFile "notes") Sample.t0)
  /\ classifier_answer Sample.env (fst s) f "notes" None
  /\ no_capture_date Sample.env f "notes"
  /\ disk (snd s) !! dst = None
  /\ exists s',
       parse_file Sample.env true CbFunction 1 f 1 s = (Ok tt, s')
       /\ calls (snd s')
          = calls (snd s)
            ++ [Classified f None; GotExif f None;
                GotModificationTime f "05-17-2020 [08.03.09]"%string;
                Placed Unknown f dst]
       /\ disk (snd s') !! dst = Some (Node (KFile "notes") Sample.t0)
       /\ total_unknown (fst s') = total_unknown (fst s) + 1.
Proof.
  intros s f dst.
  pose (root := ["out"; "unknown"]).
  assert (disk (snd s) !! f = Some (Node (KFile "notes") Sample.t0)) as H1
    by (vm_compute; reflexivity).
  assert (entry_name (str_lower Sample.env
                        (strftime_m Sample.t0 ++ suffix f)%string)) as H2
    by (repeat split; (reflexivity || discriminate)).
  assert (fast_parse (fst s) = false) as Hfp by (vm_compute; reflexivity).
  assert (classifier_answer Sample.env (fst s) f "notes" None) as H3.
  { unfold classifier_answer. rewrite Hfp. exists ["General"]%string.
    split; reflexivity. }
  assert (dispatch None = Some Unknown) as H4 by reflexivity.
  assert (no_capture_date Sample.env f "notes") as H5.
  { left. eexists. split; reflexivity. }
  assert (civil Sample.t0) as Hm by (unfold civil; cbn; lia).
  assert (category_dir Unknown (fst s) = Some root) as H7
    by (vm_compute; reflexivity).
  assert (is_dir (disk (snd s)) root = true) as H8 by (vm_compute; reflexivity).
  assert (dir_or_absent (disk (snd s))
            (root ++ [str_of_nat (dt_year Sample.t0)]) = true)
    as H9 by (vm_compute; reflexivity).
  assert (dir_or_absent (disk (snd s))
            (root ++ [str_of_nat (dt_year Sample.t0);
                      lower (default ""%string
                               (month_names !! dt_month Sample.t0))]) = true)
    as H10 by (vm_compute; reflexivity).
  assert (disk (snd s)
            !! (root ++ [str_of_nat (dt_year Sample.t0);
                         lower (default ""%string
                                  (month_names !! dt_month Sample.t0));
                         str_lower Sample.env
                           (strftime_m Sample.t0 ++ suffix f)%string])
          = None) as H11 by (vm_compute; reflexivity).
  destruct (file_without_capture_date_is_filed Sample.env true CbFunction 1 f 1 s
              "notes" Sample.t0 None Unknown root eq_refl H1 H3 H4 H5 Hm H2
              H7 H8 H9 H10 H11)
    as (s' & Hrun & _ & Hcalls & Hnode & Htot).
  split; [exact H1 |]. split; [exact H3 |]. split; [exact H5 |].
  split; [exact H11 |].
  exists s'. split; [exact Hrun |]. split; [exact Hcalls |].
  split; [exact Hnode | exact (Htot Unknown)].
Defined.
